(** * The Librarian file catalog: [librarian_server/file.py]

    A shallow embedding of the [File], [FileInstance] and [FileEvent]
    models and of the two RPC endpoints of [file.py], with the database
    session written as explicit state, followed by the properties of the
    catalog that hold of this code. *)

From Stdlib Require Import ZArith Ascii String List Bool Lia.
From Stdlib Require Import Numbers.DecimalString.
From Stdlib Require Import Sorting.Sorted Sorting.Permutation.
From stdpp Require Import base option gmap strings list fin_maps.

Set Warnings "-register-all".

Local Open Scope string_scope.
Local Open Scope Z_scope.

(** ** Python strings *)

Module PyStr.

(** The double quote, which the messages of [file.py] put around names. *)
Definition dq : string := String (ascii_of_nat 34) EmptyString.

Definition quoted (s : string) : string := dq ++ s ++ dq.

(** [c in s] for a one-character needle. *)
Fixpoint char_in (c : ascii) (s : string) : bool :=
  match s with
  | EmptyString => false
  | String a s' => if Ascii.eqb a c then true else char_in c s'
  end.

(** [s.rfind(c)]: the index of the last occurrence, or -1. *)
Fixpoint rfind (c : ascii) (s : string) : Z :=
  match s with
  | EmptyString => -1
  | String a s' =>
      let r := rfind c s' in
      if 0 <=? r then r + 1 else if Ascii.eqb a c then 0 else -1
  end.

(** [s[n:]] for [0 <= n]. *)
Fixpoint drop (n : nat) (s : string) : string :=
  match n, s with
  | O, _ => s
  | S n', EmptyString => EmptyString
  | S n', String _ s' => drop n' s'
  end.

Definition startswith_char (c : ascii) (s : string) : bool :=
  match s with
  | String a _ => Ascii.eqb a c
  | EmptyString => false
  end.

Fixpoint endswith_char (c : ascii) (s : string) : bool :=
  match s with
  | EmptyString => false
  | String a EmptyString => Ascii.eqb a c
  | String _ s' => endswith_char c s'
  end.

(** [str.lower()] on the ASCII letters. *)
Definition lower_char (c : ascii) : ascii :=
  let n := nat_of_ascii c in
  if ((65 <=? n) && (n <=? 90))%nat then ascii_of_nat (n + 32) else c.

Fixpoint lower (s : string) : string :=
  match s with
  | EmptyString => EmptyString
  | String a s' => String (lower_char a) (lower s')
  end.

Fixpoint forallb_str (p : ascii -> bool) (s : string) : bool :=
  match s with
  | EmptyString => true
  | String a s' => p a && forallb_str p s'
  end.

(** ['%d' % z] *)
Definition of_Z (z : Z) : string := NilZero.string_of_int (Z.to_int z).

Definition len (s : string) : Z := Z.of_nat (String.length s).

End PyStr.

(** ** [os.path] (posixpath, Python 2.7) *)

Module OsPath.
Import PyStr.

Definition sep : ascii := "/"%char.

(** [i = p.rfind('/') + 1; return p[i:]] *)
Definition basename (p : string) : string :=
  let i := rfind sep p + 1 in
  drop (Z.to_nat i) p.

(** One round of the loop of [join]. *)
Definition join_step (path b : string) : string :=
  if startswith_char sep b then b
  else if (String.eqb path EmptyString || endswith_char sep path)%bool then path ++ b
  else path ++ "/" ++ b.

(** [os.path.join(a, *p)] *)
Definition join (a : string) (p : list string) : string :=
  fold_left join_step p a.

End OsPath.

(** ** Exceptions *)

(** The exceptions that leave the functions of [file.py]. [ValueError] is
    raised by the constructors, [ServerError] (from [webutil]) by the
    endpoints and by [required_arg], [TypeError] by a call whose keyword
    arguments clash, [AttributeError] by an attribute read on [None];
    [IntegrityError] is raised by the database when a commit violates a key
    of the schema, and [DataError] when a value does not fit the type of
    its column. *)
Inductive exn : Type :=
| ValueError (msg : string)
| ServerError (msg : string)
| TypeError (msg : string)
| AttributeError (msg : string)
| IntegrityError (table : string) (constraint : string)
| DataError (table : string).

Inductive result (A : Type) : Type :=
| OK (a : A)
| Raise (e : exn).
Arguments OK {A} a.
Arguments Raise {A} e.

Definition is_OK {A} (r : result A) : bool :=
  match r with OK _ => true | Raise _ => false end.

Definition is_ValueError {A} (r : result A) : bool :=
  match r with Raise (ValueError _) => true | _ => false end.

Definition is_ServerError {A} (r : result A) : bool :=
  match r with Raise (ServerError _) => true | _ => false end.

Definition is_IntegrityError {A} (r : result A) : bool :=
  match r with Raise (IntegrityError _ _) => true | _ => false end.

Definition is_DataError {A} (r : result A) : bool :=
  match r with Raise (DataError _) => true | _ => false end.

(** The two refusals of a commit by the database. *)
Definition is_database_error (e : exn) : bool :=
  match e with
  | IntegrityError _ _ | DataError _ => true
  | _ => false
  end.

Definition rbind {A B} (r : result A) (k : A -> result B) : result B :=
  match r with
  | OK a => k a
  | Raise e => Raise e
  end.

Notation "'try!' x ':=' e 'in' k" := (rbind e (fun x => k))
  (at level 10, x name, e at level 100, k at level 200).

(** ** Python values and [webutil.required_arg] *)

(** The core never computes with a float ([lst], [start_jd], durations and
    rates are carried from one record to another and printed by
    [json.dumps]); a float is represented by its [repr]. *)
Record pyfloat : Type := PyFloat { float_repr : string }.

Inductive pyval : Type :=
| VNone
| VBool (b : bool)
| VInt (z : Z)
| VFloat (f : pyfloat)
| VStr (s : string)
| VList (l : list pyval)
| VDict (d : list (string * pyval)).

(** The types that [file.py] hands to [required_arg]. *)
Inductive pytype : Type := Tint | Tunicode | Tfloat | Tdict.

Definition pytype_sem (t : pytype) : Type :=
  match t with
  | Tint => Z
  | Tunicode => string
  | Tfloat => pyfloat
  | Tdict => list (string * pyval)
  end.

Definition pytype_name (t : pytype) : string :=
  match t with
  | Tint => "int"
  | Tunicode => "unicode"
  | Tfloat => "float"
  | Tdict => "dict"
  end.

Definition coerce (t : pytype) : pyval -> option (pytype_sem t) :=
  match t return pyval -> option (pytype_sem t) with
  | Tint => fun v => match v with VInt z => Some z | _ => None end
  | Tunicode => fun v => match v with VStr s => Some s | _ => None end
  | Tfloat => fun v => match v with VFloat f => Some f | _ => None end
  | Tdict => fun v => match v with VDict d => Some d | _ => None end
  end.

(** Modelled from the spec: [webutil.required_arg] is not in this part of
    the repository. An argument that is absent (or [None]) is a missing
    required argument, reported as a [ServerError]; a present one must have
    the type asked for, the types being those of the metadata record
    [{size:int, md5:string, type:string, lst:float, obsid:int,
    start_jd:float?}]. *)
Definition required_arg (args : gmap string pyval) (argtype : pytype)
    (argname : string) : result (pytype_sem argtype) :=
  match args !! argname with
  | None | Some VNone =>
      Raise (ServerError ("required parameter " ++ PyStr.quoted argname ++ " not provided"))
  | Some v =>
      match coerce argtype v with
      | Some x => OK x
      | None =>
          Raise (ServerError ("parameter " ++ PyStr.quoted argname
                              ++ " should be of type " ++ pytype_name argtype))
      end
  end.

(** ** [hera_librarian.utils.normalize_and_validate_md5] *)

Definition is_hex_digit (c : ascii) : bool :=
  let n := nat_of_ascii c in
  (((48 <=? n) && (n <=? 57)) || ((97 <=? n) && (n <=? 102)))%nat.

(** Modelled from the spec: [hera_librarian.utils] is not in this part of
    the repository. The normalized form of an MD5 sum is its 32-character
    lowercase hexadecimal digest; a text that does not reduce to 32
    hexadecimal characters is refused with a [ValueError]. *)
Definition normalize_and_validate_md5 (text : string) : result string :=
  let norm_text := PyStr.lower text in
  if ((String.length norm_text =? 32)%nat && PyStr.forallb_str is_hex_digit norm_text)%bool
  then OK norm_text
  else Raise (ValueError ("illegal MD5 sum " ++ PyStr.quoted text
                          ++ ": must be 32 hexadecimal characters")).

(** ** Naive datetimes, the clock and the local time zone *)

(** A naive [datetime.datetime] is represented by the whole seconds between
    1970-01-01T00:00:00 and its wall-clock reading, and its microsecond
    field. In this representation [calendar.timegm (dt.timetuple ())], which
    reads the fields as UTC, is the seconds component. *)
Record datetime : Type := Datetime { wall_seconds : Z; microsecond : Z }.

Definition replace_microsecond (dt : datetime) (us : Z) : datetime :=
  {| wall_seconds := wall_seconds dt; microsecond := us |}.

Definition timegm_timetuple (dt : datetime) : Z := wall_seconds dt.

(** The seconds of 0001-01-01T00:00:00 and of 9999-12-31T23:59:59, the
    first and the last second that a [datetime] can hold. *)
Definition MINYEAR_seconds : Z := -62135596800.
Definition MAXYEAR_seconds : Z := 253402300799.

Definition seconds_in_range (w : Z) : bool :=
  (MINYEAR_seconds <=? w) && (w <=? MAXYEAR_seconds).

(** What a call reads of the process it runs in: the UTC clock, whose
    reading is a [datetime] and so lies in the years 1 to 9999, and the UTC
    offset, in seconds, of the local time zone at a given Unix time. *)
Record Env : Type := {
  utcnow : datetime;
  local_utcoffset : Z -> Z;
  utcnow_in_range : seconds_in_range (wall_seconds utcnow) = true;
}.

(** [datetime.datetime.fromtimestamp (t)]: the local date and time of the
    POSIX timestamp [t], as a naive datetime; a [ValueError] when that
    local time falls outside the years 1 to 9999. *)
Definition fromtimestamp (env : Env) (t : Z) : result datetime :=
  let w := t + local_utcoffset env t in
  if seconds_in_range w
  then OK {| wall_seconds := w; microsecond := 0 |}
  else Raise (ValueError "year is out of range").

(** ** [json.dumps] *)

Module Json.
Import PyStr.

Definition hex_digit (n : nat) : ascii :=
  if (n <? 10)%nat then ascii_of_nat (48 + n) else ascii_of_nat (87 + n).

(** The escape of one character under [ensure_ascii]: the printable ASCII
    characters stand for themselves, except the backslash and the double
    quote; the rest is escaped. *)
Definition escape_char (c : ascii) : string :=
  let n := nat_of_ascii c in
  if (n =? 34)%nat then "\" ++ dq
  else if (n =? 92)%nat then "\\"
  else if (n =? 10)%nat then "\n"
  else if (n =? 13)%nat then "\r"
  else if (n =? 9)%nat then "\t"
  else if (n =? 8)%nat then "\b"
  else if (n =? 12)%nat then "\f"
  else if ((32 <=? n) && (n <=? 126))%nat then String c EmptyString
  else "\u00" ++ String (hex_digit (n / 16)) (String (hex_digit (n mod 16)) EmptyString).

Fixpoint escape (s : string) : string :=
  match s with
  | EmptyString => EmptyString
  | String c s' => escape_char c ++ escape s'
  end.

Definition dumps_str (s : string) : string := dq ++ escape s ++ dq.

Fixpoint join_with (sep : string) (l : list string) : string :=
  match l with
  | [] => EmptyString
  | [x] => x
  | x :: l' => x ++ sep ++ join_with sep l'
  end.

(** [json.dumps (v)] with the default separators [', '] and [': ']. *)
Fixpoint dumps (v : pyval) : string :=
  match v with
  | VNone => "null"
  | VBool true => "true"
  | VBool false => "false"
  | VInt z => of_Z z
  | VFloat f => float_repr f
  | VStr s => dumps_str s
  | VList l => "[" ++ join_with ", " (List.map dumps l) ++ "]"
  | VDict d =>
      "{" ++ join_with ", "
               (List.map (fun kv => dumps_str (fst kv) ++ ": " ++ dumps (snd kv)) d)
          ++ "}"
  end.

End Json.

(** ** The models *)

Module Observation.
(** [Observation (obsid, start_jd, None, lst)], from [observation.py]. *)
Record t : Type := {
  obsid : Z;
  start_time_jd : pyfloat;
  stop_time_jd : option pyfloat;
  start_lst_hr : pyfloat;
}.
End Observation.

(** The answer of a store to a metadata probe over SSH: the metadata record
    or the text of the exception raised. *)
Inductive probe_result : Type :=
| ProbeInfo (info : gmap string pyval)
| ProbeFailed (e : string).

Module Store.
(** A [Store], from [store.py]: the columns that [file.py] reads and the
    one method it calls. *)
Record t : Type := {
  id : Z;
  name : string;
  path_prefix : string;
  ssh_host : string;
  get_info_for_path : string -> probe_result;
}.
End Store.

Module FileEvent.

Record t : Type := {
  id : option Z;   (* assigned by the database on insertion *)
  name : string;
  time : datetime;
  type : string;
  payload : string;
}.

Definition __init__ (env : Env) (name type : string) (payload_struct : list (string * pyval))
    : result t :=
  if PyStr.char_in "/" name
  then Raise (ValueError ("illegal file name " ++ PyStr.quoted name
                          ++ ": names may not contain " ++ PyStr.quoted "/"))
  else OK {| id := None;
             name := name;
             time := replace_microsecond (utcnow env) 0;
             type := type;
             payload := Json.dumps (VDict payload_struct) |}.

End FileEvent.

Module FileInstance.

Record t : Type := {
  store : Z;
  parent_dirs : string;
  name : string;
}.

Definition __init__ (store_obj : Store.t) (parent_dirs name : string) : result t :=
  if PyStr.char_in "/" name
  then Raise (ValueError ("illegal file name " ++ PyStr.quoted name
                          ++ ": names may not contain " ++ PyStr.quoted "/"))
  else OK {| store := Store.id store_obj;
             parent_dirs := parent_dirs;
             name := name |}.

Definition store_path (self : t) : string :=
  OsPath.join (parent_dirs self) [name self].

(** [self.store_object] is the argument [store_object]. *)
Definition full_path_on_store (store_object : Store.t) (self : t) : string :=
  OsPath.join (Store.path_prefix store_object) [parent_dirs self; name self].

End FileInstance.

Module File.

Record t : Type := {
  name : string;
  type : string;
  create_time : datetime;   (* rounded to integer seconds *)
  obsid : Z;
  size : Z;
  md5 : string;
  source : string;
}.

(** Check that this object's fields follow our invariants. *)
Definition _validate (self : t) : result unit :=
  if PyStr.char_in "/" (name self)
  then Raise (ValueError ("illegal file name " ++ PyStr.quoted (name self)
                          ++ ": names may not contain " ++ PyStr.quoted "/"))
  else
    try! checked := normalize_and_validate_md5 (md5 self) in
    if negb (size self >=? 0)
    then Raise (ValueError ("illegal size " ++ PyStr.of_Z (size self) ++ " of file "
                            ++ PyStr.quoted (name self) ++ ": negative"))
    else OK tt.

Definition __init__ (env : Env) (name type : string) (obsid : Z) (source : string)
    (size : Z) (md5 : string) (create_time : option datetime) : result t :=
  let create_time :=
    match create_time with
    | None => replace_microsecond (utcnow env) 0
    | Some c => c
    end in
  try! md5 := normalize_and_validate_md5 md5 in
  let self := {| name := name; type := type; create_time := create_time;
                 obsid := obsid; size := size; md5 := md5; source := source |} in
  try! validated := _validate self in
  OK self.

Definition create_time_unix (self : t) : Z :=
  timegm_timetuple (create_time self).

(** Note that 'source' is not a propagated quantity. *)
Definition to_dict (self : t) : gmap string pyval :=
  <["name" := VStr (name self)]>
  (<["type" := VStr (type self)]>
  (<["create_time" := VInt (create_time_unix self)]>
  (<["obsid" := VInt (obsid self)]>
  (<["size" := VInt (size self)]>
  (<["md5" := VStr (md5 self)]> ∅))))).

Definition from_dict (env : Env) (source : string) (info : gmap string pyval) : result t :=
  try! name := required_arg info Tunicode "name" in
  try! type := required_arg info Tunicode "type" in
  try! ctime_unix := required_arg info Tint "create_time" in
  try! obsid := required_arg info Tint "obsid" in
  try! size := required_arg info Tint "size" in
  try! md5 := required_arg info Tunicode "md5" in
  try! create_time := fromtimestamp env ctime_unix in
  __init__ env name type obsid source size md5 (Some create_time).

(** [make_generic_event (self, type, **kwargs)]: a keyword of the payload
    that names one of the two positional parameters cannot be bound. *)
Definition make_generic_event (env : Env) (self : t) (type : string)
    (kwargs : list (string * pyval)) : result FileEvent.t :=
  if existsb (fun kv => String.eqb (fst kv) "self" || String.eqb (fst kv) "type") kwargs
  then Raise (TypeError "make_generic_event() got multiple values for keyword argument")
  else FileEvent.__init__ env (name self) type kwargs.

End File.

(** ** The database *)

(** The five tables that [file.py] reads or writes, each with its rows in
    insertion order, and the sequence of the [file_event.id] column. *)
Record DB : Type := {
  observations : list Observation.t;
  stores : list Store.t;
  files : list File.t;
  file_instances : list FileInstance.t;
  file_events : list FileEvent.t;
  file_event_id_seq : Z;
}.

Definition File_query_get (d : DB) (name : string) : option File.t :=
  List.find (fun f => String.eqb (File.name f) name) (files d).

Definition Observation_query_get (d : DB) (obsid : Z) : option Observation.t :=
  List.find (fun o => Observation.obsid o =? obsid) (observations d).

Definition Store_query_get (d : DB) (id : Z) : option Store.t :=
  List.find (fun s => Store.id s =? id) (stores d).

(** [file.instances]: the relationship over the foreign key [file_instance.name]. *)
Definition File_instances (d : DB) (f : File.t) : list FileInstance.t :=
  List.filter (fun i => String.eqb (FileInstance.name i) (File.name f)) (file_instances d).

(** [file.events] *)
Definition File_events (d : DB) (f : File.t) : list FileEvent.t :=
  List.filter (fun e => String.eqb (FileEvent.name e) (File.name f)) (file_events d).

Definition same_instance_key (i j : FileInstance.t) : bool :=
  (FileInstance.store i =? FileInstance.store j)
  && String.eqb (FileInstance.parent_dirs i) (FileInstance.parent_dirs j)
  && String.eqb (FileInstance.name i) (FileInstance.name j).

(** An object handed to [db.session.add]. *)
Inductive model_obj : Type :=
| NewObservation (o : Observation.t)
| NewFile (f : File.t)
| NewFileInstance (i : FileInstance.t)
| NewFileEvent (e : FileEvent.t).

(** [db.String (n)]: at most [n] characters. *)
Definition fits_String (n : nat) (s : string) : bool :=
  (String.length s <=? n)%nat.

(** [db.BigInteger]: a signed integer of 64 bits. *)
Definition fits_BigInteger (z : Z) : bool :=
  (-9223372036854775808 <=? z) && (z <=? 9223372036854775807).

(** Whether the values of a row fit the types that the schema declares for
    its columns. [observation.obsid], which [file.obsid] refers to, is
    taken to be of its type; [file_event.id] is assigned by the database,
    and [file_event.payload] is an unbounded [Text]. *)
Definition fits_columns (o : model_obj) : bool :=
  match o with
  | NewObservation ob => fits_BigInteger (Observation.obsid ob)
  | NewFile f =>
      fits_String 256 (File.name f) && fits_String 32 (File.type f)
      && fits_BigInteger (File.obsid f) && fits_BigInteger (File.size f)
      && fits_String 32 (File.md5 f) && fits_String 64 (File.source f)
  | NewFileInstance i =>
      fits_BigInteger (FileInstance.store i)
      && fits_String 128 (FileInstance.parent_dirs i)
      && fits_String 256 (FileInstance.name i)
  | NewFileEvent e =>
      fits_String 256 (FileEvent.name e) && fits_String 64 (FileEvent.type e)
  end.

Definition table_of (o : model_obj) : string :=
  match o with
  | NewObservation _ => "observation"
  | NewFile _ => "file"
  | NewFileInstance _ => "file_instance"
  | NewFileEvent _ => "file_event"
  end.

(** The keys that the schema declares: the primary keys
    [observation.obsid], [file.name], [file_instance.(store, parent_dirs,
    name)] and [file_event.id], and the foreign keys [file.obsid],
    [file_instance.store], [file_instance.name] and [file_event.name]. *)
Definition insert_keys (d : DB) (o : model_obj) : result DB :=
  match o with
  | NewObservation ob =>
      match Observation_query_get d (Observation.obsid ob) with
      | Some _ => Raise (IntegrityError "observation" "primary key")
      | None =>
          OK {| observations := observations d ++ [ob]; stores := stores d;
                files := files d; file_instances := file_instances d;
                file_events := file_events d; file_event_id_seq := file_event_id_seq d |}
      end
  | NewFile f =>
      match File_query_get d (File.name f) with
      | Some _ => Raise (IntegrityError "file" "primary key")
      | None =>
          match Observation_query_get d (File.obsid f) with
          | None => Raise (IntegrityError "file" "foreign key obsid")
          | Some _ =>
              OK {| observations := observations d; stores := stores d;
                    files := files d ++ [f]; file_instances := file_instances d;
                    file_events := file_events d; file_event_id_seq := file_event_id_seq d |}
          end
      end
  | NewFileInstance i =>
      if existsb (same_instance_key i) (file_instances d)
      then Raise (IntegrityError "file_instance" "primary key")
      else
        match Store_query_get d (FileInstance.store i) with
        | None => Raise (IntegrityError "file_instance" "foreign key store")
        | Some _ =>
            match File_query_get d (FileInstance.name i) with
            | None => Raise (IntegrityError "file_instance" "foreign key name")
            | Some _ =>
                OK {| observations := observations d; stores := stores d;
                      files := files d; file_instances := file_instances d ++ [i];
                      file_events := file_events d; file_event_id_seq := file_event_id_seq d |}
            end
        end
  | NewFileEvent e =>
      match File_query_get d (FileEvent.name e) with
      | None => Raise (IntegrityError "file_event" "foreign key name")
      | Some _ =>
          let id := file_event_id_seq d + 1 in
          let row := {| FileEvent.id := Some id; FileEvent.name := FileEvent.name e;
                        FileEvent.time := FileEvent.time e; FileEvent.type := FileEvent.type e;
                        FileEvent.payload := FileEvent.payload e |} in
          OK {| observations := observations d; stores := stores d;
                files := files d; file_instances := file_instances d;
                file_events := file_events d ++ [row]; file_event_id_seq := id |}
      end
  end.

(** One INSERT by a database that enforces the schema: a value that does
    not fit its column is refused with a [DataError] before the keys are
    looked at. *)
Definition insert (d : DB) (o : model_obj) : result DB :=
  if fits_columns o then insert_keys d o else Raise (DataError (table_of o)).

(** Whether the arguments of the File constructor fit the columns of the
    [file] table (the md5, once normalized, always does). *)
Definition File_in_range (name type : string) (obsid size : Z) (source : string) : bool :=
  fits_String 256 name && fits_String 32 type
  && fits_BigInteger obsid && fits_BigInteger size && fits_String 64 source.

(** The same for the arguments of the FileInstance constructor. *)
Definition FileInstance_in_range (store_obj : Store.t) (parent_dirs name : string) : bool :=
  fits_BigInteger (Store.id store_obj) && fits_String 128 parent_dirs
  && fits_String 256 name.

(** The flush of a commit: the pending objects are inserted in the order
    in which they were added; the first violation aborts the transaction. *)
Fixpoint flush (d : DB) (pending : list model_obj) : result DB :=
  match pending with
  | [] => OK d
  | o :: rest => try! d' := insert d o in flush d' rest
  end.

(** ** Programs over the database session *)

(** The code of [file.py] talks to the outside through a few operations:
    primary-key lookups, the two relationships read by the locate endpoint,
    the metadata probe of a store, [db.session.add] and
    [db.session.commit]. A function of [file.py] is the tree of the
    operations it performs; an exception is a leaf, since nothing in
    [file.py] catches one past the probe. *)
Inductive prog (A : Type) : Type :=
| Ret (a : A)
| Throw (e : exn)
| FileQueryGet (name : string) (k : option File.t -> prog A)
| ObservationQueryGet (obsid : Z) (k : option Observation.t -> prog A)
| FileInstancesOf (f : File.t) (k : list FileInstance.t -> prog A)
| StoreObjectOf (i : FileInstance.t) (k : option Store.t -> prog A)
| GetInfoForPath (store : Store.t) (path : string) (k : probe_result -> prog A)
| SessionAdd (o : model_obj) (k : prog A)
| SessionCommit (k : prog A).
Arguments Ret {A} a.
Arguments Throw {A} e.
Arguments FileQueryGet {A} name k.
Arguments ObservationQueryGet {A} obsid k.
Arguments FileInstancesOf {A} f k.
Arguments StoreObjectOf {A} i k.
Arguments GetInfoForPath {A} store path k.
Arguments SessionAdd {A} o k.
Arguments SessionCommit {A} k.

Fixpoint pbind {A B} (p : prog A) (f : A -> prog B) : prog B :=
  match p with
  | Ret a => f a
  | Throw e => Throw e
  | FileQueryGet n k => FileQueryGet n (fun x => pbind (k x) f)
  | ObservationQueryGet o k => ObservationQueryGet o (fun x => pbind (k x) f)
  | FileInstancesOf fl k => FileInstancesOf fl (fun x => pbind (k x) f)
  | StoreObjectOf i k => StoreObjectOf i (fun x => pbind (k x) f)
  | GetInfoForPath s p k => GetInfoForPath s p (fun x => pbind (k x) f)
  | SessionAdd o k => SessionAdd o (pbind k f)
  | SessionCommit k => SessionCommit (pbind k f)
  end.

Notation "'do!' x ':=' e 'in' k" := (pbind e (fun x => k))
  (at level 10, x name, e at level 100, k at level 200).

Definition lift {A} (r : result A) : prog A :=
  match r with
  | OK a => Ret a
  | Raise e => Throw e
  end.

(** What a running call sees: the database, the objects pending in its own
    session, and the log of the probes sent to stores, as (store name,
    path) pairs, latest last. *)
Record State : Type := {
  db : DB;
  session : list model_obj;
  probes : list (string * string);
}.

(** One operation. A commit that the database refuses leaves the database
    as it was, empties the session and raises. *)
Definition step {A} (p : prog A) (s : State) : prog A * State :=
  match p with
  | Ret a => (Ret a, s)
  | Throw e => (Throw e, s)
  | FileQueryGet n k => (k (File_query_get (db s) n), s)
  | ObservationQueryGet o k => (k (Observation_query_get (db s) o), s)
  | FileInstancesOf f k => (k (File_instances (db s) f), s)
  | StoreObjectOf i k => (k (Store_query_get (db s) (FileInstance.store i)), s)
  | GetInfoForPath st path k =>
      (k (Store.get_info_for_path st path),
       {| db := db s; session := session s;
          probes := probes s ++ [(Store.name st, path)] |})
  | SessionAdd o k =>
      (k, {| db := db s; session := session s ++ [o]; probes := probes s |})
  | SessionCommit k =>
      match flush (db s) (session s) with
      | OK d' => (k, {| db := d'; session := []; probes := probes s |})
      | Raise e => (Throw e, {| db := db s; session := []; probes := probes s |})
      end
  end.

(** A call run to its end, with no other call in between. *)
Fixpoint run {A} (p : prog A) (s : State) : result A * State :=
  match p with
  | Ret a => (OK a, s)
  | Throw e => (Raise e, s)
  | FileQueryGet n k => run (k (File_query_get (db s) n)) s
  | ObservationQueryGet o k => run (k (Observation_query_get (db s) o)) s
  | FileInstancesOf f k => run (k (File_instances (db s) f)) s
  | StoreObjectOf i k => run (k (Store_query_get (db s) (FileInstance.store i))) s
  | GetInfoForPath st path k =>
      run (k (Store.get_info_for_path st path))
          {| db := db s; session := session s;
             probes := probes s ++ [(Store.name st, path)] |}
  | SessionAdd o k =>
      run k {| db := db s; session := session s ++ [o]; probes := probes s |}
  | SessionCommit k =>
      match flush (db s) (session s) with
      | OK d' => run k {| db := d'; session := []; probes := probes s |}
      | Raise e => (Raise e, {| db := db s; session := []; probes := probes s |})
      end
  end.

(** A fresh call on the database [d]. *)
Definition fresh (d : DB) : State := {| db := d; session := []; probes := [] |}.

(** ** [File.get_inferring_info] *)

Definition probe_info (store : Store.t) (store_path : string) : prog (gmap string pyval) :=
  GetInfoForPath store store_path (fun r =>
    match r with
    | ProbeInfo info => Ret info
    | ProbeFailed e =>
        Throw (ServerError ("cannot register " ++ Store.name store ++ ":" ++ store_path
                            ++ ": " ++ e))
    end).

(** [parent_dirs = os.path.dirname (store_path)] is computed by the source
    and never read; it is left out. *)
Definition get_inferring_info (env : Env) (store : Store.t) (store_path source_name : string)
    (info : option (gmap string pyval)) : prog File.t :=
  let name := OsPath.basename store_path in
  FileQueryGet name (fun prev =>
  match prev with
  | Some prev => Ret prev
  | None =>
      do! info := match info with
                  | None => probe_info store store_path
                  | Some info => Ret info
                  end in
      do! size := lift (required_arg info Tint "size") in
      do! md5 := lift (required_arg info Tunicode "md5") in
      do! type := lift (required_arg info Tunicode "type") in
      do! lst := lift (required_arg info Tfloat "lst") in
      do! obsid := lift (required_arg info Tint "obsid") in
      ObservationQueryGet obsid (fun obs =>
      do! obs_added :=
        match obs with
        | None =>
            do! start_jd := lift (required_arg info Tfloat "start_jd") in
            SessionAdd (NewObservation {| Observation.obsid := obsid;
                                          Observation.start_time_jd := start_jd;
                                          Observation.stop_time_jd := None;
                                          Observation.start_lst_hr := lst |})
                       (Ret tt)
        | Some _ => Ret tt
        end in
      do! inst := lift (File.__init__ env name type obsid source_name size md5 None) in
      SessionAdd (NewFile inst) (SessionCommit (Ret inst)))
  end).

(** ** RPC endpoints *)

Definition create_file_event (env : Env) (args : gmap string pyval) : prog (gmap string pyval) :=
  do! file_name := lift (required_arg args Tunicode "file_name") in
  do! type := lift (required_arg args Tunicode "type") in
  do! payload := lift (required_arg args Tdict "payload") in
  FileQueryGet file_name (fun file =>
  match file with
  | None => Throw (ServerError ("no known file " ++ PyStr.quoted file_name))
  | Some file =>
      do! event := lift (File.make_generic_event env file type payload) in
      SessionAdd (NewFileEvent event) (SessionCommit (Ret ∅))
  end).

Definition locate_file_instance (args : gmap string pyval) : prog (gmap string pyval) :=
  do! file_name := lift (required_arg args Tunicode "file_name") in
  FileQueryGet file_name (fun file =>
  match file with
  | None => Throw (ServerError ("no known file " ++ PyStr.quoted file_name))
  | Some file =>
      FileInstancesOf file (fun instances =>
      match instances with
      | inst :: _ =>
          StoreObjectOf inst (fun store_object =>
          match store_object with
          | None => Throw (AttributeError "'NoneType' object has no attribute 'path_prefix'")
          | Some so =>
              Ret (<["full_path_on_store" := VStr (FileInstance.full_path_on_store so inst)]>
                   (<["store_name" := VStr (Store.name so)]>
                   (<["store_path" := VStr (FileInstance.store_path inst)]>
                   (<["store_ssh_host" := VStr (Store.ssh_host so)]> ∅))))
          end)
      | [] =>
          Throw (ServerError ("no instances of file " ++ PyStr.quoted file_name
                              ++ " on this librarian"))
      end)
  end).

(** ** The operations of the catalog, as the code composes them *)

(** [db.session.add (x); db.session.commit ()], the way every record of
    [file.py] is persisted. *)
Definition persist (o : model_obj) : prog unit :=
  SessionAdd o (SessionCommit (Ret tt)).

(** Registering a File: the constructor, then the persisting idiom, as
    [get_inferring_info] does for the File it creates. *)
Definition register (env : Env) (name type : string) (obsid : Z) (source : string)
    (size : Z) (md5 : string) (create_time : option datetime) : prog File.t :=
  do! inst := lift (File.__init__ env name type obsid source size md5 create_time) in
  do! done := persist (NewFile inst) in
  Ret inst.

(** Creating an instance: the constructor, then the persisting idiom. *)
Definition create_instance (store_obj : Store.t) (parent_dirs name : string)
    : prog FileInstance.t :=
  do! inst := lift (FileInstance.__init__ store_obj parent_dirs name) in
  do! done := persist (NewFileInstance inst) in
  Ret inst.

(** Appending an event: the persisting idiom on a constructed FileEvent. *)
Definition append (event : FileEvent.t) : prog unit :=
  persist (NewFileEvent event).

(** ** Two concurrent callers *)

(** Worker processes share the database; each has a session of its own.
    One scheduling step lets one caller perform its next operation against
    the shared database; a commit is one such step, and the database
    checks its keys within it. *)
Inductive tid : Type := T1 | T2.

(** What belongs to one caller: the rest of its call, its session and the
    probes it has sent. *)
Record Thread (A : Type) : Type := {
  code : prog A;
  pending : list model_obj;
  probed : list (string * string);
}.
Arguments code {A} _.
Arguments pending {A} _.
Arguments probed {A} _.

Record System (A : Type) : Type := {
  shared_db : DB;
  thread1 : Thread A;
  thread2 : Thread A;
}.
Arguments shared_db {A} _.
Arguments thread1 {A} _.
Arguments thread2 {A} _.

Definition thread {A} (t : tid) (sys : System A) : Thread A :=
  match t with T1 => thread1 sys | T2 => thread2 sys end.

Definition sched_step {A} (t : tid) (sys : System A) : System A :=
  let th := thread t sys in
  let '(p', s') :=
    step (code th) {| db := shared_db sys; session := pending th; probes := probed th |} in
  let th' := {| code := p'; pending := session s'; probed := probes s' |} in
  match t with
  | T1 => {| shared_db := db s'; thread1 := th'; thread2 := thread2 sys |}
  | T2 => {| shared_db := db s'; thread1 := thread1 sys; thread2 := th' |}
  end.

Definition run_schedule {A} (sched : list tid) (sys : System A) : System A :=
  fold_left (fun sys t => sched_step t sys) sched sys.

Definition start {A} (d : DB) (p1 p2 : prog A) : System A :=
  {| shared_db := d;
     thread1 := {| code := p1; pending := []; probed := [] |};
     thread2 := {| code := p2; pending := []; probed := [] |} |}.

(** The result of a caller that has returned or raised. *)
Definition outcome {A} (p : prog A) : option (result A) :=
  match p with
  | Ret a => Some (OK a)
  | Throw e => Some (Raise e)
  | _ => None
  end.

(** A caller taken up to its next commit (or to its end): it reads the
    database and fills its session, and writes nothing. *)
Fixpoint advance {A} (p : prog A) (s : State) : prog A * State :=
  match p with
  | Ret _ | Throw _ | SessionCommit _ => (p, s)
  | FileQueryGet n k => advance (k (File_query_get (db s) n)) s
  | ObservationQueryGet o k => advance (k (Observation_query_get (db s) o)) s
  | FileInstancesOf f k => advance (k (File_instances (db s) f)) s
  | StoreObjectOf i k => advance (k (Store_query_get (db s) (FileInstance.store i))) s
  | GetInfoForPath st path k =>
      advance (k (Store.get_info_for_path st path))
              {| db := db s; session := session s;
                 probes := probes s ++ [(Store.name st, path)] |}
  | SessionAdd o k =>
      advance k {| db := db s; session := session s ++ [o]; probes := probes s |}
  end.

(** The race of two callers: both are taken up to their commit before
    either commits; then the first commits and returns, then the second. *)
Definition race {A} (d : DB) (p1 p2 : prog A) : result A * result A * DB :=
  let '(p1', s1) := advance p1 (fresh d) in
  let '(p2', s2) := advance p2 (fresh (db s1)) in
  let '(r1, s1') := run p1' {| db := db s2; session := session s1; probes := probes s1 |} in
  let '(r2, s2') := run p2' {| db := db s1'; session := session s2; probes := probes s2 |} in
  (r1, r2, db s2').

(** How many File rows carry a name. *)
Definition count_files (d : DB) (name : string) : nat :=
  List.length (List.filter (fun f => String.eqb (File.name f) name) (files d)).

(** The uniqueness of [file.name] over the table. *)
Definition file_names_unique (d : DB) : Prop :=
  List.NoDup (List.map File.name (files d)).

(** What the session of a caller holds when it is about to create a File:
    the File, after the Observation if that is new too. *)
Definition creates (pend : list model_obj) (f : File.t) : Prop :=
  pend = [NewFile f] \/ exists o, pend = [NewObservation o; NewFile f].

(** A caller that has looked the name [n] up and found no File, and has
    not committed yet: whatever the reads still to come return, it ends in
    an exception or at the commit of a session that creates a File named
    [n], which it then returns. *)
Inductive creating (n : string) : prog File.t -> list model_obj -> Prop :=
| creating_throw (e : exn) (pend : list model_obj) :
    creating n (Throw e) pend
| creating_commit (f : File.t) (pend : list model_obj) :
    creates pend f -> File.name f = n ->
    creating n (SessionCommit (Ret f)) pend
| creating_obs (o : Z) (k : option Observation.t -> prog File.t) (pend : list model_obj) :
    (forall r, creating n (k r) pend) ->
    creating n (ObservationQueryGet o k) pend
| creating_probe (st : Store.t) (path : string) (k : probe_result -> prog File.t)
    (pend : list model_obj) :
    (forall r, creating n (k r) pend) ->
    creating n (GetInfoForPath st path k) pend
| creating_add (o : model_obj) (k : prog File.t) (pend : list model_obj) :
    creating n k (pend ++ [o]) ->
    creating n (SessionAdd o k) pend.

Definition other (t : tid) : tid :=
  match t with T1 => T2 | T2 => T1 end.

(** A caller that has returned. *)
Definition returned {A} (th : Thread A) : Prop := exists a, code th = Ret a.

(** Two callers past their lookup of the name [n]: each is still creating
    or has returned; one that has returned has left a File of that name in
    the database; and they have not both returned. *)
Definition racing (n : string) (sys : System File.t) : Prop :=
  (forall t, creating n (code (thread t sys)) (pending (thread t sys))
             \/ returned (thread t sys))
  /\ (forall t, returned (thread t sys) -> File_query_get (shared_db sys) n <> None)
  /\ ~ (returned (thread1 sys) /\ returned (thread2 sys)).

(** ** A small catalog for the examples *)

Module Scenario.

(** 2016-11-04T00:00:00.25 UTC on the clock of a host that keeps UTC. *)
Definition env_utc : Env :=
  {| utcnow := {| wall_seconds := 1478217600; microsecond := 250000 |};
     local_utcoffset := fun _ => 0;
     utcnow_in_range := eq_refl |}.

(** The same instant on a host that keeps Pacific Standard Time. *)
Definition env_pacific : Env :=
  {| utcnow := {| wall_seconds := 1478217600; microsecond := 250000 |};
     local_utcoffset := fun _ => -28800;
     utcnow_in_range := eq_refl |}.

Definition md5_upper : string := "D41D8CD98F00B204E9800998ECF8427E".
Definition md5_lower : string := "d41d8cd98f00b204e9800998ecf8427e".

Definition info_bar : gmap string pyval :=
  <["size" := VInt 2048]>
  (<["md5" := VStr md5_upper]>
  (<["type" := VStr "uv"]>
  (<["lst" := VFloat (PyFloat "3.1")]>
  (<["obsid" := VInt 99]>
  (<["start_jd" := VFloat (PyFloat "2459000.5")]> ∅))))).

Definition info_bar_no_start_jd : gmap string pyval := delete "start_jd" info_bar.

(** A record about the same path that disagrees with [info_bar] on every field. *)
Definition info_other : gmap string pyval :=
  <["size" := VInt 7]>
  (<["md5" := VStr "00000000000000000000000000000000"]>
  (<["type" := VStr "npz"]>
  (<["lst" := VFloat (PyFloat "0.0")]>
  (<["obsid" := VInt 5]>
  (<["start_jd" := VFloat (PyFloat "2450000.5")]> ∅))))).

Definition storeA : Store.t :=
  {| Store.id := 1; Store.name := "storeA"; Store.path_prefix := "/data";
     Store.ssh_host := "hostA";
     Store.get_info_for_path := fun _ => ProbeInfo info_bar |}.

Definition obs99 : Observation.t :=
  {| Observation.obsid := 99; Observation.start_time_jd := PyFloat "2459000.5";
     Observation.stop_time_jd := None; Observation.start_lst_hr := PyFloat "3.1" |}.

Definition bar : File.t :=
  {| File.name := "bar.uv"; File.type := "uv";
     File.create_time := {| wall_seconds := 1478217600; microsecond := 0 |};
     File.obsid := 99; File.size := 2048; File.md5 := md5_lower;
     File.source := "site1" |}.

Definition bar_instance : FileInstance.t :=
  {| FileInstance.store := 1; FileInstance.parent_dirs := "2459000";
     FileInstance.name := "bar.uv" |}.

Definition db_empty : DB :=
  {| observations := []; stores := [storeA]; files := []; file_instances := [];
     file_events := []; file_event_id_seq := 0 |}.

(** Observation 99 is known, no File is. *)
Definition db_obs : DB :=
  {| observations := [obs99]; stores := [storeA]; files := []; file_instances := [];
     file_events := []; file_event_id_seq := 0 |}.

(** [bar.uv] is cataloged, with no instance. *)
Definition db_bar : DB :=
  {| observations := [obs99]; stores := [storeA]; files := [bar]; file_instances := [];
     file_events := []; file_event_id_seq := 0 |}.

(** [bar.uv] is cataloged, with one instance on [storeA]. *)
Definition db_bar_instance : DB :=
  {| observations := [obs99]; stores := [storeA]; files := [bar];
     file_instances := [bar_instance]; file_events := []; file_event_id_seq := 0 |}.

Definition bar_path : string := "/data/2459000/bar.uv".

(** A reason of 600 characters. *)
Definition long_reason : string := String.concat "" (List.repeat "x" 600%nat).

(** The arguments of [create_file_event] for an event on [bar.uv] whose
    payload serializes to 614 bytes. *)
Definition flag_args : gmap string pyval :=
  <["file_name" := VStr "bar.uv"]>
  (<["type" := VStr "flagged"]>
  (<["payload" := VDict [("reason", VStr long_reason)]]> ∅)).

Definition locate_args (file_name : string) : gmap string pyval :=
  <["file_name" := VStr file_name]> ∅.

(** Two callers taking turns, one operation at a time: each has looked the
    name up, probed the store and filled its session before either
    commits. *)
Definition taking_turns : list tid :=
  [T1; T2; T1; T2; T1; T2; T1; T2; T1; T2; T1; T2].

End Scenario.

(** ** The event builders of [File] *)

(** The keywords of a call reach [make_generic_event] as a dict; they are
    listed here in the order in which the call writes them. *)
Definition File_make_instance_creation_event (env : Env) (self : File.t)
    (instance : FileInstance.t) (store : Store.t) : result FileEvent.t :=
  File.make_generic_event env self "create_instance"
    [("store_name", VStr (Store.name store));
     ("parent_dirs", VStr (FileInstance.parent_dirs instance))].

Definition File_make_copy_launched_event (env : Env) (self : File.t)
    (connection_name remote_store_path : pyval) : result FileEvent.t :=
  File.make_generic_event env self "launch_copy"
    [("connection_name", connection_name);
     ("remote_store_path", remote_store_path)].

(** [x is not None] *)
Definition is_not_None (v : pyval) : bool :=
  match v with VNone => false | _ => true end.

(** [duration] and [average_rate] default to [None]. *)
Definition File_make_copy_finished_event (env : Env) (self : File.t)
    (connection_name remote_store_path error_code error_message : pyval)
    (duration average_rate : pyval) : result FileEvent.t :=
  let extras := [] in
  let extras := if is_not_None duration
                then (extras ++ [("duration", duration)])%list else extras in
  let extras := if is_not_None average_rate
                then (extras ++ [("average_rate", average_rate)])%list else extras in
  File.make_generic_event env self "copy_finished"
    ([("connection_name", connection_name);
      ("remote_store_path", remote_store_path);
      ("error_code", error_code);
      ("error_message", error_message)] ++ extras)%list.

(** Whether a keyword of a payload names a positional parameter of
    [make_generic_event]. *)
Definition clashes (kwargs : list (string * pyval)) : bool :=
  existsb (fun kv => String.eqb (fst kv) "self" || String.eqb (fst kv) "type") kwargs.

(** [d.get (k)] on the keywords of a payload. *)
Fixpoint kwargs_get (k : string) (d : list (string * pyval)) : option pyval :=
  match d with
  | [] => None
  | (k', v) :: d' => if String.eqb k' k then Some v else kwargs_get k d'
  end.

(** ** The page of one File *)

(** The order of naive datetimes. *)
Definition datetime_ltb (a b : datetime) : bool :=
  (wall_seconds a <? wall_seconds b)
  || ((wall_seconds a =? wall_seconds b) && (microsecond a <? microsecond b)).

Definition datetime_leb (a b : datetime) : bool := negb (datetime_ltb b a).

(** [sorted (events, key=lambda e: e.time, reverse=True)]: latest first,
    events of equal time in the order they had. *)
Fixpoint insert_by_time (e : FileEvent.t) (l : list FileEvent.t) : list FileEvent.t :=
  match l with
  | [] => [e]
  | y :: l' =>
      if datetime_ltb (FileEvent.time e) (FileEvent.time y)
      then y :: insert_by_time e l'
      else e :: l
  end.

Definition sorted_by_time_reverse (events : list FileEvent.t) : list FileEvent.t :=
  fold_right insert_by_time [] events.

(** What a view answers: a redirect after a flashed message, or a rendered
    template with its arguments. *)
Inductive response : Type :=
| Redirect (flashed : string) (endpoint : string)
| RenderTemplate (template title : string) (file : File.t)
    (instances : list FileInstance.t) (events : list FileEvent.t).

(** The body of the view [specific_file], as run for a logged-in user; it
    only reads the database. *)
Definition specific_file (d : DB) (name : string) : response :=
  match File_query_get d name with
  | None => Redirect ("No such file " ++ PyStr.quoted name ++ " known") "index"
  | Some file =>
      let instances :=
        List.filter (fun i => String.eqb (FileInstance.name i) name) (file_instances d) in
      let events := sorted_by_time_reverse (File_events d file) in
      RenderTemplate "file-individual.html"
        (File.type file ++ " File " ++ File.name file) file instances events
  end.

(** An event is not older than another. *)
Definition not_older (a b : FileEvent.t) : Prop :=
  datetime_ltb (FileEvent.time a) (FileEvent.time b) = false.

(** ** [init_database] *)

Module StoreRow.

(** A row of the [store] table with the columns that this repository
    names: [id], assigned by the database, and the five that
    [init_database] sets. Modelled from the spec: [store.py] is not in this
    part of the repository; [Store (name, path_prefix, ssh_host)] is taken
    to keep the three values it is given (a store is identified by its
    name, path prefix and remote host). *)
Record t : Type := {
  id : Z;
  name : string;
  path_prefix : pyval;
  ssh_host : pyval;
  http_prefix : pyval;
  available : pyval;
}.

End StoreRow.

(** The [store] table and the sequence of its [id] column. *)
Record StoreTable : Type := {
  store_rows : list StoreRow.t;
  store_id_seq : Z;
}.

(** What stops [init_database]: [cfg['path_prefix']] or [cfg['ssh_host']]
    on a dict without the key, the same on a value that is no dict, and
    [.iteritems ()] on an [add-stores] that is no dict. *)
Inductive init_exn : Type :=
| KeyError (key : string)
| NotSubscriptable (store_name : string)
| NoIteritems.

(** [Store.query.filter (Store.name == name).first ()]; the session
    flushes pending rows before a query, so the rows added earlier in the
    loop are seen. *)
Definition Store_first_by_name (t : StoreTable) (name : string) : option StoreRow.t :=
  List.find (fun r => String.eqb (StoreRow.name r) name) (store_rows t).

(** [cfg[key]] *)
Definition cfg_getitem (store_name : string) (cfg : pyval) (key : string)
    : init_exn + pyval :=
  match cfg with
  | VDict d =>
      match kwargs_get key d with
      | Some v => inr v
      | None => inl (KeyError key)
      end
  | _ => inl (NotSubscriptable store_name)
  end.

(** [cfg.get (key, default)], reached only after [cfg[...]] succeeded. *)
Definition cfg_get (cfg : pyval) (key : string) (default : pyval) : pyval :=
  match cfg with
  | VDict d =>
      match kwargs_get key d with
      | Some v => v
      | None => default
      end
  | _ => default
  end.

(** One round of the loop of [init_database]. *)
Definition init_store (t : StoreTable) (name : string) (cfg : pyval)
    : init_exn + StoreTable :=
  match Store_first_by_name t name with
  | Some _ => inr t
  | None =>
      match cfg_getitem name cfg "path_prefix" with
      | inl e => inl e
      | inr path_prefix =>
          match cfg_getitem name cfg "ssh_host" with
          | inl e => inl e
          | inr ssh_host =>
              let id := store_id_seq t + 1 in
              let store :=
                {| StoreRow.id := id; StoreRow.name := name;
                   StoreRow.path_prefix := path_prefix; StoreRow.ssh_host := ssh_host;
                   StoreRow.http_prefix := cfg_get cfg "http_prefix" VNone;
                   StoreRow.available := cfg_get cfg "available" (VBool true) |} in
              inr {| store_rows := store_rows t ++ [store]; store_id_seq := id |}
          end
      end
  end.

Fixpoint init_stores (t : StoreTable) (items : list (string * pyval))
    : init_exn + StoreTable :=
  match items with
  | [] => inr t
  | (name, cfg) :: rest =>
      match init_store t name cfg with
      | inl e => inl e
      | inr t' => init_stores t' rest
      end
  end.

(** [init_database ()] on the [store] table, the tables being created
    already: the stores of [add-stores] in the order of [.iteritems ()],
    then the commit. An exception leaves the loop before the commit, and
    the table is as it was. *)
Definition init_database (config : gmap string pyval) (t : StoreTable)
    : init_exn + StoreTable :=
  match config !! "add-stores" with
  | None => init_stores t []
  | Some (VDict items) => init_stores t items
  | Some _ => inl NoIteritems
  end.

(** ** More of the small catalog *)

Module Examples.

(** A store that cannot be reached. *)
Definition store_down : Store.t :=
  {| Store.id := 2; Store.name := "storeB"; Store.path_prefix := "/mnt/b/";
     Store.ssh_host := "hostB";
     Store.get_info_for_path := fun _ => ProbeFailed "Connection refused" |}.

(** The arguments of [create_file_event] for an event of type [flagged]. *)
Definition event_args (file_name : string) (payload : list (string * pyval))
    : gmap string pyval :=
  <["file_name" := VStr file_name]>
  (<["type" := VStr "flagged"]>
  (<["payload" := VDict payload]> ∅)).

(** Three events of [bar.uv] in the order of their ids, the second the
    latest, the first and third of the same second. *)
Definition event_at (id seconds : Z) (type : string) : FileEvent.t :=
  {| FileEvent.id := Some id; FileEvent.name := "bar.uv";
     FileEvent.time := {| wall_seconds := seconds; microsecond := 0 |};
     FileEvent.type := type; FileEvent.payload := "{}" |}.

Definition db_bar_events : DB :=
  {| observations := [Scenario.obs99]; stores := [Scenario.storeA];
     files := [Scenario.bar]; file_instances := [Scenario.bar_instance];
     file_events := [event_at 1 1478217700 "create_instance";
                     event_at 2 1478217900 "launch_copy";
                     event_at 3 1478217700 "flagged"];
     file_event_id_seq := 3 |}.

(** A configuration with two stores, the second with a public prefix and
    switched off. *)
Definition two_stores : list (string * pyval) :=
  [("pot1", VDict [("path_prefix", VStr "/data1"); ("ssh_host", VStr "pot1.example")]);
   ("pot2", VDict [("path_prefix", VStr "/data2"); ("ssh_host", VStr "pot2.example");
                   ("http_prefix", VStr "http://pot2.example/data");
                   ("available", VBool false)])].

Definition config_two_stores : gmap string pyval :=
  <["SECRET_KEY" := VStr "s3cr3t"]> (<["add-stores" := VDict two_stores]> ∅).

(** A table that has a store [pot2] already, set up by hand. *)
Definition old_pot2 : StoreRow.t :=
  {| StoreRow.id := 7; StoreRow.name := "pot2";
     StoreRow.path_prefix := VStr "/old"; StoreRow.ssh_host := VStr "old";
     StoreRow.http_prefix := VNone; StoreRow.available := VBool true |}.

Definition new_pot1 : StoreRow.t :=
  {| StoreRow.id := 8; StoreRow.name := "pot1";
     StoreRow.path_prefix := VStr "/data1"; StoreRow.ssh_host := VStr "pot1.example";
     StoreRow.http_prefix := VNone; StoreRow.available := VBool true |}.

Definition table_pot2 : StoreTable := {| store_rows := [old_pot2]; store_id_seq := 7 |}.

(** The same, with a third store that has no [ssh_host]. *)
Definition config_broken_store : gmap string pyval :=
  <["add-stores" :=
      VDict [("pot1", VDict [("path_prefix", VStr "/data1"); ("ssh_host", VStr "pot1.example")]);
             ("pot3", VDict [("path_prefix", VStr "/data3")])]]> ∅.

Definition no_stores : StoreTable := {| store_rows := []; store_id_seq := 0 |}.

(** A host two hours east of UTC, and a File whose creation time is
    9999-12-31T23:00:00. *)
Definition env_plus2 : Env :=
  {| utcnow := {| wall_seconds := 1478217600; microsecond := 250000 |};
     local_utcoffset := fun _ => 7200;
     utcnow_in_range := eq_refl |}.

Definition last_hour : File.t :=
  {| File.name := "bar.uv"; File.type := "uv";
     File.create_time := {| wall_seconds := 253402297200; microsecond := 0 |};
     File.obsid := 99; File.size := 2048; File.md5 := Scenario.md5_lower;
     File.source := "site1" |}.

(** The info of [bar.uv] with a text that is no md5 sum. *)
Definition info_bar_bad_md5 : gmap string pyval :=
  <["md5" := VStr "not-an-md5"]> Scenario.info_bar.

(** A directory part of 129 characters, one more than its column holds. *)
Definition long_parent_dirs : string := String.concat "" (List.repeat "d" 129%nat).

End Examples.

(** * Properties *)

(** ** Strings and paths *)

Section StringFacts.
Import PyStr.

Lemma rfind_spec (c : ascii) (s : string) :
  (rfind c s = -1 /\ char_in c s = false)
  \/ (0 <= rfind c s /\ char_in c (drop (Z.to_nat (rfind c s + 1)) s) = false).
Proof.
  induction s as [|a s IH]; simpl.
  - left; split; reflexivity.
  - destruct IH as [[Hr Hin] | [Hr Hin]].
    + rewrite Hr; simpl.
      destruct (Ascii.eqb a c) eqn:E.
      * right; split; [lia | exact Hin].
      * left; split; [reflexivity | exact Hin].
    + destruct (Z.leb_spec 0 (rfind c s)) as [_ | Hlt]; [| lia].
      right; split; [lia |].
      replace (Z.to_nat (rfind c s + 1 + 1)) with (S (Z.to_nat (rfind c s + 1))) by lia.
      exact Hin.
Qed.

Lemma basename_no_sep (p : string) : char_in "/" (OsPath.basename p) = false.
Proof.
  unfold OsPath.basename, OsPath.sep.
  destruct (rfind_spec "/" p) as [[Hr Hin] | [_ Hin]].
  - rewrite Hr; simpl; exact Hin.
  - exact Hin.
Qed.

Lemma basename_plain (p : string) : char_in "/" p = false -> OsPath.basename p = p.
Proof.
  intros H. unfold OsPath.basename, OsPath.sep.
  destruct (rfind_spec "/" p) as [[Hr _] | [Hr Hin]].
  - rewrite Hr; reflexivity.
  - exfalso. revert Hr. clear Hin.
    induction p as [|a p IH]; simpl in *; [lia |].
    destruct (Ascii.eqb a "/"); [discriminate |].
    destruct (Z.leb_spec 0 (rfind "/" p)); [auto | lia].
Qed.

Lemma lower_char_idem (c : ascii) : lower_char (lower_char c) = lower_char c.
Proof. destruct c as [[] [] [] [] [] [] [] []]; reflexivity. Qed.

Lemma lower_idem (s : string) : lower (lower s) = lower s.
Proof.
  induction s as [|a s IH]; simpl; [reflexivity |].
  rewrite lower_char_idem, IH; reflexivity.
Qed.

Lemma md5_normal_form (text m : string) :
  normalize_and_validate_md5 text = OK m ->
  m = lower text /\ String.length m = 32%nat
  /\ forallb_str is_hex_digit m = true
  /\ normalize_and_validate_md5 m = OK m.
Proof.
  unfold normalize_and_validate_md5. intros H.
  destruct (_ && _)%bool eqn:E in H; [| discriminate].
  injection H as <-.
  rewrite lower_idem, E.
  apply andb_prop in E as [E1 E2].
  repeat split; [apply Nat.eqb_eq, E1 | exact E2].
Qed.

Lemma md5_rejected (text : string) :
  is_OK (normalize_and_validate_md5 text) = false ->
  is_ValueError (normalize_and_validate_md5 text) = true.
Proof.
  unfold normalize_and_validate_md5.
  destruct (_ && _)%bool; simpl; [discriminate | reflexivity].
Qed.

End StringFacts.

(** ** Lookups and inserts *)

Lemma find_snoc_miss {A} (p : A -> bool) (l : list A) (x : A) :
  List.find p l = None -> List.find p (l ++ [x]) = if p x then Some x else None.
Proof.
  induction l as [|a l IH]; simpl; [reflexivity |].
  destruct (p a); [discriminate | exact IH].
Qed.

Lemma find_snoc_hit {A} (p : A -> bool) (l : list A) (x y : A) :
  List.find p l = Some y -> List.find p (l ++ [x]) = Some y.
Proof.
  induction l as [|a l IH]; simpl; [discriminate |].
  destruct (p a); [auto | exact IH].
Qed.

Lemma File_query_get_name (d : DB) (n : string) (f : File.t) :
  File_query_get d n = Some f -> File.name f = n.
Proof.
  unfold File_query_get. intros H.
  apply List.find_some in H as [_ H]. apply String.eqb_eq, H.
Qed.

Lemma File_query_get_None_count (d : DB) (n : string) :
  File_query_get d n = None -> count_files d n = 0%nat.
Proof.
  unfold File_query_get, count_files.
  induction (files d) as [|a l IH]; simpl; [reflexivity |].
  destruct (String.eqb (File.name a) n); [discriminate | exact IH].
Qed.

Lemma File_query_get_None_notin (d : DB) (n : string) :
  File_query_get d n = None -> ~ List.In n (List.map File.name (files d)).
Proof.
  unfold File_query_get. intros H Hin.
  apply List.in_map_iff in Hin as [f [Hf Hin]].
  apply (List.find_none _ _ H) in Hin.
  rewrite Hf, String.eqb_refl in Hin. discriminate.
Qed.

Lemma NoDup_snoc {A} (l : list A) (x : A) :
  List.NoDup l -> ~ List.In x l -> List.NoDup (l ++ [x]).
Proof.
  induction l as [|a l IH]; simpl; intros Hnd Hin.
  - constructor; [intros [] | constructor].
  - inversion Hnd as [|? ? Ha Hl]; subst.
    constructor.
    + rewrite List.in_app_iff. intros [H | [H | []]]; [auto | subst; auto].
    + apply IH; [exact Hl | intros H; apply Hin; right; exact H].
Qed.

Lemma insert_inv (d d' : DB) (o : model_obj) :
  insert d o = OK d' -> fits_columns o = true /\ insert_keys d o = OK d'.
Proof.
  unfold insert. destruct (fits_columns o); [auto | discriminate].
Qed.

Lemma insert_fits (d : DB) (o : model_obj) :
  fits_columns o = true -> insert d o = insert_keys d o.
Proof. intros H. unfold insert. rewrite H. reflexivity. Qed.

(** Every refusal of an INSERT is an [IntegrityError] or a [DataError]. *)
Lemma insert_raises_database_error (d : DB) (o : model_obj) (e : exn) :
  insert d o = Raise e -> is_database_error e = true.
Proof.
  unfold insert. destruct (fits_columns o); [| intros H; injection H as <-; reflexivity].
  destruct o as [ob | f | i | ev]; cbn [insert_keys].
  - destruct (Observation_query_get d _); intros H; [| discriminate].
    injection H as <-; reflexivity.
  - destruct (File_query_get d _); [intros H; injection H as <-; reflexivity |].
    destruct (Observation_query_get d _); intros H; [discriminate |].
    injection H as <-; reflexivity.
  - destruct (existsb _ _); [intros H; injection H as <-; reflexivity |].
    destruct (Store_query_get d _); [| intros H; injection H as <-; reflexivity].
    destruct (File_query_get d _); intros H; [discriminate |].
    injection H as <-; reflexivity.
  - destruct (File_query_get d _); intros H; [discriminate |].
    injection H as <-; reflexivity.
Qed.

Lemma flush_raises_database_error (l : list model_obj) (d : DB) (e : exn) :
  flush d l = Raise e -> is_database_error e = true.
Proof.
  revert d. induction l as [|o l IH]; cbn [flush]; intros d; [discriminate |].
  destruct (insert d o) as [d1 | e1] eqn:E; cbn [rbind].
  - apply IH.
  - intros H; injection H as <-. apply (insert_raises_database_error d o e1 E).
Qed.

(** An INSERT leaves the File table as it was, or appends one row whose
    name was not there. *)
Lemma insert_files (d d' : DB) (o : model_obj) :
  insert d o = OK d' ->
  files d' = files d
  \/ (exists f, o = NewFile f /\ File_query_get d (File.name f) = None
                /\ files d' = (files d ++ [f])%list).
Proof.
  intros H. apply insert_inv in H as [_ H]. revert H.
  destruct o as [ob | f | i | e]; cbn [insert_keys]; intros H.
  - destruct (Observation_query_get d _); [discriminate |].
    injection H as <-; left; reflexivity.
  - destruct (File_query_get d (File.name f)) eqn:E; [discriminate |].
    destruct (Observation_query_get d _); [| discriminate].
    injection H as <-; right; exists f; auto.
  - destruct (existsb _ _); [discriminate |].
    destruct (Store_query_get d _); [| discriminate].
    destruct (File_query_get d _); [| discriminate].
    injection H as <-; left; reflexivity.
  - destruct (File_query_get d _); [| discriminate].
    injection H as <-; left; reflexivity.
Qed.

Lemma insert_unique (d d' : DB) (o : model_obj) :
  file_names_unique d -> insert d o = OK d' -> file_names_unique d'.
Proof.
  unfold file_names_unique. intros Hu H.
  apply insert_files in H as [-> | [f [_ [Hf ->]]]]; [exact Hu |].
  rewrite List.map_app; simpl.
  apply NoDup_snoc; [exact Hu | apply File_query_get_None_notin, Hf].
Qed.

Lemma flush_unique (l : list model_obj) (d d' : DB) :
  file_names_unique d -> flush d l = OK d' -> file_names_unique d'.
Proof.
  revert d. induction l as [|o l IH]; simpl; intros d Hu H.
  - injection H as <-; exact Hu.
  - destruct (insert d o) as [d1 |] eqn:E; simpl in H; [| discriminate].
    eapply IH; [eapply insert_unique; eauto | exact H].
Qed.

(** No operation of a call breaks the uniqueness of [file.name]. *)
Lemma step_unique {A} (p : prog A) (s : State) :
  file_names_unique (db s) -> file_names_unique (db (snd (step p s))).
Proof.
  intros Hu. destruct p; simpl; try exact Hu.
  destruct (flush (db s) (session s)) eqn:E; simpl; [| exact Hu].
  eapply flush_unique; eauto.
Qed.

Lemma sched_step_unique {A} (t : tid) (sys : System A) :
  file_names_unique (shared_db sys) -> file_names_unique (shared_db (sched_step t sys)).
Proof.
  intros Hu. unfold sched_step.
  pose proof (step_unique (code (thread t sys))
                {| db := shared_db sys; session := pending (thread t sys);
                   probes := probed (thread t sys) |} Hu) as H.
  destruct (step _ _) as [p' s']; simpl in H.
  destruct t; exact H.
Qed.

(** Under every schedule of two callers the File table keeps its names
    distinct. *)
Lemma run_schedule_unique {A} (sched : list tid) (sys : System A) :
  file_names_unique (shared_db sys) ->
  file_names_unique (shared_db (run_schedule sched sys)).
Proof.
  unfold run_schedule. revert sys.
  induction sched as [|t sched IH]; simpl; intros sys Hu; [exact Hu |].
  apply IH, sched_step_unique, Hu.
Qed.

Lemma unique_count_le_1 (d : DB) (n : string) :
  file_names_unique d -> (count_files d n <= 1)%nat.
Proof.
  unfold file_names_unique, count_files.
  induction (files d) as [|a l IH]; simpl; intros Hu; [lia |].
  inversion Hu as [|? ? Ha Hl]; subst.
  destruct (String.eqb (File.name a) n) eqn:E; simpl; [| auto].
  apply String.eqb_eq in E.
  assert (List.filter (fun f => String.eqb (File.name f) n) l = []) as ->; [| simpl; lia].
  clear IH Hl Hu. induction l as [|b l IH]; simpl; [reflexivity |].
  destruct (String.eqb (File.name b) n) eqn:Eb.
  - exfalso. apply Ha. left. apply String.eqb_eq in Eb. congruence.
  - apply IH. intros H; apply Ha; right; exact H.
Qed.

(** ** Calls *)

Lemma advance_db {A} (p : prog A) (s : State) : db (snd (advance p s)) = db s.
Proof.
  revert s. induction p as [| | ? ? IH | ? ? IH | ? ? IH | ? ? IH | ? ? ? IH | ? ? IH | ? IH];
    intros s; simpl; try reflexivity; try apply IH.
  - rewrite IH; reflexivity.
  - rewrite IH; reflexivity.
Qed.

Lemma run_advance {A} (p : prog A) (s : State) :
  run p s = run (fst (advance p s)) (snd (advance p s)).
Proof.
  revert s. induction p as [| | ? ? IH | ? ? IH | ? ? IH | ? ? IH | ? ? ? IH | ? ? IH | ? IH];
    intros s; simpl; try reflexivity; apply IH.
Qed.

Lemma run_step {A} (p : prog A) (s : State) :
  run p s = run (fst (step p s)) (snd (step p s)).
Proof.
  destruct p; simpl; try reflexivity.
  destruct (flush (db s) (session s)); reflexivity.
Qed.

(** ** The File constructor *)

Lemma File_init_ok (env : Env) (name type : string) (obsid : Z) (source : string)
    (size : Z) (md5 m : string) (create_time : option datetime) :
  PyStr.char_in "/" name = false ->
  normalize_and_validate_md5 md5 = OK m ->
  0 <= size ->
  File.__init__ env name type obsid source size md5 create_time
  = OK {| File.name := name; File.type := type;
          File.create_time := match create_time with
                              | None => replace_microsecond (utcnow env) 0
                              | Some c => c
                              end;
          File.obsid := obsid; File.size := size; File.md5 := m;
          File.source := source |}.
Proof.
  intros Hname Hmd5 Hsize.
  unfold File.__init__. rewrite Hmd5; simpl.
  unfold File._validate; simpl. rewrite Hname.
  destruct (md5_normal_form _ _ Hmd5) as (_ & _ & _ & ->); simpl.
  destruct (Z.geb_spec size 0) as [_ | Hlt]; [reflexivity | lia].
Qed.

Lemma File_init_invalid (env : Env) (name type : string) (obsid : Z) (source : string)
    (size : Z) (md5 : string) (create_time : option datetime) :
  PyStr.char_in "/" name = true
  \/ is_OK (normalize_and_validate_md5 md5) = false
  \/ size < 0 ->
  is_ValueError (File.__init__ env name type obsid source size md5 create_time) = true.
Proof.
  intros H. unfold File.__init__.
  destruct (normalize_and_validate_md5 md5) as [m | e] eqn:Hmd5.
  - simpl. unfold File._validate; simpl.
    destruct (PyStr.char_in "/" name) eqn:Hname; [reflexivity |].
    destruct (md5_normal_form _ _ Hmd5) as (_ & _ & _ & ->); simpl.
    destruct (Z.geb_spec size 0) as [Hge | Hlt]; simpl; [| reflexivity].
    destruct H as [H | [H | H]]; [discriminate | discriminate | lia].
  - pose proof (md5_rejected md5) as Hr. rewrite Hmd5 in Hr. simpl in *.
    apply Hr. reflexivity.
Qed.

Lemma File_init_inv (env : Env) (name type : string) (obsid : Z) (source : string)
    (size : Z) (md5 : string) (create_time : option datetime) (f : File.t) :
  File.__init__ env name type obsid source size md5 create_time = OK f ->
  exists m,
    normalize_and_validate_md5 md5 = OK m
    /\ PyStr.char_in "/" name = false
    /\ 0 <= size
    /\ f = {| File.name := name; File.type := type;
              File.create_time := match create_time with
                                  | None => replace_microsecond (utcnow env) 0
                                  | Some c => c
                                  end;
              File.obsid := obsid; File.size := size; File.md5 := m;
              File.source := source |}.
Proof.
  intros H.
  destruct (PyStr.char_in "/" name) eqn:Hname.
  { pose proof (File_init_invalid env name type obsid source size md5 create_time
                  (or_introl Hname)) as Hv.
    rewrite H in Hv. discriminate. }
  destruct (normalize_and_validate_md5 md5) as [m | e] eqn:Hmd5.
  2:{ pose proof (File_init_invalid env name type obsid source size md5 create_time) as Hv.
      rewrite Hmd5, H in Hv. simpl in Hv. discriminate Hv. right; left; reflexivity. }
  destruct (Z.lt_ge_cases size 0) as [Hlt | Hge].
  { pose proof (File_init_invalid env name type obsid source size md5 create_time
                  (or_intror (or_intror Hlt))) as Hv.
    rewrite H in Hv. discriminate. }
  exists m. rewrite (File_init_ok env name type obsid source size md5 m create_time) in H by auto.
  injection H as <-. auto.
Qed.

Lemma File_init_fits (env : Env) (name type : string) (obsid : Z) (source : string)
    (size : Z) (md5 : string) (create_time : option datetime) (f : File.t) :
  File.__init__ env name type obsid source size md5 create_time = OK f ->
  fits_columns (NewFile f) = File_in_range name type obsid size source.
Proof.
  intros H. apply File_init_inv in H as (m & Hmd5 & _ & _ & ->).
  destruct (md5_normal_form md5 m Hmd5) as (_ & Hlen & _ & _).
  unfold File_in_range. cbn [fits_columns File.name File.type File.obsid File.size
                               File.md5 File.source].
  assert (fits_String 32 m = true) as ->.
  { unfold fits_String. rewrite Hlen. reflexivity. }
  rewrite andb_true_r. reflexivity.
Qed.

Lemma flush_file_new (d : DB) (f : File.t) (o : Observation.t) :
  fits_columns (NewFile f) = true ->
  File_query_get d (File.name f) = None ->
  Observation_query_get d (File.obsid f) = Some o ->
  flush d [NewFile f]
  = OK {| observations := observations d; stores := stores d;
          files := files d ++ [f]; file_instances := file_instances d;
          file_events := file_events d; file_event_id_seq := file_event_id_seq d |}.
Proof.
  intros Hfits Hnew Hobs. cbn [flush]. rewrite (insert_fits d _ Hfits).
  cbn [insert_keys]. rewrite Hnew, Hobs. reflexivity.
Qed.

(** ** [resolve]: [File.get_inferring_info] *)

Arguments required_arg : simpl never.
Arguments File.__init__ : simpl never.
Arguments OsPath.basename : simpl never.


(** C2. When the basename of the store path names a cataloged File,
    [get_inferring_info] returns that record as it is stored and leaves the
    whole state of the call as it was: the database, the session, and the
    log of store probes, to which nothing is added; the caller's [info],
    whatever it holds, is not read. *)
Theorem resolve_existing_unchanged (env : Env) (store : Store.t)
    (store_path source_name : string) (info : option (gmap string pyval))
    (prev : File.t) (s : State) :
  File_query_get (db s) (OsPath.basename store_path) = Some prev ->
  run (get_inferring_info env store store_path source_name info) s = (OK prev, s).
Proof.
  intros Hprev. simpl. rewrite Hprev. reflexivity.
Qed.

Lemma resolve_existing_unchanged_witness :
  File_query_get Scenario.db_bar (OsPath.basename Scenario.bar_path) = Some Scenario.bar
  /\ run (get_inferring_info Scenario.env_pacific Scenario.storeA Scenario.bar_path "site2"
            (Some Scenario.info_other)) (fresh Scenario.db_bar)
     = (OK Scenario.bar, fresh Scenario.db_bar).
Proof.
  split; [reflexivity |].
  apply (resolve_existing_unchanged Scenario.env_pacific Scenario.storeA Scenario.bar_path
           "site2" (Some Scenario.info_other) Scenario.bar (fresh Scenario.db_bar)).
  reflexivity.
Defined.

Ltac call_simpl := cbn [lift pbind advance run fst snd db session probes fresh].

(** Case analysis on the next call of a program whose result is not known. *)
Ltac case_call :=
  match goal with
  | |- context [match Observation_query_get ?d ?o with _ => _ end] =>
      destruct (Observation_query_get d o) eqn:?
  | |- context [match Store.get_info_for_path ?s ?p with _ => _ end] =>
      destruct (Store.get_info_for_path s p) eqn:?
  | |- context [lift ?r] => destruct r eqn:?
  end; call_simpl.

Lemma resolve_new_inv (env : Env) (store : Store.t) (store_path source_name : string)
    (info : option (gmap string pyval)) (d : DB) (f : File.t) :
  let p := get_inferring_info env store store_path source_name info in
  File_query_get d (OsPath.basename store_path) = None ->
  fst (run p (fresh d)) = OK f ->
  exists s',
    advance p (fresh d) = (SessionCommit (Ret f), s')
    /\ db s' = d
    /\ File.name f = OsPath.basename store_path
    /\ creates (session s') f.
Proof.
  intros p Hnew. subst p. rewrite run_advance.
  unfold get_inferring_info, probe_info.
  cbn [advance fresh db]. rewrite Hnew.
  destruct info as [info |]; cbn [pbind advance];
    repeat case_call; try discriminate.
  all: match goal with
       | Hi : File.__init__ _ _ _ _ _ _ _ _ = OK ?a |- _ =>
           apply File_init_inv in Hi as (m & _ & _ & _ & Hf);
           assert (File.name a = OsPath.basename store_path) by (rewrite Hf; reflexivity);
           clear Hf
       end.
  all: destruct (flush _ _); cbn [fst]; intros Hr; try discriminate;
       injection Hr as ->; eexists; split; [reflexivity |]; cbn [db session];
       unfold creates; repeat split; eauto.
Qed.

(** C10. When [get_inferring_info] has to create the File and the metadata
    record has no [start_jd], the call succeeds if the Observation of the
    record's [obsid] is cataloged (the File is appended, no Observation is
    added; the values are taken to fit their columns) and fails on the
    missing required argument [start_jd] if it is not (nothing is written).
    The record is the caller's, or the answer of the store when the caller
    gave none. *)
Theorem resolve_start_jd_only_for_new_observation (env : Env) (store : Store.t)
    (store_path source_name : string) (info_arg : option (gmap string pyval))
    (info : gmap string pyval) (d : DB)
    (size : Z) (md5 type : string) (lst : pyfloat) (obsid : Z) :
  File_query_get d (OsPath.basename store_path) = None ->
  info_arg = Some info
  \/ (info_arg = None /\ Store.get_info_for_path store store_path = ProbeInfo info) ->
  info !! "start_jd" = None ->
  required_arg info Tint "size" = OK size ->
  required_arg info Tunicode "md5" = OK md5 ->
  required_arg info Tunicode "type" = OK type ->
  required_arg info Tfloat "lst" = OK lst ->
  required_arg info Tint "obsid" = OK obsid ->
  let r := run (get_inferring_info env store store_path source_name info_arg) (fresh d) in
  (forall obs m,
      Observation_query_get d obsid = Some obs ->
      normalize_and_validate_md5 md5 = OK m ->
      0 <= size ->
      File_in_range (OsPath.basename store_path) type obsid size source_name = true ->
      exists inst,
        fst r = OK inst
        /\ File.name inst = OsPath.basename store_path
        /\ File.obsid inst = obsid
        /\ files (db (snd r)) = (files d ++ [inst])%list
        /\ observations (db (snd r)) = observations d)
  /\ (Observation_query_get d obsid = None ->
      fst r = Raise (ServerError ("required parameter " ++ PyStr.quoted "start_jd"
                                  ++ " not provided"))
      /\ db (snd r) = d).
Proof.
  intros Hnew Hinfo Hjd Hsize Hmd5 Htype Hlst Hobsid r.
  assert (required_arg info Tfloat "start_jd"
          = Raise (ServerError ("required parameter " ++ PyStr.quoted "start_jd"
                                ++ " not provided"))) as Hreq.
  { unfold required_arg. rewrite Hjd. reflexivity. }
  subst r. unfold get_inferring_info, probe_info.
  cbn [run fresh db]. rewrite Hnew.
  split.
  - intros obs m Hobs Hm Hsz Hfits.
    pose proof (File_init_ok env (OsPath.basename store_path) type obsid source_name
                  size md5 m None (basename_no_sep store_path) Hm Hsz) as Hinit.
    rewrite <- (File_init_fits _ _ _ _ _ _ _ _ _ Hinit) in Hfits.
    pose proof (flush_file_new d _ obs Hfits Hnew Hobs) as Hflush.
    destruct Hinfo as [-> | [-> Hprobe]]; call_simpl;
      [| rewrite Hprobe; call_simpl];
      rewrite Hsize, Hmd5, Htype, Hlst, Hobsid; call_simpl;
      rewrite Hobs; call_simpl;
      rewrite Hinit; call_simpl; cbn [app];
      rewrite Hflush; cbn [fst snd db files observations];
      eexists; repeat split.
  - intros Hobs.
    destruct Hinfo as [-> | [-> Hprobe]]; call_simpl;
      [| rewrite Hprobe; call_simpl];
      rewrite Hsize, Hmd5, Htype, Hlst, Hobsid; call_simpl;
      rewrite Hobs; call_simpl;
      rewrite Hreq; call_simpl; split; reflexivity.
Qed.

Lemma resolve_start_jd_only_for_new_observation_witness :
  (exists inst,
      fst (run (get_inferring_info Scenario.env_utc Scenario.storeA Scenario.bar_path "site1"
                  (Some Scenario.info_bar_no_start_jd)) (fresh Scenario.db_obs)) = OK inst
      /\ File.name inst = "bar.uv")
  /\ is_ServerError
       (fst (run (get_inferring_info Scenario.env_utc Scenario.storeA Scenario.bar_path "site1"
                    (Some Scenario.info_bar_no_start_jd)) (fresh Scenario.db_empty))) = true.
Proof.
  split.
  - pose proof (resolve_start_jd_only_for_new_observation
                  Scenario.env_utc Scenario.storeA Scenario.bar_path "site1"
                  (Some Scenario.info_bar_no_start_jd) Scenario.info_bar_no_start_jd
                  Scenario.db_obs 2048 Scenario.md5_upper "uv" (PyFloat "3.1") 99
                  eq_refl (or_introl eq_refl) eq_refl eq_refl eq_refl eq_refl eq_refl eq_refl)
      as [Hok _].
    destruct (Hok Scenario.obs99 Scenario.md5_lower) as (inst & Hr & Hn & _);
      [reflexivity | reflexivity | lia | reflexivity |].
    exists inst; split; [exact Hr | exact Hn].
  - pose proof (resolve_start_jd_only_for_new_observation
                  Scenario.env_utc Scenario.storeA Scenario.bar_path "site1"
                  (Some Scenario.info_bar_no_start_jd) Scenario.info_bar_no_start_jd
                  Scenario.db_empty 2048 Scenario.md5_upper "uv" (PyFloat "3.1") 99
                  eq_refl (or_introl eq_refl) eq_refl eq_refl eq_refl eq_refl eq_refl eq_refl)
      as [_ Hfail].
    destruct Hfail as [Hr _]; [reflexivity |].
    rewrite Hr. reflexivity.
Defined.

(** ** Two callers racing on one unseen path *)

(** A caller taken up to its commit has performed some number of its
    operations, one at a time. *)
Lemma advance_steps {A} (p : prog A) (s : State) :
  exists n, Nat.iter n (fun ps => step (fst ps) (snd ps)) (p, s) = advance p s.
Proof.
  revert s. induction p as [| | ? ? IH | ? ? IH | ? ? IH | ? ? IH | ? ? ? IH | ? ? IH | ? IH];
    intros s; try (exists 0%nat; reflexivity);
    cbn [advance]; edestruct IH as [n Hn]; exists (S n);
    rewrite Nat.iter_succ_r; cbn [step fst snd]; exact Hn.
Qed.

Lemma insert_file_inv (d d' : DB) (f : File.t) :
  insert d (NewFile f) = OK d' ->
  File_query_get d (File.name f) = None
  /\ files d' = (files d ++ [f])%list
  /\ File_query_get d' (File.name f) = Some f.
Proof.
  intros H. apply insert_inv in H as [_ H]. revert H. cbn [insert_keys].
  destruct (File_query_get d (File.name f)) eqn:Hnew; [discriminate |].
  destruct (Observation_query_get d (File.obsid f)); [| discriminate].
  intros H; injection H as <-. cbn [files].
  repeat split. unfold File_query_get in *. cbn [files].
  rewrite find_snoc_miss by exact Hnew. rewrite String.eqb_refl. reflexivity.
Qed.

Lemma insert_name_monotone (d d' : DB) (o : model_obj) (n : string) :
  insert d o = OK d' -> File_query_get d n <> None -> File_query_get d' n <> None.
Proof.
  intros H Hn. unfold File_query_get in *.
  apply insert_files in H as [-> | (f & _ & _ & ->)]; [exact Hn |].
  destruct (List.find _ (files d)) as [y |] eqn:E; [| contradiction].
  rewrite (find_snoc_hit _ _ f y E). discriminate.
Qed.

Lemma flush_name_monotone (l : list model_obj) (d d' : DB) (n : string) :
  flush d l = OK d' -> File_query_get d n <> None -> File_query_get d' n <> None.
Proof.
  revert d. induction l as [|o l IH]; cbn [flush]; intros d H Hn.
  - injection H as <-. exact Hn.
  - destruct (insert d o) as [d1 |] eqn:E; cbn [rbind] in H; [| discriminate].
    apply (IH d1 H). apply (insert_name_monotone d d1 o n E Hn).
Qed.

Lemma flush_ok_all_fit (l : list model_obj) (d d' : DB) :
  flush d l = OK d' -> forallb fits_columns l = true.
Proof.
  revert d. induction l as [|o l IH]; cbn [flush forallb]; intros d H; [reflexivity |].
  destruct (insert d o) as [d1 |] eqn:E; cbn [rbind] in H; [| discriminate].
  apply insert_inv in E as [-> _]. apply (IH d1 H).
Qed.

(** A commit that goes through with a new File in its session found the
    name free and leaves it taken. *)
Lemma flush_ok_file_new (l : list model_obj) (d d' : DB) (f : File.t) :
  flush d l = OK d' -> List.In (NewFile f) l ->
  File_query_get d (File.name f) = None /\ File_query_get d' (File.name f) <> None.
Proof.
  revert d. induction l as [|o l IH]; cbn [flush]; intros d H Hin; [destruct Hin |].
  destruct (insert d o) as [d1 |] eqn:E; cbn [rbind] in H; [| discriminate].
  destruct Hin as [-> | Hin].
  - apply insert_file_inv in E as (Hnew & _ & Hget). split; [exact Hnew |].
    apply (flush_name_monotone l d1 d' _ H). rewrite Hget. discriminate.
  - destruct (IH d1 H Hin) as [Hnew1 Hget]. split; [| exact Hget].
    destruct (File_query_get d (File.name f)) eqn:Hd; [| reflexivity].
    exfalso. apply (insert_name_monotone d d1 o (File.name f) E); [| exact Hnew1].
    rewrite Hd. discriminate.
Qed.

(** A commit with a new File in its session, once the name is taken, is
    refused by the database. *)
Lemma flush_taken (l : list model_obj) (d : DB) (f : File.t) :
  List.In (NewFile f) l -> File_query_get d (File.name f) <> None ->
  exists e, flush d l = Raise e /\ is_database_error e = true.
Proof.
  intros Hin Htaken. destruct (flush d l) as [d' | e] eqn:E.
  - exfalso. apply Htaken. apply (flush_ok_file_new l d d' f E Hin).
  - exists e. split; [reflexivity | apply (flush_raises_database_error l d e E)].
Qed.

Lemma flush_creates (d d1 : DB) (pend : list model_obj) (f : File.t) :
  creates pend f -> flush d pend = OK d1 ->
  File_query_get d (File.name f) = None ->
  files d1 = (files d ++ [f])%list /\ File_query_get d1 (File.name f) = Some f.
Proof.
  intros Hc Hfl Hnew.
  destruct Hc as [-> | [o ->]]; cbn [flush] in Hfl.
  - destruct (insert d (NewFile f)) as [d' |] eqn:E; cbn [rbind] in Hfl; [| discriminate].
    injection Hfl as <-. apply insert_file_inv in E as (_ & Hfiles & Hget). auto.
  - destruct (insert d (NewObservation o)) as [d' |] eqn:E; cbn [rbind] in Hfl;
      [| discriminate].
    destruct (insert d' (NewFile f)) as [d'' |] eqn:E'; cbn [rbind] in Hfl; [| discriminate].
    injection Hfl as <-. apply insert_file_inv in E' as (_ & Hfiles & Hget).
    apply insert_files in E as [Hsame | (f' & Hf' & _)]; [| discriminate].
    rewrite Hfiles, Hsame. auto.
Qed.

(** When the values fit their columns, the refusal is that of a primary
    key: of the Observation that the session adds too, or of the File. *)
Lemma flush_conflict (d : DB) (pend : list model_obj) (f g : File.t) :
  creates pend f -> forallb fits_columns pend = true ->
  File_query_get d (File.name f) = Some g ->
  flush d pend = Raise (IntegrityError "observation" "primary key")
  \/ flush d pend = Raise (IntegrityError "file" "primary key").
Proof.
  intros Hc Hfit Hg. destruct Hc as [-> | [o ->]]; cbn [forallb] in Hfit.
  - rewrite andb_true_r in Hfit. right. cbn [flush].
    rewrite (insert_fits d _ Hfit). cbn [insert_keys]. rewrite Hg. reflexivity.
  - apply andb_prop in Hfit as [Ho Hf]. rewrite andb_true_r in Hf. cbn [flush].
    rewrite (insert_fits d _ Ho). cbn [insert_keys].
    destruct (Observation_query_get d (Observation.obsid o)); cbn [rbind]; [left; reflexivity |].
    right. rewrite (insert_fits _ _ Hf). cbn [insert_keys].
    unfold File_query_get in *. cbn [files]. rewrite Hg. reflexivity.
Qed.

Lemma creates_In (pend : list model_obj) (f : File.t) :
  creates pend f -> List.In (NewFile f) pend.
Proof. intros [-> | [o ->]]; cbn; auto. Qed.

(** Whatever the values, a session that creates a File whose name is taken
    is refused at its first INSERT that fails: that of the Observation, for
    a value that does not fit or for its primary key, or that of the File,
    for the same two reasons. No foreign key is reached. *)
Lemma flush_refused (d : DB) (pend : list model_obj) (f : File.t) :
  creates pend f -> File_query_get d (File.name f) <> None ->
  exists table,
    (table = "observation" \/ table = "file")
    /\ (flush d pend = Raise (IntegrityError table "primary key")
        \/ flush d pend = Raise (DataError table)).
Proof.
  intros Hc Htaken.
  assert (forall d', files d' = files d ->
            insert d' (NewFile f) = Raise (IntegrityError "file" "primary key")
            \/ insert d' (NewFile f) = Raise (DataError "file")) as Hfile.
  { intros d' Hsame. unfold insert.
    destruct (fits_columns (NewFile f)); [| right; reflexivity].
    cbn [insert_keys]. unfold File_query_get in *. rewrite Hsame.
    destruct (List.find _ (files d)); [left; reflexivity | contradiction]. }
  destruct Hc as [-> | [o ->]]; cbn [flush].
  - exists "file". split; [auto |].
    destruct (Hfile d eq_refl) as [-> | ->]; auto.
  - assert (insert d (NewObservation o) = Raise (DataError "observation")
            \/ insert d (NewObservation o) = Raise (IntegrityError "observation" "primary key")
            \/ exists d', insert d (NewObservation o) = OK d' /\ files d' = files d)
      as [-> | [-> | (d' & -> & Hsame)]].
    { unfold insert. destruct (fits_columns (NewObservation o)); [| auto].
      cbn [insert_keys]. destruct (Observation_query_get d (Observation.obsid o)); [auto |].
      right. right. eexists. split; reflexivity. }
    + exists "observation". auto.
    + exists "observation". auto.
    + exists "file". split; [auto |]. cbn [rbind].
      destruct (Hfile d' Hsame) as [-> | ->]; auto.
Qed.

(** *** The number of Files of one name *)

Lemma count_files_snoc (d : DB) (l : list File.t) (f : File.t) (n : string) :
  List.length (List.filter (fun g => String.eqb (File.name g) n) (l ++ [f]))
  = (List.length (List.filter (fun g => String.eqb (File.name g) n) l)
     + if String.eqb (File.name f) n then 1 else 0)%nat.
Proof.
  rewrite List.filter_app, List.length_app. cbn [List.filter].
  destruct (String.eqb (File.name f) n); reflexivity.
Qed.

Lemma insert_count (d d' : DB) (o : model_obj) (n : string) :
  insert d o = OK d' -> (count_files d n <= 1)%nat -> (count_files d' n <= 1)%nat.
Proof.
  intros H Hc. unfold count_files in *.
  apply insert_files in H as [-> | (f & _ & Hnew & ->)]; [exact Hc |].
  rewrite (count_files_snoc d).
  destruct (String.eqb (File.name f) n) eqn:E; [| lia].
  apply String.eqb_eq in E. rewrite E in Hnew.
  pose proof (File_query_get_None_count d n Hnew) as H0. unfold count_files in H0.
  rewrite H0. reflexivity.
Qed.

Lemma flush_count (l : list model_obj) (d d' : DB) (n : string) :
  flush d l = OK d' -> (count_files d n <= 1)%nat -> (count_files d' n <= 1)%nat.
Proof.
  revert d. induction l as [|o l IH]; cbn [flush]; intros d H Hc.
  - injection H as <-. exact Hc.
  - destruct (insert d o) as [d1 |] eqn:E; cbn [rbind] in H; [| discriminate].
    apply (IH d1 H). apply (insert_count d d1 o n E Hc).
Qed.

Lemma step_count {A} (p : prog A) (s : State) (n : string) :
  (count_files (db s) n <= 1)%nat -> (count_files (db (snd (step p s))) n <= 1)%nat.
Proof.
  intros Hc. destruct p; cbn [step snd db]; try exact Hc.
  destruct (flush (db s) (session s)) eqn:E; cbn [snd db]; [| exact Hc].
  apply (flush_count _ _ _ n E Hc).
Qed.

Lemma step_name_monotone {A} (p : prog A) (s : State) (n : string) :
  File_query_get (db s) n <> None -> File_query_get (db (snd (step p s))) n <> None.
Proof.
  intros Hn. destruct p; cbn [step snd db]; try exact Hn.
  destruct (flush (db s) (session s)) eqn:E; cbn [snd db]; [| exact Hn].
  apply (flush_name_monotone _ _ _ n E Hn).
Qed.

(** *** One scheduling step *)

Lemma sched_step_spec {A} (t : tid) (sys : System A) :
  let th := thread t sys in
  let ps := step (code th)
              {| db := shared_db sys; session := pending th; probes := probed th |} in
  shared_db (sched_step t sys) = db (snd ps)
  /\ thread t (sched_step t sys)
     = {| code := fst ps; pending := session (snd ps); probed := probes (snd ps) |}
  /\ forall t', t' <> t -> thread t' (sched_step t sys) = thread t' sys.
Proof.
  intros th ps. unfold sched_step. fold th. fold ps.
  destruct ps as [p' s']. destruct t; cbn.
  - repeat split. intros [] Hne; [contradiction | reflexivity].
  - repeat split. intros [] Hne; [reflexivity | contradiction].
Qed.

Lemma run_schedule_snoc {A} (pre : list tid) (t : tid) (sys : System A) :
  run_schedule (pre ++ [t]) sys = sched_step t (run_schedule pre sys).
Proof. unfold run_schedule. rewrite List.fold_left_app. reflexivity. Qed.

Lemma run_schedule_app {A} (pre post : list tid) (sys : System A) :
  run_schedule (pre ++ post) sys = run_schedule post (run_schedule pre sys).
Proof. unfold run_schedule. apply List.fold_left_app. Qed.

Lemma sched_step_count {A} (t : tid) (sys : System A) (n : string) :
  (count_files (shared_db sys) n <= 1)%nat ->
  (count_files (shared_db (sched_step t sys)) n <= 1)%nat.
Proof.
  intros Hc. destruct (sched_step_spec t sys) as [-> _]. apply step_count, Hc.
Qed.

Lemma run_schedule_count {A} (sched : list tid) (sys : System A) (n : string) :
  (count_files (shared_db sys) n <= 1)%nat ->
  (count_files (shared_db (run_schedule sched sys)) n <= 1)%nat.
Proof.
  unfold run_schedule. revert sys.
  induction sched as [|t sched IH]; cbn [fold_left]; intros sys Hc; [exact Hc |].
  apply IH, sched_step_count, Hc.
Qed.

Lemma sched_step_name_monotone {A} (t : tid) (sys : System A) (n : string) :
  File_query_get (shared_db sys) n <> None ->
  File_query_get (shared_db (sched_step t sys)) n <> None.
Proof.
  intros Hn. destruct (sched_step_spec t sys) as [-> _]. apply step_name_monotone, Hn.
Qed.

(** *** Callers past their lookup *)

(** After a lookup that found no File, [get_inferring_info] is creating
    the File of the basename. *)
Lemma resolve_creating (env : Env) (store : Store.t) (store_path source_name : string)
    (info : option (gmap string pyval)) (d : DB) :
  File_query_get d (OsPath.basename store_path) = None ->
  creating (OsPath.basename store_path)
    (fst (step (get_inferring_info env store store_path source_name info) (fresh d)))
    (session (snd (step (get_inferring_info env store store_path source_name info)
                     (fresh d)))).
Proof.
  intros Hnew. unfold get_inferring_info, probe_info. cbn [step fst snd fresh db session].
  rewrite Hnew.
  assert (forall (info : gmap string pyval),
             creating (OsPath.basename store_path)
               (do! size := lift (required_arg info Tint "size") in
                do! md5 := lift (required_arg info Tunicode "md5") in
                do! type := lift (required_arg info Tunicode "type") in
                do! lst := lift (required_arg info Tfloat "lst") in
                do! obsid := lift (required_arg info Tint "obsid") in
                ObservationQueryGet obsid (fun obs =>
                do! obs_added :=
                  match obs with
                  | None =>
                      do! start_jd := lift (required_arg info Tfloat "start_jd") in
                      SessionAdd (NewObservation {| Observation.obsid := obsid;
                                                    Observation.start_time_jd := start_jd;
                                                    Observation.stop_time_jd := None;
                                                    Observation.start_lst_hr := lst |})
                                 (Ret tt)
                  | Some _ => Ret tt
                  end in
                do! inst := lift (File.__init__ env (OsPath.basename store_path) type obsid
                                    source_name size md5 None) in
                SessionAdd (NewFile inst) (SessionCommit (Ret inst)))) []) as Hbody.
  { clear. intros info.
    repeat match goal with
           | |- creating _ (pbind (lift ?r) _) _ =>
               destruct r; cbn [lift pbind]; [| constructor]
           end.
    constructor. intros [obs |]; cbn [pbind].
    - match goal with
      | |- creating _ (pbind (lift ?r) _) _ =>
          destruct r as [inst |] eqn:Hinit; cbn [lift pbind]; [| constructor]
      end.
      constructor. constructor.
      + unfold creates. cbn [app]. eauto.
      + apply File_init_inv in Hinit as (m & _ & _ & _ & ->). reflexivity.
    - match goal with
      | |- creating _ (pbind (pbind (lift ?r) _) _) _ =>
          destruct r; cbn [lift pbind]; [| constructor]
      end.
      constructor.
      match goal with
      | |- creating _ (pbind (lift ?r) _) _ =>
          destruct r as [inst |] eqn:Hinit; cbn [lift pbind]; [| constructor]
      end.
      constructor. constructor.
      + unfold creates. cbn [app]. eauto.
      + apply File_init_inv in Hinit as (m & _ & _ & _ & ->). reflexivity. }
  destruct info as [info |]; cbn [pbind].
  - apply Hbody.
  - constructor. intros [info | cause]; cbn [pbind]; [apply Hbody | constructor].
Qed.

(** One operation of a caller that is creating: it is still creating and has
    written nothing, or it has committed on a database where the name was
    free, returns, and leaves the name taken. *)
Lemma step_of_creating (n : string) (p : prog File.t) (pend : list model_obj) (d : DB)
    (pr : list (string * string)) :
  creating n p pend ->
  let ps := step p {| db := d; session := pend; probes := pr |} in
  (creating n (fst ps) (session (snd ps)) /\ db (snd ps) = d)
  \/ (exists f, fst ps = Ret f /\ File_query_get d n = None
                /\ File_query_get (db (snd ps)) n <> None).
Proof.
  intros Hc. destruct Hc as [e pend | f pend Hin Hname | o k pend Hk | st path k pend Hk
                            | o k pend Hk]; cbn [step fst snd db session].
  - left. split; [constructor | reflexivity].
  - destruct (flush d pend) as [d' | e] eqn:E; cbn [fst snd db session].
    + right. exists f. split; [reflexivity |].
      rewrite <- Hname. apply (flush_ok_file_new pend d d' f E (creates_In pend f Hin)).
    + left. split; [constructor | reflexivity].
  - left. split; [apply Hk | reflexivity].
  - left. split; [apply Hk | reflexivity].
  - left. split; [exact Hk | reflexivity].
Qed.

(** A caller that stands at its commit once the name is taken is raised the
    refusal of the database: of the Observation or of the File, for its
    primary key or for a value that does not fit its column. *)
Lemma commit_of_creating_refused (n : string) (k : prog File.t) (pend : list model_obj)
    (d : DB) (pr : list (string * string)) :
  creating n (SessionCommit k) pend ->
  File_query_get d n <> None ->
  exists e table,
    fst (step (SessionCommit k) {| db := d; session := pend; probes := pr |}) = Throw e
    /\ (table = "observation" \/ table = "file")
    /\ (e = IntegrityError table "primary key" \/ e = DataError table).
Proof.
  intros Hc Htaken. inversion Hc as [| f pend' Hin Hname | | |]; subst.
  destruct (flush_refused d pend f Hin Htaken) as (table & Htable & [Hfl | Hfl]);
    eexists; exists table; cbn [step db session]; rewrite Hfl; cbn [fst]; eauto.
Qed.

Lemma tid_cases (t t' : tid) : t' = t \/ t' = other t.
Proof. destruct t, t'; auto. Qed.

Lemma both_returned_iff {A} (t : tid) (sys : System A) :
  (returned (thread1 sys) /\ returned (thread2 sys))
  <-> (returned (thread t sys) /\ returned (thread (other t) sys)).
Proof. destruct t; cbn [thread other]; tauto. Qed.

Lemma sched_step_returned {A} (t : tid) (sys : System A) :
  returned (thread t sys) -> sched_step t sys = sys.
Proof.
  intros [a Ha]. unfold sched_step. destruct sys as [d th1 th2].
  destruct t; cbn [thread thread1 thread2] in Ha |- *.
  - destruct th1 as [c p q]. cbn in Ha. subst c. reflexivity.
  - destruct th2 as [c p q]. cbn in Ha. subst c. reflexivity.
Qed.

Lemma racing_step (n : string) (t : tid) (sys : System File.t) :
  racing n sys -> racing n (sched_step t sys).
Proof.
  intros (Hstate & Htaken & Hboth).
  destruct (Hstate t) as [Hc | Hret];
    [| rewrite (sched_step_returned t sys Hret); repeat split; assumption].
  destruct (sched_step_spec t sys) as (Hdb & Hthis & Hother).
  cbv zeta in Hdb, Hthis.
  assert (thread (other t) (sched_step t sys) = thread (other t) sys) as Hoth
    by (apply Hother; destruct t; discriminate).
  rewrite (both_returned_iff t) in Hboth.
  unfold racing. rewrite (both_returned_iff t (sched_step t sys)).
  destruct (step_of_creating n _ _ (shared_db sys) (probed (thread t sys)) Hc)
    as [[Hc' Hd'] | (f & Hf & Hfree & Hnow)].
  - (* still creating, nothing written *)
    rewrite Hd' in Hdb.
    assert (~ returned (thread t (sched_step t sys))) as Hnot.
    { intros [a Ha]. rewrite Hthis in Ha. cbn [code] in Ha. rewrite Ha in Hc'.
      inversion Hc'. }
    split; [| split].
    + intros t'. destruct (tid_cases t t') as [-> | ->].
      * left. rewrite Hthis. exact Hc'.
      * rewrite Hoth. apply Hstate.
    + intros t' Hr. rewrite Hdb. destruct (tid_cases t t') as [-> | ->].
      * contradiction.
      * rewrite Hoth in Hr. apply (Htaken _ Hr).
    + intros [H1 _]. contradiction.
  - (* it has committed, on a database where the name was free *)
    split; [| split].
    + intros t'. destruct (tid_cases t t') as [-> | ->].
      * right. exists f. rewrite Hthis. exact Hf.
      * rewrite Hoth. apply Hstate.
    + intros t' _. rewrite Hdb. exact Hnow.
    + intros [_ H2]. rewrite Hoth in H2. apply (Htaken _ H2). exact Hfree.
Qed.

Lemma racing_schedule (n : string) (sched : list tid) (sys : System File.t) :
  racing n sys -> racing n (run_schedule sched sys).
Proof.
  unfold run_schedule. revert sys.
  induction sched as [|t sched IH]; cbn [fold_left]; intros sys H; [exact H |].
  apply IH, racing_step, H.
Qed.

(** The state of each caller under a schedule that starts two calls of
    [get_inferring_info] on one path: it has not moved, or it is creating
    the File, or it has returned and a File of the name is cataloged. *)
Lemma resolve_schedule_threads (env1 env2 : Env) (store1 store2 : Store.t)
    (store_path source1 source2 : string) (info1 info2 : option (gmap string pyval))
    (d : DB) (pre : list tid) :
  let n := OsPath.basename store_path in
  let p1 := get_inferring_info env1 store1 store_path source1 info1 in
  let p2 := get_inferring_info env2 store2 store_path source2 info2 in
  let sys := run_schedule pre (start d p1 p2) in
  forall t,
    (~ List.In t pre /\ thread t sys = thread t (start d p1 p2))
    \/ (List.In t pre
        /\ (creating n (code (thread t sys)) (pending (thread t sys))
            \/ (returned (thread t sys) /\ File_query_get (shared_db sys) n <> None))).
Proof.
  intros n p1 p2. induction pre as [|t0 pre IH] using List.rev_ind; intros sys t.
  - left. split; [intros [] | reflexivity].
  - subst sys. rewrite run_schedule_snoc.
    set (sys := run_schedule pre (start d p1 p2)) in *. cbv zeta in IH.
    destruct (sched_step_spec t0 sys) as (Hdb & Hthis & Hother). cbv zeta in Hdb, Hthis.
    destruct (tid_cases t0 t) as [-> | ->].
    + (* the caller that moves *)
      right. split; [apply List.in_or_app; right; left; reflexivity |].
      destruct (IH t0) as [[_ Hinit] | [_ [Hc | [Hret Htaken]]]].
      * (* its first operation is the lookup *)
        assert (exists env store source info,
                   thread t0 sys = {| code := get_inferring_info env store store_path source info;
                                      pending := []; probed := [] |})
          as (env & store & source & info & Hth).
        { rewrite Hinit. destruct t0; cbn [thread start thread1 thread2];
            do 4 eexists; reflexivity. }
        rewrite Hthis, Hdb, Hth. cbn [code pending probed].
        destruct (File_query_get (shared_db sys) n) as [prev |] eqn:Hlook.
        -- right. unfold get_inferring_info. cbn [step fst snd db].
           fold n. rewrite Hlook. split; [exists prev; reflexivity | discriminate].
        -- left.
           apply (resolve_creating env store store_path source info (shared_db sys) Hlook).
      * destruct (step_of_creating n _ _ (shared_db sys) (probed (thread t0 sys)) Hc)
          as [[Hc' Hd'] | (f & Hf & _ & Hnow)].
        -- left. rewrite Hthis. exact Hc'.
        -- right. rewrite Hthis, Hdb. split; [exists f; exact Hf | exact Hnow].
      * right. rewrite (sched_step_returned t0 sys Hret). auto.
    + (* the other caller *)
      assert (other t0 <> t0) as Hne by (destruct t0; discriminate).
      rewrite (Hother (other t0) Hne).
      assert (List.In (other t0) (pre ++ [t0]) <-> List.In (other t0) pre) as Hin.
      { rewrite List.in_app_iff. cbn. intuition congruence. }
      destruct (IH (other t0)) as [[Hnot Hinit] | [Hstarted [Hc | [Hret Htaken]]]].
      * left. rewrite Hin. auto.
      * right. rewrite Hin. auto.
      * right. rewrite Hin. split; [exact Hstarted |]. right. split; [exact Hret |].
        apply sched_step_name_monotone, Htaken.
Qed.

(** C1, as the code has it. Two callers of [get_inferring_info] run on one
    store path whose basename is not cataloged, their database operations
    interleaved in any way. At most one File of that name ever exists. If
    both have looked the name up while no File of that name was committed,
    then whatever follows they do not both return a File, and a caller that
    stands at its commit once the name is taken is raised the refusal of the
    database: the [IntegrityError] of a primary key, of the Observation that
    its session adds too or of the File, or the [DataError] of a value of
    one of the two that does not fit its column. Nothing in
    [get_inferring_info] catches it and fetches the winner's record. In
    particular, when each caller would succeed alone and both reach their
    commit before either commits, the first to commit returns its File and
    the second is raised the [IntegrityError] of a primary key, of the
    Observation or of the File, and the database ends as the winner alone
    leaves it, with exactly one File of that name, the winner's. *)
Theorem resolve_race_loser_raises (env1 env2 : Env) (store1 store2 : Store.t)
    (store_path source1 source2 : string) (info1 info2 : option (gmap string pyval))
    (d : DB) :
  let name := OsPath.basename store_path in
  let p1 := get_inferring_info env1 store1 store_path source1 info1 in
  let p2 := get_inferring_info env2 store2 store_path source2 info2 in
  File_query_get d name = None ->
  (forall pre post,
      let mid := run_schedule pre (start d p1 p2) in
      let fin := run_schedule post mid in
      (count_files (shared_db fin) name <= 1)%nat
      /\ (List.In T1 pre -> List.In T2 pre ->
          File_query_get (shared_db mid) name = None ->
          ~ (exists f1 f2, outcome (code (thread1 fin)) = Some (OK f1)
                           /\ outcome (code (thread2 fin)) = Some (OK f2))
          /\ forall t k,
               code (thread t fin) = SessionCommit k ->
               File_query_get (shared_db fin) name <> None ->
               exists e table,
                 code (thread t (sched_step t fin)) = Throw e
                 /\ (table = "observation" \/ table = "file")
                 /\ (e = IntegrityError table "primary key" \/ e = DataError table)))
  /\ (forall f1 f2,
         fst (run p1 (fresh d)) = OK f1 ->
         fst (run p2 (fresh d)) = OK f2 ->
         exists table,
           (table = "observation" \/ table = "file")
           /\ race d p1 p2
              = (OK f1, Raise (IntegrityError table "primary key"),
                 db (snd (run p1 (fresh d))))
           /\ File_query_get (db (snd (run p1 (fresh d)))) name = Some f1
           /\ count_files (db (snd (run p1 (fresh d)))) name = 1%nat).
Proof.
  intros name p1 p2 Hnew. split.
  - intros pre post mid fin. split.
    + subst fin mid. rewrite <- run_schedule_app. apply run_schedule_count.
      cbn [start shared_db]. rewrite (File_query_get_None_count d name Hnew). lia.
    + intros Hin1 Hin2 Hfree.
      assert (racing name mid) as Hmid.
      { assert (forall t, creating name (code (thread t mid)) (pending (thread t mid)))
          as Hboth.
        { intros t.
          destruct (resolve_schedule_threads env1 env2 store1 store2 store_path source1
                      source2 info1 info2 d pre t)
            as [[Hnot _] | [_ [Hc | [_ Htaken]]]].
          - exfalso. apply Hnot. destruct t; assumption.
          - exact Hc.
          - exfalso. apply Htaken. exact Hfree. }
        assert (forall t, ~ returned (thread t mid)) as Hnone.
        { intros t [a Ha]. specialize (Hboth t). rewrite Ha in Hboth. inversion Hboth. }
        split; [| split].
        - intros t. left. apply Hboth.
        - intros t Hr. destruct (Hnone t Hr).
        - intros [Hr _]. apply (Hnone T1 Hr). }
      pose proof (racing_schedule name post mid Hmid) as (Hstate & Htaken & Hnot).
      fold fin in Hstate, Htaken, Hnot. split.
      * intros (f1 & f2 & H1 & H2). apply Hnot. split.
        -- exists f1. destruct (code (thread1 fin)); cbn in H1; try discriminate.
           injection H1 as ->. reflexivity.
        -- exists f2. destruct (code (thread2 fin)); cbn in H2; try discriminate.
           injection H2 as ->. reflexivity.
      * intros t k Hk Hnow.
        destruct (Hstate t) as [Hc | [a Ha]]; [| rewrite Hk in Ha; discriminate].
        rewrite Hk in Hc.
        destruct (commit_of_creating_refused name k _ (shared_db fin)
                    (probed (thread t fin)) Hc Hnow) as (e & table & He & Htable & Hdb).
        exists e, table. split; [| split; [exact Htable | exact Hdb]].
        destruct (sched_step_spec t fin) as (_ & -> & _). cbn [code].
        rewrite Hk. exact He.
  - intros f1 f2 H1 H2.
    destruct (resolve_new_inv env1 store1 store_path source1 info1 d f1 Hnew H1)
      as (s1 & Ha1 & Hd1 & Hn1 & Hc1).
    destruct (resolve_new_inv env2 store2 store_path source2 info2 d f2 Hnew H2)
      as (s2 & Ha2 & Hd2 & Hn2 & Hc2).
    fold p1 in Ha1. fold p2 in Ha2. fold name in Hn1, Hn2.
    assert (exists d1, flush d (session s1) = OK d1
                       /\ run p1 (fresh d) = (OK f1, {| db := d1; session := [];
                                                        probes := probes s1 |}))
      as (d1 & Hfl & Hrun).
    { revert H1. rewrite (run_advance p1), Ha1. cbn [fst snd run]. rewrite Hd1.
      destruct (flush d (session s1)) as [d1 |]; cbn [fst]; [| discriminate].
      intros _. exists d1; auto. }
    assert (forallb fits_columns (session s2) = true) as Hfit2.
    { revert H2. rewrite (run_advance p2), Ha2. cbn [fst snd run]. rewrite Hd2.
      destruct (flush d (session s2)) as [d2 |] eqn:E; cbn [fst]; [| discriminate].
      intros _. apply (flush_ok_all_fit _ _ _ E). }
    rewrite <- Hn1 in Hnew.
    destruct (flush_creates d d1 (session s1) f1 Hc1 Hfl Hnew) as [Hfiles Hget].
    rewrite Hn1 in Hget, Hnew.
    assert (File_query_get d1 (File.name f2) = Some f1) as Hget2
      by (rewrite Hn2; exact Hget).
    assert (exists table,
               (table = "observation" \/ table = "file")
               /\ flush d1 (session s2) = Raise (IntegrityError table "primary key"))
      as (table & Htable & Hfl2).
    { destruct (flush_conflict d1 (session s2) f2 f1 Hc2 Hfit2 Hget2) as [H | H];
        eauto. }
    exists table. split; [exact Htable |].
    rewrite Hrun. cbn [snd db].
    split; [| split].
    + unfold race. rewrite Ha1, Hd1, Ha2, Hd2. cbn [run db session probes].
      rewrite Hfl. cbn [run db session probes]. rewrite Hfl2. reflexivity.
    + exact Hget.
    + unfold count_files. rewrite Hfiles, List.filter_app, List.length_app.
      fold (count_files d name). rewrite (File_query_get_None_count d name Hnew).
      cbn [List.filter]. rewrite Hn1, String.eqb_refl. reflexivity.
Qed.

Lemma resolve_race_loser_raises_witness :
  ~ (exists f1 f2,
        outcome (code (thread1 (run_schedule [T1; T2; T1; T1; T1; T1; T2; T2; T2; T2]
                                  (run_schedule [T2; T1]
                                     (start Scenario.db_empty
                                        (get_inferring_info Scenario.env_utc Scenario.storeA
                                           Scenario.bar_path "site1" None)
                                        (get_inferring_info Scenario.env_pacific
                                           Scenario.storeA Scenario.bar_path "site2"
                                           (Some Scenario.info_other)))))))
        = Some (OK f1)
        /\ outcome (code (thread2 (run_schedule [T1; T2; T1; T1; T1; T1; T2; T2; T2; T2]
                                     (run_schedule [T2; T1]
                                        (start Scenario.db_empty
                                           (get_inferring_info Scenario.env_utc
                                              Scenario.storeA Scenario.bar_path "site1" None)
                                           (get_inferring_info Scenario.env_pacific
                                              Scenario.storeA Scenario.bar_path "site2"
                                              (Some Scenario.info_other)))))))
           = Some (OK f2))
  /\ exists table,
       race Scenario.db_empty
         (get_inferring_info Scenario.env_utc Scenario.storeA Scenario.bar_path "site1" None)
         (get_inferring_info Scenario.env_pacific Scenario.storeA Scenario.bar_path "site2"
            (Some Scenario.info_other))
       = (OK Scenario.bar, Raise (IntegrityError table "primary key"),
          db (snd (run (get_inferring_info Scenario.env_utc Scenario.storeA Scenario.bar_path
                          "site1" None) (fresh Scenario.db_empty)))).
Proof.
  destruct (resolve_race_loser_raises Scenario.env_utc Scenario.env_pacific
              Scenario.storeA Scenario.storeA Scenario.bar_path "site1" "site2"
              None (Some Scenario.info_other) Scenario.db_empty eq_refl)
    as [Hany Hrace].
  split.
  - destruct (Hany [T2; T1] [T1; T2; T1; T1; T1; T1; T2; T2; T2; T2]) as [_ Hlooked].
    apply Hlooked.
    + right; left; reflexivity.
    + left; reflexivity.
    + reflexivity.
  - destruct (Hrace Scenario.bar
                {| File.name := "bar.uv"; File.type := "npz";
                   File.create_time := {| wall_seconds := 1478217600; microsecond := 0 |};
                   File.obsid := 5; File.size := 7;
                   File.md5 := "00000000000000000000000000000000";
                   File.source := "site2" |} eq_refl eq_refl)
      as (table & _ & Heq & _).
    exists table. exact Heq.
Defined.

(** C1, as the specification has it, fails: with two callers taking turns
    on the unseen [bar.uv], the first returns the File it created and the
    second ends with the [IntegrityError] of its commit, not with the
    winner's record. One File of that name exists. *)
Lemma resolve_race_loser_not_recovered :
  let p := get_inferring_info Scenario.env_utc Scenario.storeA Scenario.bar_path "site1" None in
  let sys := run_schedule Scenario.taking_turns (start Scenario.db_empty p p) in
  outcome (code (thread1 sys)) = Some (OK Scenario.bar)
  /\ outcome (code (thread2 sys)) = Some (Raise (IntegrityError "observation" "primary key"))
  /\ count_files (shared_db sys) "bar.uv" = 1%nat.
Proof.
  vm_compute. repeat split.
Qed.


(** ** [register]: the File constructor and the commit *)

Lemma run_register (env : Env) (name type : string) (obsid : Z) (source : string)
    (size : Z) (md5 : string) (create_time : option datetime) (d : DB) :
  run (register env name type obsid source size md5 create_time) (fresh d)
  = match File.__init__ env name type obsid source size md5 create_time with
    | Raise e => (Raise e, fresh d)
    | OK f =>
        match insert d (NewFile f) with
        | OK d' => (OK f, fresh d')
        | Raise e => (Raise e, fresh d)
        end
    end.
Proof.
  unfold register, persist.
  destruct (File.__init__ env name type obsid source size md5 create_time) as [f | e];
    call_simpl; [| reflexivity].
  cbn [app flush rbind].
  destruct (insert d (NewFile f)) as [d' | e]; reflexivity.
Qed.

Lemma insert_file_taken (d : DB) (f g : File.t) :
  fits_columns (NewFile f) = true ->
  File_query_get d (File.name f) = Some g ->
  insert d (NewFile f) = Raise (IntegrityError "file" "primary key").
Proof.
  intros Hfits H. rewrite (insert_fits d _ Hfits). cbn [insert_keys].
  rewrite H. reflexivity.
Qed.

Lemma insert_file_new (d : DB) (f : File.t) (o : Observation.t) :
  fits_columns (NewFile f) = true ->
  File_query_get d (File.name f) = None ->
  Observation_query_get d (File.obsid f) = Some o ->
  insert d (NewFile f)
  = OK {| observations := observations d; stores := stores d;
          files := files d ++ [f]; file_instances := file_instances d;
          file_events := file_events d; file_event_id_seq := file_event_id_seq d |}.
Proof.
  intros Hfits H1 H2. rewrite (insert_fits d _ Hfits). cbn [insert_keys].
  rewrite H1, H2. reflexivity.
Qed.

Lemma insert_file_no_observation (d : DB) (f : File.t) :
  fits_columns (NewFile f) = true ->
  File_query_get d (File.name f) = None ->
  Observation_query_get d (File.obsid f) = None ->
  insert d (NewFile f) = Raise (IntegrityError "file" "foreign key obsid").
Proof.
  intros Hfits H1 H2. rewrite (insert_fits d _ Hfits). cbn [insert_keys].
  rewrite H1, H2. reflexivity.
Qed.

Lemma insert_misfit (d : DB) (o : model_obj) :
  fits_columns o = false -> insert d o = Raise (DataError (table_of o)).
Proof. intros H. unfold insert. rewrite H. reflexivity. Qed.

(** C3, as the code has it. [register] raises a [ValueError], and writes
    nothing, whenever the name contains the separator [/], the md5 does not
    normalize to 32 hexadecimal characters, or the size is negative. For
    every other input the constructor returns the File, whose md5 is the
    lowercase form of the one given, and the commit decides: when the
    values fit their columns, the name is free and the Observation of
    [obsid] is cataloged, the File is the row that the table now holds
    under that name; when a value does not fit its column the database
    raises a [DataError]; when the name is taken, the [IntegrityError] of
    the primary key; when the Observation is missing, that of the foreign
    key; and in these three cases nothing is written. *)
Theorem register_validates_and_persists (env : Env) (name type : string) (obsid : Z)
    (source : string) (size : Z) (md5 : string) (create_time : option datetime) (d : DB) :
  let r := run (register env name type obsid source size md5 create_time) (fresh d) in
  (PyStr.char_in "/" name = true
   \/ is_OK (normalize_and_validate_md5 md5) = false
   \/ size < 0 ->
   is_ValueError (fst r) = true /\ snd r = fresh d)
  /\ (forall m,
         PyStr.char_in "/" name = false ->
         normalize_and_validate_md5 md5 = OK m ->
         0 <= size ->
         let f := {| File.name := name; File.type := type;
                     File.create_time := match create_time with
                                         | None => replace_microsecond (utcnow env) 0
                                         | Some c => c
                                         end;
                     File.obsid := obsid; File.size := size; File.md5 := m;
                     File.source := source |} in
         m = PyStr.lower md5
         /\ (forall obs,
                File_in_range name type obsid size source = true ->
                File_query_get d name = None ->
                Observation_query_get d obsid = Some obs ->
                fst r = OK f
                /\ files (db (snd r)) = (files d ++ [f])%list
                /\ File_query_get (db (snd r)) name = Some f)
         /\ (File_in_range name type obsid size source = false ->
             r = (Raise (DataError "file"), fresh d))
         /\ (File_in_range name type obsid size source = true ->
             File_query_get d name <> None ->
             r = (Raise (IntegrityError "file" "primary key"), fresh d))
         /\ (File_in_range name type obsid size source = true ->
             File_query_get d name = None ->
             Observation_query_get d obsid = None ->
             r = (Raise (IntegrityError "file" "foreign key obsid"), fresh d))).
Proof.
  intros r. subst r. rewrite run_register. split.
  - intros Hbad.
    pose proof (File_init_invalid env name type obsid source size md5 create_time Hbad) as Hv.
    destruct (File.__init__ env name type obsid source size md5 create_time);
      [discriminate | auto].
  - intros m Hname Hmd5 Hsize f.
    pose proof (File_init_ok env name type obsid source size md5 m create_time
                  Hname Hmd5 Hsize) as Hinit.
    fold f in Hinit. rewrite Hinit.
    pose proof (File_init_fits _ _ _ _ _ _ _ _ _ Hinit) as Hfits.
    split; [apply (md5_normal_form md5 m Hmd5) |].
    split; [| split; [| split]].
    + intros obs Hrange Hnew Hobs. rewrite <- Hfits in Hrange.
      rewrite (insert_file_new d f obs Hrange Hnew Hobs). cbn [fst snd db fresh files].
      repeat split.
      unfold File_query_get. cbn [files].
      rewrite find_snoc_miss by exact Hnew.
      subst f. cbn [File.name]. rewrite String.eqb_refl. reflexivity.
    + intros Hrange. rewrite <- Hfits in Hrange.
      rewrite (insert_misfit d _ Hrange). reflexivity.
    + intros Hrange Htaken. rewrite <- Hfits in Hrange.
      destruct (File_query_get d name) as [g |] eqn:Hg; [| contradiction].
      rewrite (insert_file_taken d f g Hrange Hg). reflexivity.
    + intros Hrange Hnew Hobs. rewrite <- Hfits in Hrange.
      rewrite (insert_file_no_observation d f Hrange Hnew Hobs). reflexivity.
Qed.

Lemma register_validates_and_persists_witness :
  fst (run (register Scenario.env_utc "foo.uv" "uv" 99 "site1" 1024 Scenario.md5_upper None)
         (fresh Scenario.db_obs))
  = OK {| File.name := "foo.uv"; File.type := "uv";
          File.create_time := {| wall_seconds := 1478217600; microsecond := 0 |};
          File.obsid := 99; File.size := 1024; File.md5 := Scenario.md5_lower;
          File.source := "site1" |}
  /\ is_ValueError
       (fst (run (register Scenario.env_utc "2459000/foo.uv" "uv" 99 "site1" 1024
                    Scenario.md5_upper None) (fresh Scenario.db_obs))) = true
  /\ is_ValueError
       (fst (run (register Scenario.env_utc "foo.uv" "uv" 99 "site1" 1024
                    "d41d8cd98f00b204e9800998ecf8427g" None) (fresh Scenario.db_obs))) = true
  /\ is_ValueError
       (fst (run (register Scenario.env_utc "foo.uv" "uv" 99 "site1" (-1)
                    Scenario.md5_upper None) (fresh Scenario.db_obs))) = true
  /\ run (register Scenario.env_utc "foo.uv" "uv" 99 "site1" 9223372036854775808
            Scenario.md5_upper None) (fresh Scenario.db_obs)
     = (Raise (DataError "file"), fresh Scenario.db_obs).
Proof.
  assert (0 <= 1024) as H1024 by lia.
  assert (0 <= 9223372036854775808) as Hbig by lia.
  split; [| split; [| split; [| split]]].
  - pose proof (register_validates_and_persists Scenario.env_utc "foo.uv" "uv" 99 "site1"
                  1024 Scenario.md5_upper None Scenario.db_obs) as [_ Hok].
    destruct (Hok Scenario.md5_lower eq_refl eq_refl H1024) as (_ & Hpersist & _).
    destruct (Hpersist Scenario.obs99 eq_refl eq_refl eq_refl) as (Hr & _).
    exact Hr.
  - pose proof (register_validates_and_persists Scenario.env_utc "2459000/foo.uv" "uv" 99
                  "site1" 1024 Scenario.md5_upper None Scenario.db_obs) as [Hbad _].
    apply Hbad. left; reflexivity.
  - pose proof (register_validates_and_persists Scenario.env_utc "foo.uv" "uv" 99
                  "site1" 1024 "d41d8cd98f00b204e9800998ecf8427g" None Scenario.db_obs)
      as [Hbad _].
    apply Hbad. right; left; reflexivity.
  - pose proof (register_validates_and_persists Scenario.env_utc "foo.uv" "uv" 99
                  "site1" (-1) Scenario.md5_upper None Scenario.db_obs) as [Hbad _].
    apply Hbad. right; right; lia.
  - pose proof (register_validates_and_persists Scenario.env_utc "foo.uv" "uv" 99 "site1"
                  9223372036854775808 Scenario.md5_upper None Scenario.db_obs) as [_ Hok].
    destruct (Hok Scenario.md5_lower eq_refl eq_refl Hbig) as (_ & _ & Hmisfit & _).
    apply (Hmisfit eq_refl).
Defined.

(** C3, as the specification has it, fails: an input that passes every
    check of the constructor is not always persisted. With a size of 2^63,
    which is not negative, the commit is refused with a [DataError], and
    with an [obsid] that names no cataloged Observation, with the
    [IntegrityError] of the foreign key; nothing is written in either
    case. *)
Lemma register_valid_input_not_persisted :
  is_OK (File.__init__ Scenario.env_utc "foo.uv" "uv" 99 "site1" 9223372036854775808
           Scenario.md5_upper None) = true
  /\ run (register Scenario.env_utc "foo.uv" "uv" 99 "site1" 9223372036854775808
            Scenario.md5_upper None) (fresh Scenario.db_obs)
     = (Raise (DataError "file"), fresh Scenario.db_obs)
  /\ is_OK (File.__init__ Scenario.env_utc "foo.uv" "uv" 42 "site1" 1024
              Scenario.md5_upper None) = true
  /\ run (register Scenario.env_utc "foo.uv" "uv" 42 "site1" 1024
            Scenario.md5_upper None) (fresh Scenario.db_obs)
     = (Raise (IntegrityError "file" "foreign key obsid"), fresh Scenario.db_obs).
Proof.
  vm_compute. repeat split.
Qed.

(** C4. After a [register] that succeeded, every further [register] under
    the same name fails and writes nothing: the row of the first call is
    still the one held under that name, field for field. The failure is the
    [IntegrityError] of the primary key [file.name] whenever the arguments
    of the second call pass the constructor and fit their columns, as those
    of the first call do when they are given again. *)
Theorem register_twice_conflict (env env' : Env) (name : string)
    (type type' : string) (obsid obsid' : Z) (source source' : string)
    (size size' : Z) (md5 md5' : string) (create_time create_time' : option datetime)
    (d : DB) (f : File.t) (s1 : State) :
  run (register env name type obsid source size md5 create_time) (fresh d) = (OK f, s1) ->
  let again := run (register env name type obsid source size md5 create_time)
                   (fresh (db s1)) in
  let r2 := run (register env' name type' obsid' source' size' md5' create_time')
                (fresh (db s1)) in
  fst again = Raise (IntegrityError "file" "primary key")
  /\ (is_OK (File.__init__ env' name type' obsid' source' size' md5' create_time') = true ->
      File_in_range name type' obsid' size' source' = true ->
      fst r2 = Raise (IntegrityError "file" "primary key"))
  /\ is_OK (fst r2) = false
  /\ db (snd again) = db s1
  /\ db (snd r2) = db s1
  /\ File_query_get (db s1) name = Some f.
Proof.
  intros H1 again r2. subst again r2.
  rewrite run_register in H1. rewrite !run_register.
  destruct (File.__init__ env name type obsid source size md5 create_time) as [f0 | e0]
    eqn:Hinit; [| discriminate].
  destruct (insert d (NewFile f0)) as [d1 | e1] eqn:Hins; [| discriminate].
  injection H1 as <- <-. cbn [db fresh].
  assert (File.name f0 = name) as Hname.
  { apply File_init_inv in Hinit as (m & _ & _ & _ & ->). reflexivity. }
  pose proof (proj1 (insert_inv _ _ _ Hins)) as Hfits0.
  apply insert_file_inv in Hins as (_ & _ & Hget).
  rewrite (insert_file_taken d1 f0 f0 Hfits0 Hget). cbn [fst snd db].
  rewrite Hname in Hget.
  destruct (File.__init__ env' name type' obsid' source' size' md5' create_time')
    as [f' | e'] eqn:Hinit'.
  - assert (File.name f' = name) as Hname'.
    { apply File_init_inv in Hinit' as (m & _ & _ & _ & ->). reflexivity. }
    pose proof (File_init_fits _ _ _ _ _ _ _ _ _ Hinit') as Hfits'.
    rewrite <- Hname' in Hget.
    destruct (fits_columns (NewFile f')) eqn:Hf'.
    + rewrite (insert_file_taken d1 f' f0 Hf' Hget). rewrite Hname' in Hget.
      cbn [fst snd db is_OK]. auto 10.
    + rewrite (insert_misfit d1 _ Hf'). rewrite Hname' in Hget.
      cbn [fst snd db is_OK]. repeat split; try exact Hget.
      intros _ Hrange. rewrite <- Hfits' in Hrange. discriminate.
  - cbn [fst snd db is_OK]. repeat split; try exact Hget. discriminate.
Qed.

Lemma register_twice_conflict_witness :
  fst (run (register Scenario.env_pacific "bar.uv" "npz" 99 "site2" 7
              "00000000000000000000000000000000" None) (fresh Scenario.db_bar))
  = Raise (IntegrityError "file" "primary key")
  /\ File_query_get Scenario.db_bar "bar.uv" = Some Scenario.bar.
Proof.
  pose proof (register_twice_conflict Scenario.env_utc Scenario.env_pacific "bar.uv"
                "uv" "npz" 99 99 "site1" "site2" 2048 7 Scenario.md5_upper
                "00000000000000000000000000000000" None None
                Scenario.db_obs Scenario.bar (fresh Scenario.db_bar) eq_refl)
    as (_ & Hsecond & _ & _ & _ & Hkept).
  split; [apply Hsecond; reflexivity | exact Hkept].
Defined.

(** ** [to_dict] and [from_dict] *)

Lemma to_dict_required (f : File.t) :
  required_arg (File.to_dict f) Tunicode "name" = OK (File.name f)
  /\ required_arg (File.to_dict f) Tunicode "type" = OK (File.type f)
  /\ required_arg (File.to_dict f) Tint "create_time" = OK (File.create_time_unix f)
  /\ required_arg (File.to_dict f) Tint "obsid" = OK (File.obsid f)
  /\ required_arg (File.to_dict f) Tint "size" = OK (File.size f)
  /\ required_arg (File.to_dict f) Tunicode "md5" = OK (File.md5 f).
Proof.
  unfold required_arg, File.to_dict.
  repeat split; simplify_map_eq; reflexivity.
Qed.

(** What [from_dict] makes of the projection of a File that the
    constructor has accepted: when the local wall-clock reading of the Unix
    time is a date of the years 1 to 9999, every projected field as it
    was, except that the creation time is that reading, and the source
    given; otherwise the [ValueError] of [datetime.fromtimestamp]. *)
Lemma from_dict_to_dict (env0 env : Env) (name type : string) (obsid : Z)
    (source0 source : string) (size : Z) (md5 : string) (create_time : option datetime)
    (f : File.t) :
  File.__init__ env0 name type obsid source0 size md5 create_time = OK f ->
  File.from_dict env source (File.to_dict f)
  = let w := wall_seconds (File.create_time f)
             + local_utcoffset env (wall_seconds (File.create_time f)) in
    if seconds_in_range w
    then OK {| File.name := File.name f; File.type := File.type f;
               File.create_time := {| wall_seconds := w; microsecond := 0 |};
               File.obsid := File.obsid f; File.size := File.size f;
               File.md5 := File.md5 f; File.source := source |}
    else Raise (ValueError "year is out of range").
Proof.
  intros Hinit.
  apply File_init_inv in Hinit as (m & Hmd5 & Hname & Hsize & Hf).
  destruct (md5_normal_form md5 m Hmd5) as (_ & _ & _ & Hm).
  destruct (to_dict_required f) as (H1 & H2 & H3 & H4 & H5 & H6).
  unfold File.from_dict. rewrite H1, H2, H3, H4, H5, H6. cbn [rbind].
  unfold fromtimestamp, File.create_time_unix, timegm_timetuple. cbv zeta.
  destruct (seconds_in_range _); cbn [rbind]; [| reflexivity].
  subst f. cbn [File.name File.type File.obsid File.size File.md5 File.create_time].
  rewrite (File_init_ok env name type obsid source size m m _ Hname Hm Hsize).
  reflexivity.
Qed.

(** On a host whose local time is UTC the round trip is exact. *)
Lemma from_dict_to_dict_utc (env0 env : Env) (name type : string) (obsid : Z)
    (source0 source : string) (size : Z) (md5 : string) (f : File.t) :
  (forall t, local_utcoffset env t = 0) ->
  File.__init__ env0 name type obsid source0 size md5 None = OK f ->
  File.from_dict env source (File.to_dict f)
  = OK {| File.name := File.name f; File.type := File.type f;
          File.create_time := File.create_time f;
          File.obsid := File.obsid f; File.size := File.size f;
          File.md5 := File.md5 f; File.source := source |}.
Proof.
  intros Hutc Hinit.
  rewrite (from_dict_to_dict env0 env name type obsid source0 source size md5 None f Hinit).
  cbv zeta. rewrite Hutc, Z.add_0_r.
  apply File_init_inv in Hinit as (m & _ & _ & _ & ->).
  cbn [File.create_time replace_microsecond wall_seconds].
  rewrite (utcnow_in_range env0). reflexivity.
Qed.

(** C5 fails on a host that does not keep UTC. [bar.uv], created at
    2016-11-04T00:00:00 UTC, is projected by [to_dict] to the Unix time
    1478217600; [from_dict] on a host on Pacific Standard Time rebuilds it
    with the creation time eight hours earlier, since
    [datetime.fromtimestamp] gives local time where [utcnow] and
    [calendar.timegm] work in UTC. The other projected fields come back as
    they were. *)
Theorem from_dict_to_dict_shifts_create_time :
  File.__init__ Scenario.env_utc "bar.uv" "uv" 99 "site1" 2048 Scenario.md5_upper None
  = OK Scenario.bar
  /\ File.from_dict Scenario.env_pacific "site2" (File.to_dict Scenario.bar)
     = OK {| File.name := "bar.uv"; File.type := "uv";
             File.create_time := {| wall_seconds := 1478217600 - 28800; microsecond := 0 |};
             File.obsid := 99; File.size := 2048; File.md5 := Scenario.md5_lower;
             File.source := "site2" |}
  /\ File.create_time Scenario.bar = {| wall_seconds := 1478217600; microsecond := 0 |}.
Proof.
  split; [reflexivity | split; [vm_compute; reflexivity | reflexivity]].
Qed.

(** ** The event log *)

(** Whatever the length of its payload, an event on a cataloged File whose
    name and type fit their columns is appended, under the next
    identifier. *)
Lemma append_any_size (e : FileEvent.t) (f : File.t) (d : DB) :
  fits_columns (NewFileEvent e) = true ->
  File_query_get d (FileEvent.name e) = Some f ->
  exists row,
    fst (run (append e) (fresh d)) = OK tt
    /\ file_events (db (snd (run (append e) (fresh d)))) = (file_events d ++ [row])%list
    /\ FileEvent.payload row = FileEvent.payload e
    /\ FileEvent.name row = FileEvent.name e
    /\ FileEvent.id row = Some (file_event_id_seq d + 1).
Proof.
  intros Hfits Hf. unfold append, persist. call_simpl. cbn [app flush].
  rewrite (insert_fits d _ Hfits). cbn [insert_keys].
  rewrite Hf. cbn. eexists. repeat split.
Qed.

(** C6 fails on the code. [create_file_event] is called for the cataloged
    [bar.uv] with a payload that [json.dumps] serializes to 614 bytes, above
    the 512 bytes that the docstring of [FileEvent] gives as the limit: the
    endpoint returns the empty record, and the event is in the table with
    its whole payload. No length is checked by [FileEvent.__init__] or by
    the endpoint. *)
Theorem create_file_event_ignores_cap :
  let r := run (create_file_event Scenario.env_utc Scenario.flag_args)
               (fresh Scenario.db_bar) in
  fst r = OK ∅
  /\ exists row,
       file_events (db (snd r)) = [row]
       /\ FileEvent.name row = "bar.uv"
       /\ FileEvent.type row = "flagged"
       /\ PyStr.len (FileEvent.payload row) = 614
       /\ 512 < PyStr.len (FileEvent.payload row).
Proof.
  vm_compute. split; [reflexivity |]. eexists. repeat split.
Qed.

(** ** [locate_file_instance] *)

Lemma File_instances_name (d : DB) (f : File.t) (inst : FileInstance.t) :
  List.In inst (File_instances d f) -> FileInstance.name inst = File.name f.
Proof.
  unfold File_instances. intros H.
  apply List.filter_In in H as [_ H]. apply String.eqb_eq, H.
Qed.

Lemma unknown_is_not_no_instances (file_name : string) :
  "no known file " ++ PyStr.quoted file_name
  <> "no instances of file " ++ PyStr.quoted file_name ++ " on this librarian".
Proof. simpl. discriminate. Qed.

(** C7. [locate_file_instance] raises the [ServerError] "no known file"
    when no File carries the name, raises the [ServerError] "no instances
    of file ... on this librarian", a different message, when the File has
    no instance, and for a File with exactly one instance returns the
    descriptor of that instance, whose [full_path_on_store] is
    [os.path.join] of the store's [path_prefix], the instance's
    [parent_dirs] and the file name. The state is left as it was. *)
Theorem locate_file_instance_cases (args : gmap string pyval) (file_name : string)
    (s : State) :
  required_arg args Tunicode "file_name" = OK file_name ->
  let r := run (locate_file_instance args) s in
  (File_query_get (db s) file_name = None ->
   r = (Raise (ServerError ("no known file " ++ PyStr.quoted file_name)), s))
  /\ (forall f,
         File_query_get (db s) file_name = Some f ->
         File_instances (db s) f = [] ->
         r = (Raise (ServerError ("no instances of file " ++ PyStr.quoted file_name
                                  ++ " on this librarian")), s)
         /\ "no instances of file " ++ PyStr.quoted file_name ++ " on this librarian"
            <> "no known file " ++ PyStr.quoted file_name)
  /\ (forall f inst so,
         File_query_get (db s) file_name = Some f ->
         File_instances (db s) f = [inst] ->
         Store_query_get (db s) (FileInstance.store inst) = Some so ->
         exists descr,
           r = (OK descr, s)
           /\ descr !! "full_path_on_store"
              = Some (VStr (OsPath.join (Store.path_prefix so)
                              [FileInstance.parent_dirs inst; file_name]))
           /\ descr !! "store_name" = Some (VStr (Store.name so))
           /\ descr !! "store_path"
              = Some (VStr (OsPath.join (FileInstance.parent_dirs inst) [file_name]))
           /\ descr !! "store_ssh_host" = Some (VStr (Store.ssh_host so))).
Proof.
  intros Hreq r. subst r. unfold locate_file_instance. rewrite Hreq. call_simpl.
  split; [| split].
  - intros ->. reflexivity.
  - intros f Hf Hinst. rewrite Hf. call_simpl. rewrite Hinst.
    split; [reflexivity |].
    intros H. symmetry in H. exact (unknown_is_not_no_instances file_name H).
  - intros f inst so Hf Hinst Hso.
    assert (FileInstance.name inst = file_name) as Hname.
    { rewrite (File_instances_name (db s) f inst) by (rewrite Hinst; left; reflexivity).
      apply (File_query_get_name (db s) file_name f Hf). }
    rewrite Hf. call_simpl. rewrite Hinst. call_simpl. rewrite Hso. call_simpl.
    eexists. split; [reflexivity |].
    unfold FileInstance.full_path_on_store, FileInstance.store_path. rewrite Hname.
    repeat split; simplify_map_eq; reflexivity.
Qed.

Lemma locate_file_instance_cases_witness :
  is_ServerError (fst (run (locate_file_instance (Scenario.locate_args "missing.uv"))
                         (fresh Scenario.db_bar))) = true
  /\ is_ServerError (fst (run (locate_file_instance (Scenario.locate_args "bar.uv"))
                            (fresh Scenario.db_bar))) = true
  /\ exists descr,
       fst (run (locate_file_instance (Scenario.locate_args "bar.uv"))
              (fresh Scenario.db_bar_instance)) = OK descr
       /\ descr !! "full_path_on_store" = Some (VStr "/data/2459000/bar.uv").
Proof.
  split; [| split].
  - pose proof (locate_file_instance_cases (Scenario.locate_args "missing.uv") "missing.uv"
                  (fresh Scenario.db_bar) eq_refl) as (Hunknown & _ & _).
    rewrite (Hunknown eq_refl). reflexivity.
  - pose proof (locate_file_instance_cases (Scenario.locate_args "bar.uv") "bar.uv"
                  (fresh Scenario.db_bar) eq_refl) as (_ & Hnone & _).
    destruct (Hnone Scenario.bar eq_refl eq_refl) as [Hr _].
    rewrite Hr. reflexivity.
  - pose proof (locate_file_instance_cases (Scenario.locate_args "bar.uv") "bar.uv"
                  (fresh Scenario.db_bar_instance) eq_refl) as (_ & _ & Hone).
    destruct (Hone Scenario.bar Scenario.bar_instance Scenario.storeA eq_refl eq_refl eq_refl)
      as (descr & Hr & Hpath & _).
    exists descr. split; [rewrite Hr; reflexivity | exact Hpath].
Defined.

(** ** [createInstance]: the FileInstance constructor and the commit *)

Lemma run_create_instance (store_obj : Store.t) (parent_dirs name : string) (d : DB) :
  run (create_instance store_obj parent_dirs name) (fresh d)
  = match FileInstance.__init__ store_obj parent_dirs name with
    | Raise e => (Raise e, fresh d)
    | OK inst =>
        match insert d (NewFileInstance inst) with
        | OK d' => (OK inst, fresh d')
        | Raise e => (Raise e, fresh d)
        end
    end.
Proof.
  unfold create_instance, persist.
  destruct (FileInstance.__init__ store_obj parent_dirs name) as [inst | e];
    call_simpl; [| reflexivity].
  cbn [app flush rbind].
  destruct (insert d (NewFileInstance inst)) as [d' | e]; reflexivity.
Qed.

(** C8, as the code has it. The FileInstance constructor raises a
    [ValueError] for every name that contains [/] and accepts every other
    name, whether or not a File carries it. Whether the instance is stored
    is decided by the database at the commit. An accepted name that no File
    carries is never stored, and the refusal is never a [ServerError]: it
    is a [DataError] when a value does not fit its column, and otherwise an
    [IntegrityError], that of the foreign key on the name when the store
    exists and the key (store, parent_dirs, name) is free. When the values
    fit their columns, the File and the store exist and the key is free,
    the instance is appended to the table. A refused commit writes
    nothing. *)
Theorem create_instance_checks (store_obj : Store.t) (parent_dirs name : string) (d : DB) :
  let r := run (create_instance store_obj parent_dirs name) (fresh d) in
  let inst := {| FileInstance.store := Store.id store_obj;
                 FileInstance.parent_dirs := parent_dirs;
                 FileInstance.name := name |} in
  (PyStr.char_in "/" name = true -> is_ValueError (fst r) = true /\ snd r = fresh d)
  /\ (PyStr.char_in "/" name = false ->
      FileInstance.__init__ store_obj parent_dirs name = OK inst
      /\ (FileInstance_in_range store_obj parent_dirs name = false ->
          r = (Raise (DataError "file_instance"), fresh d))
      /\ (File_query_get d name = None ->
          (is_IntegrityError (fst r) || is_DataError (fst r)) = true
          /\ is_ServerError (fst r) = false
          /\ snd r = fresh d)
      /\ (forall so,
             FileInstance_in_range store_obj parent_dirs name = true ->
             existsb (same_instance_key inst) (file_instances d) = false ->
             Store_query_get d (Store.id store_obj) = Some so ->
             File_query_get d name = None ->
             r = (Raise (IntegrityError "file_instance" "foreign key name"), fresh d))
      /\ (forall f so,
             FileInstance_in_range store_obj parent_dirs name = true ->
             File_query_get d name = Some f ->
             Store_query_get d (Store.id store_obj) = Some so ->
             existsb (same_instance_key inst) (file_instances d) = false ->
             fst r = OK inst
             /\ file_instances (db (snd r)) = (file_instances d ++ [inst])%list)).
Proof.
  intros r inst. subst r. rewrite run_create_instance.
  unfold FileInstance.__init__. fold inst.
  assert (fits_columns (NewFileInstance inst)
          = FileInstance_in_range store_obj parent_dirs name) as Hfits by reflexivity.
  split.
  - intros ->. cbn. auto.
  - intros ->. split; [reflexivity |].
    split; [| split; [| split]].
    + intros Hrange. rewrite <- Hfits in Hrange.
      rewrite (insert_misfit d _ Hrange). reflexivity.
    + intros Hnone. unfold insert.
      destruct (fits_columns (NewFileInstance inst)); [| cbn; auto].
      cbn [insert_keys FileInstance.store FileInstance.name inst].
      destruct (existsb _ _); [cbn; auto |].
      destruct (Store_query_get d (Store.id store_obj)); [| cbn; auto].
      rewrite Hnone. cbn. auto.
    + intros so Hrange Hkey Hso Hnone. rewrite <- Hfits in Hrange.
      rewrite (insert_fits d _ Hrange).
      cbn [insert_keys FileInstance.store FileInstance.name inst].
      rewrite Hkey, Hso, Hnone. reflexivity.
    + intros f so Hrange Hf Hso Hkey. rewrite <- Hfits in Hrange.
      rewrite (insert_fits d _ Hrange).
      cbn [insert_keys FileInstance.store FileInstance.name inst].
      rewrite Hkey, Hso, Hf. cbn. auto.
Qed.

Lemma create_instance_checks_witness :
  is_ValueError (fst (run (create_instance Scenario.storeA "" "2459000/bar.uv")
                        (fresh Scenario.db_bar))) = true
  /\ run (create_instance Scenario.storeA "2459000" "ghost.uv") (fresh Scenario.db_bar)
     = (Raise (IntegrityError "file_instance" "foreign key name"), fresh Scenario.db_bar)
  /\ run (create_instance Scenario.storeA Examples.long_parent_dirs "bar.uv")
         (fresh Scenario.db_bar)
     = (Raise (DataError "file_instance"), fresh Scenario.db_bar)
  /\ fst (run (create_instance Scenario.storeA "2459000" "bar.uv") (fresh Scenario.db_bar))
     = OK Scenario.bar_instance.
Proof.
  split; [| split; [| split]].
  - pose proof (create_instance_checks Scenario.storeA "" "2459000/bar.uv" Scenario.db_bar)
      as [Hbad _].
    apply (Hbad eq_refl).
  - pose proof (create_instance_checks Scenario.storeA "2459000" "ghost.uv" Scenario.db_bar)
      as [_ Hgood].
    destruct (Hgood eq_refl) as (_ & _ & _ & Hmissing & _).
    apply (Hmissing Scenario.storeA eq_refl eq_refl eq_refl eq_refl).
  - pose proof (create_instance_checks Scenario.storeA Examples.long_parent_dirs "bar.uv"
                  Scenario.db_bar) as [_ Hgood].
    destruct (Hgood eq_refl) as (_ & Hmisfit & _).
    apply (Hmisfit eq_refl).
  - pose proof (create_instance_checks Scenario.storeA "2459000" "bar.uv" Scenario.db_bar)
      as [_ Hgood].
    destruct (Hgood eq_refl) as (_ & _ & _ & _ & Hpersist).
    apply (Hpersist Scenario.bar Scenario.storeA eq_refl eq_refl eq_refl eq_refl).
Defined.

(** C8, as the specification has it, fails: [ghost.uv] names no File of the
    catalog, yet the constructor accepts it, and the failure of the commit
    is the [IntegrityError] of the foreign key, not a [ServerError]. *)
Lemma create_instance_unknown_file_no_server_error :
  File_query_get Scenario.db_bar "ghost.uv" = None
  /\ is_OK (FileInstance.__init__ Scenario.storeA "2459000" "ghost.uv") = true
  /\ fst (run (create_instance Scenario.storeA "2459000" "ghost.uv") (fresh Scenario.db_bar))
     = Raise (IntegrityError "file_instance" "foreign key name")
  /\ is_ServerError
       (fst (run (create_instance Scenario.storeA "2459000" "ghost.uv")
               (fresh Scenario.db_bar))) = false.
Proof.
  vm_compute. repeat split.
Qed.

(** ** The name check of the three constructors *)

(** C9. The constructors of File, FileInstance and FileEvent raise a
    [ValueError] for every name that contains [/], and accept every other
    name, the other fields being valid: the empty name, names with
    backslashes, names with [..]. Nothing about the name but [/] is
    looked at. *)
Theorem constructors_reject_exactly_slash (env : Env) (name : string)
    (type source : string) (obsid size : Z) (md5 m : string)
    (create_time : option datetime) (store_obj : Store.t) (parent_dirs : string)
    (payload_struct : list (string * pyval)) :
  normalize_and_validate_md5 md5 = OK m ->
  0 <= size ->
  (PyStr.char_in "/" name = true ->
   is_ValueError (File.__init__ env name type obsid source size md5 create_time) = true
   /\ is_ValueError (FileInstance.__init__ store_obj parent_dirs name) = true
   /\ is_ValueError (FileEvent.__init__ env name type payload_struct) = true)
  /\ (PyStr.char_in "/" name = false ->
      is_OK (File.__init__ env name type obsid source size md5 create_time) = true
      /\ is_OK (FileInstance.__init__ store_obj parent_dirs name) = true
      /\ is_OK (FileEvent.__init__ env name type payload_struct) = true).
Proof.
  intros Hmd5 Hsize. split; intros Hname.
  - split; [| split].
    + apply File_init_invalid. left; exact Hname.
    + unfold FileInstance.__init__. rewrite Hname. reflexivity.
    + unfold FileEvent.__init__. rewrite Hname. reflexivity.
  - split; [| split].
    + rewrite (File_init_ok env name type obsid source size md5 m create_time
                 Hname Hmd5 Hsize). reflexivity.
    + unfold FileInstance.__init__. rewrite Hname. reflexivity.
    + unfold FileEvent.__init__. rewrite Hname. reflexivity.
Qed.

Lemma constructors_reject_exactly_slash_witness :
  (is_OK (File.__init__ Scenario.env_utc "" "uv" 99 "site1" 0 Scenario.md5_upper None) = true
   /\ is_OK (FileInstance.__init__ Scenario.storeA "2459000" "") = true
   /\ is_OK (FileEvent.__init__ Scenario.env_utc "" "uv" []) = true)
  /\ (is_OK (File.__init__ Scenario.env_utc "..\..\bar.uv" "uv" 99 "site1" 0
               Scenario.md5_upper None) = true
      /\ is_OK (FileInstance.__init__ Scenario.storeA "2459000" "..\..\bar.uv") = true
      /\ is_OK (FileEvent.__init__ Scenario.env_utc "..\..\bar.uv" "uv" []) = true)
  /\ (is_ValueError (File.__init__ Scenario.env_utc "../bar.uv" "uv" 99 "site1" 0
                       Scenario.md5_upper None) = true
      /\ is_ValueError (FileInstance.__init__ Scenario.storeA "2459000" "../bar.uv") = true
      /\ is_ValueError (FileEvent.__init__ Scenario.env_utc "../bar.uv" "uv" []) = true).
Proof.
  assert (0 <= 0) as Hsize by lia.
  split; [| split].
  - exact (proj2 (constructors_reject_exactly_slash Scenario.env_utc "" "uv" "site1" 99 0
                    Scenario.md5_upper Scenario.md5_lower None Scenario.storeA "2459000" []
                    eq_refl Hsize) eq_refl).
  - exact (proj2 (constructors_reject_exactly_slash Scenario.env_utc "..\..\bar.uv" "uv"
                    "site1" 99 0 Scenario.md5_upper Scenario.md5_lower None Scenario.storeA
                    "2459000" [] eq_refl Hsize) eq_refl).
  - exact (proj1 (constructors_reject_exactly_slash Scenario.env_utc "../bar.uv" "uv"
                    "site1" 99 0 Scenario.md5_upper Scenario.md5_lower None Scenario.storeA
                    "2459000" [] eq_refl Hsize) eq_refl).
Defined.

(** * Further properties of the code *)

(** ** [File.get_inferring_info] *)

Lemma File_init_valid (env : Env) (name type : string) (obsid : Z) (source : string)
    (size : Z) (md5 : string) (create_time : option datetime) (f : File.t) :
  File.__init__ env name type obsid source size md5 create_time = OK f ->
  File._validate f = OK tt.
Proof.
  intros H. apply File_init_inv in H as (m & Hmd5 & Hname & Hsize & ->).
  destruct (md5_normal_form md5 m Hmd5) as (_ & _ & _ & Hm).
  unfold File._validate. cbn [File.name File.md5 File.size].
  rewrite Hname, Hm. cbn [rbind].
  destruct (Z.geb_spec size 0); [reflexivity | lia].
Qed.

(** What one call of [get_inferring_info] on a fresh session comes to: it
    returns the File already there and writes nothing, or it raises and
    writes nothing, or it returns a File that the constructor built under
    the basename and the commit of its session wrote. *)
Lemma resolve_outcomes (env : Env) (store : Store.t) (store_path source_name : string)
    (info : option (gmap string pyval)) (d : DB) :
  let r := run (get_inferring_info env store store_path source_name info) (fresh d) in
  (exists prev, File_query_get d (OsPath.basename store_path) = Some prev
                /\ r = (OK prev, fresh d))
  \/ (exists e, fst r = Raise e /\ db (snd r) = d
                /\ File_query_get d (OsPath.basename store_path) = None)
  \/ (exists f pend type obsid size md5,
         File_query_get d (OsPath.basename store_path) = None
         /\ File.__init__ env (OsPath.basename store_path) type obsid source_name size md5 None
            = OK f
         /\ creates pend f
         /\ flush d pend = OK (db (snd r))
         /\ fst r = OK f).
Proof.
  intros r. subst r. unfold get_inferring_info, probe_info. cbn [run fresh db].
  destruct (File_query_get d (OsPath.basename store_path)) as [prev |] eqn:Hnew.
  { left. exists prev. auto. }
  right.
  destruct info as [info |]; call_simpl; repeat case_call;
    try (left; eexists; repeat split; reflexivity).
  all: cbn [app];
    match goal with
    | |- context [flush ?d0 ?pend] =>
        destruct (flush d0 pend) as [d1 |] eqn:Hfl; cbn [fst snd db];
        [ right; do 6 eexists; split; [reflexivity |];
          split; [eassumption |]; split; [| split; [exact Hfl | reflexivity]];
          unfold creates; eauto
        | left; eexists; repeat split; reflexivity ]
    end.
Qed.

Lemma File_init_raises_ValueError (env : Env) (name type : string) (obsid : Z)
    (source : string) (size : Z) (md5 : string) (create_time : option datetime) (e : exn) :
  File.__init__ env name type obsid source size md5 create_time = Raise e ->
  is_ValueError (Raise e : result File.t) = true.
Proof.
  intros H. rewrite <- H. apply File_init_invalid.
  destruct (PyStr.char_in "/" name) eqn:Hname; [auto |].
  destruct (normalize_and_validate_md5 md5) as [m |] eqn:Hmd5; [| auto].
  destruct (Z.lt_ge_cases size 0) as [Hlt | Hge]; [auto |].
  rewrite (File_init_ok env name type obsid source size md5 m create_time Hname Hmd5) in H
    by lia.
  discriminate.
Qed.

(** A call of [get_inferring_info] that raises leaves the database, when
    the call ends, as it was. Its session is then empty, or holds exactly
    the Observation that the call added before the File constructor raised
    its [ValueError]: that Observation, of an obsid not yet cataloged, stays
    pending, and the next commit of the session writes it, when its obsid
    fits the column, with no File. *)
Theorem resolve_failure_writes_nothing (env : Env) (store : Store.t)
    (store_path source_name : string) (info : option (gmap string pyval)) (d : DB)
    (e : exn) :
  let r := run (get_inferring_info env store store_path source_name info) (fresh d) in
  fst r = Raise e ->
  db (snd r) = d
  /\ (session (snd r) = []
      \/ exists o,
           session (snd r) = [NewObservation o]
           /\ is_ValueError (fst r) = true
           /\ Observation_query_get d (Observation.obsid o) = None
           /\ (fits_BigInteger (Observation.obsid o) = true ->
               flush (db (snd r)) (session (snd r))
               = OK {| observations := observations d ++ [o]; stores := stores d;
                       files := files d; file_instances := file_instances d;
                       file_events := file_events d;
                       file_event_id_seq := file_event_id_seq d |})).
Proof.
  intros r. subst r. unfold get_inferring_info, probe_info. cbn [run fresh db].
  destruct (File_query_get d (OsPath.basename store_path)) as [prev |] eqn:Hnew.
  { discriminate. }
  destruct info as [info |]; call_simpl; repeat case_call;
    try (intros _; split; [reflexivity | left; reflexivity]).
  all: cbn [app];
    try match goal with
    | |- context [flush ?d0 ?pend] =>
        destruct (flush d0 pend) as [d1 |] eqn:Hfl; cbn [fst snd db session];
        [discriminate | intros _; split; [reflexivity | left; reflexivity]]
    end.
  all: intros He; injection He as ->;
    (split; [reflexivity | right]);
    match goal with
    | Hinit : File.__init__ _ _ _ _ _ _ _ _ = Raise _,
      Hobs : Observation_query_get _ _ = None |- _ =>
        eexists; split; [reflexivity |];
        split; [exact (File_init_raises_ValueError _ _ _ _ _ _ _ _ _ Hinit) |];
        split; [exact Hobs |];
        intros Hfits; cbn [flush]; rewrite insert_fits by exact Hfits;
        cbn [insert_keys Observation.obsid]; rewrite Hobs; reflexivity
    end.
Qed.

Lemma resolve_failure_writes_nothing_witness :
  db (snd (run (get_inferring_info Scenario.env_utc Scenario.storeA Scenario.bar_path "site1"
                  (Some Examples.info_bar_bad_md5)) (fresh Scenario.db_empty)))
  = Scenario.db_empty
  /\ session (snd (run (get_inferring_info Scenario.env_utc Scenario.storeA Scenario.bar_path
                         "site1" (Some Examples.info_bar_bad_md5))
                      (fresh Scenario.db_empty)))
     = [NewObservation Scenario.obs99]
  /\ flush Scenario.db_empty [NewObservation Scenario.obs99]
     = OK {| observations := [Scenario.obs99]; stores := [Scenario.storeA]; files := [];
             file_instances := []; file_events := []; file_event_id_seq := 0 |}.
Proof.
  pose proof (resolve_failure_writes_nothing Scenario.env_utc Scenario.storeA
                Scenario.bar_path "site1" (Some Examples.info_bar_bad_md5) Scenario.db_empty
                (ValueError ("illegal MD5 sum " ++ PyStr.quoted "not-an-md5"
                             ++ ": must be 32 hexadecimal characters"))) as H.
  cbv zeta in H.
  destruct (H eq_refl) as [Hdb [Hempty | (o & Hpending & _ & _ & Hlater)]].
  - discriminate Hempty.
  - assert ([NewObservation Scenario.obs99] = [NewObservation o]) as Ho by exact Hpending.
    injection Ho as <-.
    split; [exact Hdb | split; [exact Hpending | apply (Hlater eq_refl)]].
Defined.

(** The File that a call returns is the row held under the basename. *)
Lemma resolve_result_cataloged (env : Env) (store : Store.t)
    (store_path source_name : string) (info : option (gmap string pyval)) (d : DB)
    (f : File.t) :
  let r := run (get_inferring_info env store store_path source_name info) (fresh d) in
  fst r = OK f ->
  File.name f = OsPath.basename store_path
  /\ File_query_get (db (snd r)) (OsPath.basename store_path) = Some f.
Proof.
  intros r Hf.
  destruct (resolve_outcomes env store store_path source_name info d)
    as [(prev & Hprev & Hr) | [(e' & Hr & _) | (f' & pend & t & o & sz & m & Hnew & Hinit & Hc & Hfl & Hr)]];
    fold r in Hr.
  - subst r. rewrite Hr in *. cbn [fst snd db fresh] in *.
    injection Hf as ->. split; [| exact Hprev].
    apply (File_query_get_name d _ f Hprev).
  - rewrite Hr in Hf. discriminate.
  - fold r in Hfl. rewrite Hr in Hf. injection Hf as ->.
    assert (File.name f = OsPath.basename store_path) as Hname.
    { apply File_init_inv in Hinit as (m' & _ & _ & _ & ->). reflexivity. }
    split; [exact Hname |].
    rewrite <- Hname in Hnew |- *.
    apply (flush_creates d (db (snd r)) pend f Hc Hfl Hnew).
Qed.

(** After a call of [get_inferring_info] that returned a File, every
    further call on the same store path, from whatever store, source and
    info, returns that same File and leaves the database as it is. *)
Theorem resolve_twice_same_file (env env' : Env) (store store' : Store.t)
    (store_path source_name source_name' : string)
    (info info' : option (gmap string pyval)) (d : DB) (f : File.t) :
  let r := run (get_inferring_info env store store_path source_name info) (fresh d) in
  fst r = OK f ->
  run (get_inferring_info env' store' store_path source_name' info') (fresh (db (snd r)))
  = (OK f, fresh (db (snd r))).
Proof.
  intros r Hf.
  destruct (resolve_result_cataloged env store store_path source_name info d f Hf)
    as [_ Hget]. fold r in Hget.
  unfold get_inferring_info. cbn [run fresh db]. rewrite Hget. reflexivity.
Qed.

Lemma resolve_twice_same_file_witness :
  run (get_inferring_info Scenario.env_pacific Scenario.storeA Scenario.bar_path "site2"
         (Some Scenario.info_other))
      (fresh (db (snd (run (get_inferring_info Scenario.env_utc Scenario.storeA
                              Scenario.bar_path "site1" None) (fresh Scenario.db_empty)))))
  = (OK Scenario.bar,
     fresh (db (snd (run (get_inferring_info Scenario.env_utc Scenario.storeA
                            Scenario.bar_path "site1" None) (fresh Scenario.db_empty))))).
Proof.
  apply (resolve_twice_same_file Scenario.env_utc Scenario.env_pacific Scenario.storeA
           Scenario.storeA Scenario.bar_path "site1" "site2" None (Some Scenario.info_other)
           Scenario.db_empty Scenario.bar).
  reflexivity.
Defined.

(** [get_inferring_info] never changes or removes a row of the File table:
    the table after the call is the table before, followed by the File the
    call returned if it created one. If every File of the table passed
    [_validate] and the names were distinct, that still holds. *)
Theorem resolve_only_appends (env : Env) (store : Store.t)
    (store_path source_name : string) (info : option (gmap string pyval)) (d : DB) :
  let r := run (get_inferring_info env store store_path source_name info) (fresh d) in
  (files (db (snd r)) = files d
   \/ exists f, fst r = OK f /\ files (db (snd r)) = (files d ++ [f])%list
                /\ File.name f = OsPath.basename store_path)
  /\ (List.Forall (fun f => File._validate f = OK tt) (files d) ->
      List.Forall (fun f => File._validate f = OK tt) (files (db (snd r))))
  /\ (file_names_unique d -> file_names_unique (db (snd r))).
Proof.
  intros r.
  destruct (resolve_outcomes env store store_path source_name info d)
    as [(prev & _ & Hr) | [(e' & _ & Hd & _) | (f & pend & t & o & sz & m & Hnew & Hinit & Hc & Hfl & Hr)]];
    fold r in Hr || fold r in Hd.
  - rewrite Hr. cbn [snd db fresh]. auto.
  - rewrite Hd. auto.
  - fold r in Hfl.
    assert (File.name f = OsPath.basename store_path) as Hname.
    { apply File_init_inv in Hinit as (m' & _ & _ & _ & ->). reflexivity. }
    rewrite <- Hname in Hnew.
    destruct (flush_creates d (db (snd r)) pend f Hc Hfl Hnew) as [Hfiles _].
    split; [| split].
    + right. exists f. auto.
    + intros Hall. rewrite Hfiles. apply List.Forall_app. split; [exact Hall |].
      constructor; [| constructor]. eapply File_init_valid; eauto.
    + intros Hu. eapply flush_unique; eauto.
Qed.

Lemma resolve_only_appends_witness :
  List.Forall (fun f => File._validate f = OK tt)
    (files (db (snd (run (get_inferring_info Scenario.env_utc Scenario.storeA
                            "/data/2459000/baz.uv" "site1" None) (fresh Scenario.db_bar)))))
  /\ file_names_unique
       (db (snd (run (get_inferring_info Scenario.env_utc Scenario.storeA
                        "/data/2459000/baz.uv" "site1" None) (fresh Scenario.db_bar)))).
Proof.
  pose proof (resolve_only_appends Scenario.env_utc Scenario.storeA "/data/2459000/baz.uv"
                "site1" None Scenario.db_bar) as (_ & Hvalid & Hunique).
  split.
  - apply Hvalid. constructor; [reflexivity | constructor].
  - apply Hunique. constructor; [intros [] | constructor].
Defined.

(** When the store cannot be probed, [get_inferring_info] raises the
    [ServerError] that names the store, the path and the cause, after one
    probe, and nothing is written. *)
Theorem resolve_probe_failure (env : Env) (store : Store.t)
    (store_path source_name cause : string) (d : DB) :
  File_query_get d (OsPath.basename store_path) = None ->
  Store.get_info_for_path store store_path = ProbeFailed cause ->
  run (get_inferring_info env store store_path source_name None) (fresh d)
  = (Raise (ServerError ("cannot register " ++ Store.name store ++ ":" ++ store_path
                         ++ ": " ++ cause)),
     {| db := d; session := []; probes := [(Store.name store, store_path)] |}).
Proof.
  intros Hnew Hprobe. unfold get_inferring_info, probe_info.
  cbn [run fresh db]. rewrite Hnew. call_simpl. rewrite Hprobe. reflexivity.
Qed.

(** The store is probed only for an unseen name, and only when the caller
    gave no info: with an info the log of probes is left as it was,
    whatever the call does; with none, and no File of that name, there is
    exactly one probe, of the path given, on the store given. *)
Theorem resolve_probes_only_without_info (env : Env) (store : Store.t)
    (store_path source_name : string) (s : State) :
  (forall info,
      probes (snd (run (get_inferring_info env store store_path source_name (Some info)) s))
      = probes s)
  /\ (File_query_get (db s) (OsPath.basename store_path) = None ->
      probes (snd (run (get_inferring_info env store store_path source_name None) s))
      = (probes s ++ [(Store.name store, store_path)])%list).
Proof.
  split.
  - intros info. unfold get_inferring_info. cbn [run].
    destruct (File_query_get (db s) (OsPath.basename store_path)); [reflexivity |].
    call_simpl. repeat case_call; try reflexivity.
    all: match goal with
         | |- context [flush ?d0 ?pend] => destruct (flush d0 pend); reflexivity
         end.
  - intros Hnew. unfold get_inferring_info, probe_info. cbn [run]. rewrite Hnew.
    call_simpl. repeat case_call; try reflexivity.
    all: match goal with
         | |- context [flush ?d0 ?pend] => destruct (flush d0 pend); reflexivity
         end.
Qed.

Lemma resolve_probe_failure_witness :
  run (get_inferring_info Scenario.env_utc Examples.store_down Scenario.bar_path "site1" None)
      (fresh Scenario.db_empty)
  = (Raise (ServerError "cannot register storeB:/data/2459000/bar.uv: Connection refused"),
     {| db := Scenario.db_empty; session := [];
        probes := [("storeB", Scenario.bar_path)] |}).
Proof.
  apply (resolve_probe_failure Scenario.env_utc Examples.store_down Scenario.bar_path
           "site1" "Connection refused" Scenario.db_empty); reflexivity.
Defined.

Lemma resolve_probes_only_without_info_witness :
  probes (snd (run (get_inferring_info Scenario.env_utc Scenario.storeA Scenario.bar_path
                      "site1" None) (fresh Scenario.db_empty)))
  = [("storeA", Scenario.bar_path)].
Proof.
  pose proof (resolve_probes_only_without_info Scenario.env_utc Scenario.storeA
                Scenario.bar_path "site1" (fresh Scenario.db_empty)) as [_ Hnone].
  apply (Hnone eq_refl).
Defined.

Lemma File_in_range_obsid (name type : string) (obsid size : Z) (source : string) :
  File_in_range name type obsid size source = true -> fits_BigInteger obsid = true.
Proof.
  unfold File_in_range. intros H.
  repeat (apply andb_prop in H as [H ?]). assumption.
Qed.

Lemma flush_observation_and_file (d : DB) (o : Observation.t) (f : File.t) :
  fits_columns (NewObservation o) = true ->
  fits_columns (NewFile f) = true ->
  Observation_query_get d (Observation.obsid o) = None ->
  File_query_get d (File.name f) = None ->
  File.obsid f = Observation.obsid o ->
  flush d [NewObservation o; NewFile f]
  = OK {| observations := observations d ++ [o]; stores := stores d;
          files := files d ++ [f]; file_instances := file_instances d;
          file_events := file_events d; file_event_id_seq := file_event_id_seq d |}.
Proof.
  intros Ho Hf Hobs Hnew Hid. cbn [flush].
  rewrite (insert_fits d _ Ho). cbn [insert_keys]. rewrite Hobs. cbn [rbind].
  rewrite (insert_fits _ _ Hf). cbn [insert_keys].
  unfold File_query_get, Observation_query_get in *. cbn [files observations].
  rewrite Hnew, Hid. rewrite find_snoc_miss by exact Hobs.
  rewrite Z.eqb_refl. reflexivity.
Qed.

(** The whole of the creating path, when the Observation is new too and
    the values fit the columns of the two tables (a name of at most 256
    characters, a type of at most 32, a source of at most 64, obsid and
    size within 64 signed bits): the Observation [(obsid, start_jd, None,
    lst)] and the File, whose fields are the basename, the type, obsid and
    size of the info, its md5 in lowercase, the source name and the clock
    cut to the second, are appended together; the other tables are
    untouched. *)
Theorem resolve_creates_observation_and_file (env : Env) (store : Store.t)
    (store_path source_name : string) (info_arg : option (gmap string pyval))
    (info : gmap string pyval) (d : DB)
    (size : Z) (md5 m type : string) (lst start_jd : pyfloat) (obsid : Z) :
  File_query_get d (OsPath.basename store_path) = None ->
  info_arg = Some info
  \/ (info_arg = None /\ Store.get_info_for_path store store_path = ProbeInfo info) ->
  required_arg info Tint "size" = OK size ->
  required_arg info Tunicode "md5" = OK md5 ->
  required_arg info Tunicode "type" = OK type ->
  required_arg info Tfloat "lst" = OK lst ->
  required_arg info Tint "obsid" = OK obsid ->
  required_arg info Tfloat "start_jd" = OK start_jd ->
  Observation_query_get d obsid = None ->
  normalize_and_validate_md5 md5 = OK m ->
  0 <= size ->
  File_in_range (OsPath.basename store_path) type obsid size source_name = true ->
  let r := run (get_inferring_info env store store_path source_name info_arg) (fresh d) in
  let inst := {| File.name := OsPath.basename store_path; File.type := type;
                 File.create_time := replace_microsecond (utcnow env) 0;
                 File.obsid := obsid; File.size := size; File.md5 := m;
                 File.source := source_name |} in
  let obs := {| Observation.obsid := obsid; Observation.start_time_jd := start_jd;
                Observation.stop_time_jd := None; Observation.start_lst_hr := lst |} in
  fst r = OK inst
  /\ db (snd r)
     = {| observations := observations d ++ [obs]; stores := stores d;
          files := files d ++ [inst]; file_instances := file_instances d;
          file_events := file_events d; file_event_id_seq := file_event_id_seq d |}.
Proof.
  intros Hnew Hinfo Hsize Hmd5 Htype Hlst Hobsid Hjd Hobs Hm Hsz Hrange r inst obs.
  pose proof (File_init_ok env (OsPath.basename store_path) type obsid source_name
                size md5 m None (basename_no_sep store_path) Hm Hsz) as Hinit.
  assert (fits_columns (NewFile inst) = true) as Hfits.
  { subst inst. rewrite (File_init_fits _ _ _ _ _ _ _ _ _ Hinit). exact Hrange. }
  assert (fits_columns (NewObservation obs) = true) as Hfits_obs.
  { exact (File_in_range_obsid _ _ _ _ _ Hrange). }
  pose proof (flush_observation_and_file d obs inst Hfits_obs Hfits Hobs Hnew eq_refl)
    as Hflush.
  subst r. unfold get_inferring_info, probe_info.
  cbn [run fresh db]. rewrite Hnew.
  destruct Hinfo as [-> | [-> Hprobe]]; call_simpl;
    [| rewrite Hprobe; call_simpl];
    rewrite Hsize, Hmd5, Htype, Hlst, Hobsid; call_simpl;
    rewrite Hobs; call_simpl;
    rewrite Hjd; call_simpl;
    rewrite Hinit; call_simpl; fold obs; fold inst; cbn [app];
    rewrite Hflush; split; reflexivity.
Qed.

Lemma resolve_creates_observation_and_file_witness :
  fst (run (get_inferring_info Scenario.env_utc Scenario.storeA Scenario.bar_path "site1" None)
         (fresh Scenario.db_empty)) = OK Scenario.bar
  /\ db (snd (run (get_inferring_info Scenario.env_utc Scenario.storeA Scenario.bar_path
                     "site1" None) (fresh Scenario.db_empty)))
     = {| observations := [Scenario.obs99]; stores := [Scenario.storeA];
          files := [Scenario.bar]; file_instances := []; file_events := [];
          file_event_id_seq := 0 |}.
Proof.
  assert (0 <= 2048) as Hsize by lia.
  exact (resolve_creates_observation_and_file Scenario.env_utc Scenario.storeA
           Scenario.bar_path "site1" None Scenario.info_bar Scenario.db_empty
           2048 Scenario.md5_upper Scenario.md5_lower "uv" (PyFloat "3.1")
           (PyFloat "2459000.5") 99
           eq_refl (or_intror (conj eq_refl eq_refl))
           eq_refl eq_refl eq_refl eq_refl eq_refl eq_refl eq_refl eq_refl Hsize eq_refl).
Defined.

Section PathFacts.
Import PyStr.

Lemma rfind_endswith (c : ascii) (p : string) :
  endswith_char c p = true -> rfind c p = Z.of_nat (String.length p) - 1.
Proof.
  induction p as [|a p IH]; [discriminate |].
  destruct p as [|b p].
  - cbn. intros ->. reflexivity.
  - intros H. change (endswith_char c (String b p) = true) in H.
    specialize (IH H).
    change (rfind c (String a (String b p)))
      with (let r := rfind c (String b p) in
            if 0 <=? r then r + 1 else if Ascii.eqb a c then 0 else -1).
    cbv zeta. rewrite IH.
    change (String.length (String a (String b p))) with (S (String.length (String b p))).
    destruct (Z.leb_spec 0 (Z.of_nat (String.length (String b p)) - 1)) as [_ | Hlt].
    + lia.
    + cbn [String.length] in Hlt. lia.
Qed.

Lemma drop_length (p : string) : drop (String.length p) p = EmptyString.
Proof. induction p as [|a p IH]; [reflexivity | exact IH]. Qed.

Lemma basename_trailing_sep (p : string) :
  endswith_char "/" p = true -> OsPath.basename p = EmptyString.
Proof.
  intros H. unfold OsPath.basename, OsPath.sep.
  rewrite (rfind_endswith "/" p H).
  replace (Z.to_nat (Z.of_nat (String.length p) - 1 + 1)) with (String.length p) by lia.
  apply drop_length.
Qed.

Lemma rfind_none (c : ascii) (s : string) : char_in c s = false -> rfind c s = -1.
Proof.
  induction s as [|a s IH]; cbn; [reflexivity |].
  destruct (Ascii.eqb a c); [discriminate |].
  intros H. rewrite (IH H). reflexivity.
Qed.

Lemma rfind_app_plain (c : ascii) (p n : string) :
  char_in c n = false -> rfind c (p ++ n) = rfind c p.
Proof.
  intros Hn. induction p as [|a p IH].
  - change (EmptyString ++ n) with n. rewrite (rfind_none c n Hn). reflexivity.
  - change (String a p ++ n) with (String a (p ++ n)).
    cbn [rfind]. rewrite IH. reflexivity.
Qed.

Lemma drop_app_length (p n : string) : drop (String.length p) (p ++ n) = n.
Proof. induction p as [|a p IH]; [reflexivity | exact IH]. Qed.

(** The basename of a directory part that ends in [/], or is empty,
    followed by a plain name, is that name. *)
Lemma basename_app_plain (p n : string) :
  char_in "/" n = false ->
  p = EmptyString \/ endswith_char "/" p = true ->
  OsPath.basename (p ++ n) = n.
Proof.
  intros Hn [-> | Hp].
  - apply basename_plain, Hn.
  - unfold OsPath.basename, OsPath.sep.
    rewrite (rfind_app_plain "/" p n Hn), (rfind_endswith "/" p Hp).
    replace (Z.to_nat (Z.of_nat (String.length p) - 1 + 1)) with (String.length p) by lia.
    apply drop_app_length.
Qed.

Lemma endswith_char_app (c : ascii) (p q : string) :
  q <> EmptyString -> endswith_char c (p ++ q) = endswith_char c q.
Proof.
  intros Hq. induction p as [|a p IH]; [reflexivity |].
  change (String a p ++ q) with (String a (p ++ q)).
  destruct (p ++ q) as [|b r] eqn:E.
  - destruct p; [contradiction | discriminate].
  - cbn [endswith_char]. exact IH.
Qed.

End PathFacts.

(** A store path that ends in [/] has the empty basename, which passes the
    name check: every File that [get_inferring_info] returns for such a
    path is the File named by the empty string, cataloged under it. *)
Theorem resolve_trailing_separator_empty_name (env : Env) (store : Store.t)
    (store_path source_name : string) (info : option (gmap string pyval)) (d : DB)
    (f : File.t) :
  PyStr.endswith_char "/" store_path = true ->
  let r := run (get_inferring_info env store store_path source_name info) (fresh d) in
  fst r = OK f ->
  File.name f = EmptyString /\ File_query_get (db (snd r)) EmptyString = Some f.
Proof.
  intros Hsep r Hf.
  destruct (resolve_result_cataloged env store store_path source_name info d f Hf)
    as [Hname Hget]. fold r in Hget.
  rewrite (basename_trailing_sep store_path Hsep) in Hname, Hget. auto.
Qed.

Lemma resolve_trailing_separator_empty_name_witness :
  exists f,
    fst (run (get_inferring_info Scenario.env_utc Scenario.storeA "/data/2459000/" "site1" None)
           (fresh Scenario.db_empty)) = OK f
    /\ File.name f = EmptyString.
Proof.
  exists {| File.name := ""; File.type := "uv";
            File.create_time := {| wall_seconds := 1478217600; microsecond := 0 |};
            File.obsid := 99; File.size := 2048; File.md5 := Scenario.md5_lower;
            File.source := "site1" |}.
  split; [reflexivity |].
  apply (resolve_trailing_separator_empty_name Scenario.env_utc Scenario.storeA
           "/data/2459000/" "site1" None Scenario.db_empty _ eq_refl eq_refl).
Defined.

(** ** [to_dict] and [from_dict], further *)

Lemma from_dict_to_dict_utc_witness :
  File.from_dict Scenario.env_utc "site2" (File.to_dict Scenario.bar)
  = OK {| File.name := "bar.uv"; File.type := "uv";
          File.create_time := {| wall_seconds := 1478217600; microsecond := 0 |};
          File.obsid := 99; File.size := 2048; File.md5 := Scenario.md5_lower;
          File.source := "site2" |}.
Proof.
  exact (from_dict_to_dict_utc Scenario.env_utc Scenario.env_utc "bar.uv" "uv" 99
           "site1" "site2" 2048 Scenario.md5_upper Scenario.bar
           (fun _ => eq_refl) eq_refl).
Defined.

(** In any time zone, [from_dict] of the [to_dict] of a File that the
    constructor accepted depends only on the local reading of the File's
    Unix creation time, the Unix time moved by the local UTC offset. When
    that reading is a date of the years 1 to 9999, [from_dict] succeeds and
    gives back the name, type, obsid, size and md5, the source passed to
    it, and that reading as the creation time; otherwise it raises the
    [ValueError] of [datetime.fromtimestamp]. *)
Theorem from_dict_to_dict_any_zone (env0 env : Env) (name type : string) (obsid : Z)
    (source0 source : string) (size : Z) (md5 : string) (create_time : option datetime)
    (f : File.t) :
  File.__init__ env0 name type obsid source0 size md5 create_time = OK f ->
  let w := File.create_time_unix f + local_utcoffset env (File.create_time_unix f) in
  (seconds_in_range w = true ->
   exists g,
     File.from_dict env source (File.to_dict f) = OK g
     /\ File.name g = File.name f /\ File.type g = File.type f
     /\ File.obsid g = File.obsid f /\ File.size g = File.size f
     /\ File.md5 g = File.md5 f /\ File.source g = source
     /\ File.create_time_unix g = w
     /\ microsecond (File.create_time g) = 0)
  /\ (seconds_in_range w = false ->
      File.from_dict env source (File.to_dict f)
      = Raise (ValueError "year is out of range")).
Proof.
  intros Hinit w.
  rewrite (from_dict_to_dict env0 env name type obsid source0 source size md5
             create_time f Hinit).
  unfold File.create_time_unix, timegm_timetuple in w. cbv zeta. fold w.
  split; intros ->; [| reflexivity].
  eexists. split; [reflexivity |]. cbn. repeat split.
Qed.

Lemma from_dict_to_dict_any_zone_witness :
  (exists g,
      File.from_dict Scenario.env_pacific "site2" (File.to_dict Scenario.bar) = OK g
      /\ File.create_time_unix g = 1478217600 - 28800)
  /\ File.from_dict Examples.env_plus2 "site2" (File.to_dict Examples.last_hour)
     = Raise (ValueError "year is out of range").
Proof.
  split.
  - destruct (from_dict_to_dict_any_zone Scenario.env_utc Scenario.env_pacific "bar.uv" "uv"
                99 "site1" "site2" 2048 Scenario.md5_upper None Scenario.bar eq_refl)
      as [Hin _].
    destruct (Hin eq_refl) as (g & Hg & _ & _ & _ & _ & _ & _ & Htime & _).
    exists g. split; [exact Hg | exact Htime].
  - destruct (from_dict_to_dict_any_zone Scenario.env_utc Examples.env_plus2 "bar.uv" "uv"
                99 "site1" "site2" 2048 Scenario.md5_upper
                (Some {| wall_seconds := 253402297200; microsecond := 0 |})
                Examples.last_hour eq_refl)
      as [_ Hout].
    apply (Hout eq_refl).
Defined.

(** [to_dict] loses the source and the sub-second part of the creation
    time, and nothing else: two Files have the same projection exactly when
    they agree on name, type, obsid, size, md5 and the whole seconds of
    their creation time. *)
Theorem to_dict_eq_iff (f g : File.t) :
  File.to_dict f = File.to_dict g
  <-> (File.name f = File.name g /\ File.type f = File.type g
       /\ File.obsid f = File.obsid g /\ File.size f = File.size g
       /\ File.md5 f = File.md5 g
       /\ wall_seconds (File.create_time f) = wall_seconds (File.create_time g)).
Proof.
  split.
  - intros H.
    destruct (to_dict_required f) as (F1 & F2 & F3 & F4 & F5 & F6).
    destruct (to_dict_required g) as (G1 & G2 & G3 & G4 & G5 & G6).
    rewrite H in F1, F2, F3, F4, F5, F6.
    rewrite G1 in F1. rewrite G2 in F2. rewrite G3 in F3.
    rewrite G4 in F4. rewrite G5 in F5. rewrite G6 in F6.
    injection F1 as F1. injection F2 as F2. injection F3 as F3.
    injection F4 as F4. injection F5 as F5. injection F6 as F6.
    unfold File.create_time_unix, timegm_timetuple in F3. auto 10.
  - intros (H1 & H2 & H3 & H4 & H5 & H6).
    unfold File.to_dict, File.create_time_unix, timegm_timetuple.
    rewrite H1, H2, H3, H4, H5, H6. reflexivity.
Qed.

Lemma to_dict_eq_iff_witness :
  File.to_dict Scenario.bar
  = File.to_dict {| File.name := "bar.uv"; File.type := "uv";
                    File.create_time := {| wall_seconds := 1478217600; microsecond := 17 |};
                    File.obsid := 99; File.size := 2048; File.md5 := Scenario.md5_lower;
                    File.source := "elsewhere" |}.
Proof.
  apply (proj2 (to_dict_eq_iff Scenario.bar _)).
  cbn. repeat split.
Defined.

Lemma required_arg_raises_ServerError (args : gmap string pyval) (t : pytype)
    (argname : string) (e : exn) :
  required_arg args t argname = Raise e -> exists msg, e = ServerError msg.
Proof.
  unfold required_arg.
  destruct (args !! argname) as [v |]; [| intros H; injection H as <-; eauto].
  destruct v; destruct t; cbn; intros H; try discriminate; injection H as <-; eauto.
Qed.

Lemma required_arg_missing (args : gmap string pyval) (t : pytype) (argname : string) :
  args !! argname = None -> is_ServerError (required_arg args t argname) = true.
Proof. intros H. unfold required_arg. rewrite H. reflexivity. Qed.

(** [from_dict] raises a [ServerError] on every record that lacks one of
    the six keys [name], [type], [create_time], [obsid], [size], [md5],
    whatever else the record holds. *)
Theorem from_dict_missing_key (env : Env) (source : string) (info : gmap string pyval)
    (key : string) :
  List.In key ["name"; "type"; "create_time"; "obsid"; "size"; "md5"] ->
  info !! key = None ->
  is_ServerError (File.from_dict env source info) = true.
Proof.
  intros Hkey Hmiss. unfold File.from_dict.
  repeat match goal with
         | |- context [rbind (required_arg info ?t ?k) _] =>
             let E := fresh "E" in
             destruct (required_arg info t k) as [? | ?] eqn:E; cbn [rbind];
             [| apply required_arg_raises_ServerError in E as [? ->]; reflexivity]
         end.
  exfalso.
  cbn in Hkey.
  repeat match goal with
         | E : required_arg info ?t ?k = OK _ |- _ =>
             assert (info !! k <> None)
               by (intros Hn; pose proof (required_arg_missing info t k Hn) as Hs;
                   rewrite E in Hs; discriminate);
             clear E
         end.
  intuition (subst; contradiction).
Qed.

Lemma from_dict_missing_key_witness :
  is_ServerError
    (File.from_dict Scenario.env_utc "site2" (delete "md5" (File.to_dict Scenario.bar))) = true.
Proof.
  apply (from_dict_missing_key Scenario.env_utc "site2"
           (delete "md5" (File.to_dict Scenario.bar)) "md5").
  - do 5 right. left. reflexivity.
  - reflexivity.
Defined.

(** ** Events *)

Lemma File_valid_name (f : File.t) :
  File._validate f = OK tt -> PyStr.char_in "/" (File.name f) = false.
Proof.
  unfold File._validate. destruct (PyStr.char_in "/" (File.name f)); [discriminate | reflexivity].
Qed.

(** For a File that satisfies [_validate], [make_generic_event] fails only
    on a keyword named [self] or [type], with a [TypeError]; otherwise the
    event carries the name of the File, the type given, the clock cut to
    the second and the JSON text of the keywords, and has no id yet. *)
Theorem make_generic_event_on_valid_file (env : Env) (self : File.t) (type : string)
    (kwargs : list (string * pyval)) :
  File._validate self = OK tt ->
  File.make_generic_event env self type kwargs
  = if clashes kwargs
    then Raise (TypeError "make_generic_event() got multiple values for keyword argument")
    else OK {| FileEvent.id := None; FileEvent.name := File.name self;
               FileEvent.time := {| wall_seconds := wall_seconds (utcnow env);
                                    microsecond := 0 |};
               FileEvent.type := type;
               FileEvent.payload := Json.dumps (VDict kwargs) |}.
Proof.
  intros Hvalid. unfold File.make_generic_event, clashes.
  destruct (existsb _ kwargs); [reflexivity |].
  unfold FileEvent.__init__. rewrite (File_valid_name self Hvalid). reflexivity.
Qed.

Lemma make_generic_event_on_valid_file_witness :
  is_OK (File.make_generic_event Scenario.env_utc Scenario.bar "flagged"
           [("reason", VStr "rfi")]) = true
  /\ File.make_generic_event Scenario.env_utc Scenario.bar "flagged" [("type", VStr "rfi")]
     = Raise (TypeError "make_generic_event() got multiple values for keyword argument").
Proof.
  split.
  - rewrite (make_generic_event_on_valid_file Scenario.env_utc Scenario.bar "flagged"
               [("reason", VStr "rfi")] eq_refl). reflexivity.
  - rewrite (make_generic_event_on_valid_file Scenario.env_utc Scenario.bar "flagged"
               [("type", VStr "rfi")] eq_refl). reflexivity.
Defined.

(** The three specialized builders never fail on a File that satisfies
    [_validate]. The event of a finished copy has the type [copy_finished];
    its payload is the JSON text of keywords that always hold the
    connection name, the remote path, the error code and the error message,
    and that hold [duration] and [average_rate] exactly when the value
    given is not [None]. *)
Theorem specialized_events_on_valid_file (env : Env) (self : File.t)
    (instance : FileInstance.t) (store : Store.t)
    (connection_name remote_store_path error_code error_message duration average_rate : pyval) :
  File._validate self = OK tt ->
  is_OK (File_make_instance_creation_event env self instance store) = true
  /\ is_OK (File_make_copy_launched_event env self connection_name remote_store_path) = true
  /\ exists event kwargs,
       File_make_copy_finished_event env self connection_name remote_store_path
         error_code error_message duration average_rate = OK event
       /\ FileEvent.name event = File.name self
       /\ FileEvent.type event = "copy_finished"
       /\ FileEvent.payload event = Json.dumps (VDict kwargs)
       /\ kwargs_get "connection_name" kwargs = Some connection_name
       /\ kwargs_get "remote_store_path" kwargs = Some remote_store_path
       /\ kwargs_get "error_code" kwargs = Some error_code
       /\ kwargs_get "error_message" kwargs = Some error_message
       /\ kwargs_get "duration" kwargs
          = (if is_not_None duration then Some duration else None)
       /\ kwargs_get "average_rate" kwargs
          = (if is_not_None average_rate then Some average_rate else None).
Proof.
  intros Hvalid.
  pose proof (File_valid_name self Hvalid) as Hname.
  unfold File_make_instance_creation_event, File_make_copy_launched_event,
    File_make_copy_finished_event, File.make_generic_event, FileEvent.__init__.
  rewrite Hname. split; [reflexivity | split; [reflexivity |]].
  destruct (is_not_None duration), (is_not_None average_rate); cbn [app];
    match goal with
    | |- context [Json.dumps (VDict ?k)] =>
        eexists; exists k; split; [reflexivity | repeat split]
    end.
Qed.

Lemma specialized_events_on_valid_file_witness :
  exists event,
    File_make_copy_finished_event Scenario.env_utc Scenario.bar (VStr "karoo")
      (VStr "/data/bar.uv") (VInt 0) (VStr "") (VFloat (PyFloat "12.5")) VNone = OK event
    /\ FileEvent.type event = "copy_finished".
Proof.
  destruct (specialized_events_on_valid_file Scenario.env_utc Scenario.bar
              Scenario.bar_instance Scenario.storeA (VStr "karoo") (VStr "/data/bar.uv")
              (VInt 0) (VStr "") (VFloat (PyFloat "12.5")) VNone eq_refl)
    as (_ & _ & event & kwargs & Hev & _ & Htype & _).
  exists event. split; [exact Hev | exact Htype].
Defined.

(** ** [create_file_event] *)

(** For a cataloged File with a plain name, a name and a type that fit the
    columns [file_event.name], of 256 characters, and [file_event.type], of
    64, and a payload with no keyword [self] or [type], [create_file_event]
    answers the empty record and has appended exactly one event: under the
    next id, with the name and type given, the clock cut to the second and
    the JSON text of the payload. No other table is touched. *)
Theorem create_file_event_appends_one (env : Env) (args : gmap string pyval) (d : DB)
    (file_name type : string) (payload : list (string * pyval)) (f : File.t) :
  required_arg args Tunicode "file_name" = OK file_name ->
  required_arg args Tunicode "type" = OK type ->
  required_arg args Tdict "payload" = OK payload ->
  File_query_get d file_name = Some f ->
  PyStr.char_in "/" file_name = false ->
  fits_String 256 file_name = true ->
  fits_String 64 type = true ->
  clashes payload = false ->
  run (create_file_event env args) (fresh d)
  = (OK ∅,
     fresh {| observations := observations d; stores := stores d; files := files d;
              file_instances := file_instances d;
              file_events :=
                file_events d
                ++ [{| FileEvent.id := Some (file_event_id_seq d + 1);
                       FileEvent.name := file_name;
                       FileEvent.time := {| wall_seconds := wall_seconds (utcnow env);
                                            microsecond := 0 |};
                       FileEvent.type := type;
                       FileEvent.payload := Json.dumps (VDict payload) |}];
              file_event_id_seq := file_event_id_seq d + 1 |}).
Proof.
  intros Hname Htype Hpayload Hfile Hplain Hfits_name Hfits_type Hclash.
  pose proof (File_query_get_name d file_name f Hfile) as Hfname.
  unfold create_file_event. rewrite Hname, Htype, Hpayload. call_simpl.
  rewrite Hfile.
  unfold File.make_generic_event. fold (clashes payload). rewrite Hclash.
  unfold FileEvent.__init__. rewrite Hfname, Hplain. call_simpl.
  cbn [app flush]. unfold insert.
  cbn [fits_columns FileEvent.name FileEvent.type].
  rewrite Hfits_name, Hfits_type.
  cbn [andb insert_keys rbind FileEvent.name].
  rewrite Hfile. reflexivity.
Qed.

Lemma create_file_event_appends_one_witness :
  fst (run (create_file_event Scenario.env_utc
              (Examples.event_args "bar.uv" [("reason", VStr "rfi")]))
         (fresh Scenario.db_bar)) = OK ∅.
Proof.
  rewrite (create_file_event_appends_one Scenario.env_utc
             (Examples.event_args "bar.uv" [("reason", VStr "rfi")])
             Scenario.db_bar "bar.uv" "flagged" [("reason", VStr "rfi")] Scenario.bar
             eq_refl eq_refl eq_refl eq_refl eq_refl eq_refl eq_refl eq_refl).
  reflexivity.
Defined.

(** A call of [create_file_event] that raises has written nothing. *)
Theorem create_file_event_failure_writes_nothing (env : Env) (args : gmap string pyval)
    (d : DB) (e : exn) :
  fst (run (create_file_event env args) (fresh d)) = Raise e ->
  db (snd (run (create_file_event env args) (fresh d))) = d.
Proof.
  unfold create_file_event.
  repeat case_call; try reflexivity.
  destruct (File_query_get d _) as [file |]; [| reflexivity].
  repeat case_call; try reflexivity.
  cbn [app]. destruct (flush d _); cbn [fst snd db]; [discriminate | reflexivity].
Qed.

Lemma create_file_event_failure_writes_nothing_witness :
  db (snd (run (create_file_event Scenario.env_utc (Scenario.locate_args "bar.uv"))
             (fresh Scenario.db_bar))) = Scenario.db_bar.
Proof.
  apply (create_file_event_failure_writes_nothing Scenario.env_utc
           (Scenario.locate_args "bar.uv") Scenario.db_bar
           (ServerError ("required parameter " ++ PyStr.quoted "type" ++ " not provided"))).
  reflexivity.
Defined.

(** [create_file_event] raises the [ServerError] "no known file" for a name
    that no File carries, and a [TypeError] for a cataloged File when the
    payload has a key [self] or [type], which clashes with a parameter of
    [make_generic_event] in the call [make_generic_event (type, **payload)]. *)
Theorem create_file_event_rejections (env : Env) (args : gmap string pyval) (d : DB)
    (file_name type : string) (payload : list (string * pyval)) :
  required_arg args Tunicode "file_name" = OK file_name ->
  required_arg args Tunicode "type" = OK type ->
  required_arg args Tdict "payload" = OK payload ->
  (File_query_get d file_name = None ->
   run (create_file_event env args) (fresh d)
   = (Raise (ServerError ("no known file " ++ PyStr.quoted file_name)), fresh d))
  /\ (forall f,
         File_query_get d file_name = Some f ->
         clashes payload = true ->
         run (create_file_event env args) (fresh d)
         = (Raise (TypeError "make_generic_event() got multiple values for keyword argument"),
            fresh d)).
Proof.
  intros Hname Htype Hpayload.
  unfold create_file_event. rewrite Hname, Htype, Hpayload. call_simpl.
  split.
  - intros ->. reflexivity.
  - intros f -> Hclash. unfold File.make_generic_event. fold (clashes payload).
    rewrite Hclash. reflexivity.
Qed.

Lemma create_file_event_rejections_witness :
  is_ServerError
    (fst (run (create_file_event Scenario.env_utc
                 (Examples.event_args "missing.uv" [("type", VStr "rfi")]))
            (fresh Scenario.db_bar))) = true
  /\ fst (run (create_file_event Scenario.env_utc
                 (Examples.event_args "bar.uv" [("type", VStr "rfi")]))
            (fresh Scenario.db_bar))
     = Raise (TypeError "make_generic_event() got multiple values for keyword argument").
Proof.
  split.
  - pose proof (create_file_event_rejections Scenario.env_utc
                  (Examples.event_args "missing.uv" [("type", VStr "rfi")])
                  Scenario.db_bar "missing.uv" "flagged" [("type", VStr "rfi")]
                  eq_refl eq_refl eq_refl) as [Hunknown _].
    rewrite (Hunknown eq_refl). reflexivity.
  - pose proof (create_file_event_rejections Scenario.env_utc
                  (Examples.event_args "bar.uv" [("type", VStr "rfi")])
                  Scenario.db_bar "bar.uv" "flagged" [("type", VStr "rfi")]
                  eq_refl eq_refl eq_refl) as [_ Hclash].
    rewrite (Hclash Scenario.bar eq_refl eq_refl). reflexivity.
Defined.

(** ** Instances and their paths *)

Section JoinFacts.
Import PyStr.

Lemma str_app_assoc (a b c : string) : (a ++ b) ++ c = a ++ (b ++ c).
Proof.
  induction a as [|x a IH]; [reflexivity |].
  change ((String x a ++ b) ++ c) with (String x ((a ++ b) ++ c)).
  rewrite IH. reflexivity.
Qed.

Lemma str_app_nil_r (a : string) : a ++ EmptyString = a.
Proof.
  induction a as [|x a IH]; [reflexivity |].
  change (String x a ++ EmptyString) with (String x (a ++ EmptyString)).
  rewrite IH. reflexivity.
Qed.

Lemma plain_not_absolute (n : string) :
  char_in "/" n = false -> startswith_char "/" n = false.
Proof.
  destruct n as [|a n]; [reflexivity |]. cbn.
  destruct (Ascii.eqb a "/"); [discriminate | reflexivity].
Qed.

Lemma endswith_sep_snoc (p : string) : endswith_char "/" (p ++ "/") = true.
Proof. rewrite endswith_char_app by discriminate. reflexivity. Qed.

(** The basename of a path joined with a plain name is that name. *)
Lemma basename_join_step (p n : string) :
  char_in "/" n = false -> OsPath.basename (OsPath.join_step p n) = n.
Proof.
  intros Hn. unfold OsPath.join_step, OsPath.sep.
  rewrite (plain_not_absolute n Hn).
  destruct (String.eqb p EmptyString) eqn:Hp; cbn [orb].
  - apply String.eqb_eq in Hp as ->. apply basename_app_plain; auto.
  - destruct (endswith_char "/" p) eqn:He.
    + apply basename_app_plain; auto.
    + rewrite <- str_app_assoc. apply basename_app_plain; [exact Hn |].
      right. apply endswith_sep_snoc.
Qed.

Lemma startswith_char_app (c : ascii) (b x : string) :
  b <> EmptyString -> startswith_char c (b ++ x) = startswith_char c b.
Proof. destruct b; [contradiction | reflexivity]. Qed.

Lemma eqb_empty_app (b x : string) :
  b <> EmptyString -> String.eqb (b ++ x) EmptyString = false.
Proof. destruct b; [contradiction | reflexivity]. Qed.

Lemma join_step_nonempty (a b : string) :
  b <> EmptyString -> startswith_char "/" b = false ->
  exists pre, OsPath.join_step a b = pre ++ b
              /\ forall x, OsPath.join_step a (b ++ x) = pre ++ (b ++ x).
Proof.
  intros Hb Hs. unfold OsPath.join_step, OsPath.sep.
  rewrite Hs. 
  destruct (String.eqb a EmptyString || endswith_char "/" a)%bool.
  - exists a. split; [reflexivity |]. intros x.
    rewrite (startswith_char_app "/" b x Hb), Hs. reflexivity.
  - exists (a ++ "/"). split; [apply eq_sym, str_app_assoc |]. intros x.
    rewrite (startswith_char_app "/" b x Hb), Hs. apply eq_sym, str_app_assoc.
Qed.

Lemma join_step_abs (a c : string) :
  startswith_char "/" c = true -> OsPath.join_step a c = c.
Proof. intros H. unfold OsPath.join_step, OsPath.sep. rewrite H. reflexivity. Qed.

Lemma join_step_rel (a c : string) :
  startswith_char "/" c = false ->
  OsPath.join_step a c
  = if (String.eqb a EmptyString || endswith_char "/" a)%bool then a ++ c else a ++ "/" ++ c.
Proof. intros H. unfold OsPath.join_step, OsPath.sep. rewrite H. reflexivity. Qed.

Lemma eqb_app_nonempty_r (pre b : string) :
  b <> EmptyString -> String.eqb (pre ++ b) EmptyString = false.
Proof.
  intros Hb. destruct pre; [| reflexivity].
  change (EmptyString ++ b) with b. destruct b; [contradiction | reflexivity].
Qed.

(** [os.path.join (a, b, c)] is [os.path.join (a, os.path.join (b, c))]. *)
Lemma join_step_assoc (a b c : string) :
  OsPath.join_step (OsPath.join_step a b) c = OsPath.join_step a (OsPath.join_step b c).
Proof.
  destruct (startswith_char "/" c) eqn:Hc.
  { rewrite !(join_step_abs _ c Hc). reflexivity. }
  destruct (String.eqb b EmptyString) eqn:Hb.
  { apply String.eqb_eq in Hb as ->.
    rewrite (join_step_rel EmptyString c Hc). cbn [String.eqb orb].
    change (EmptyString ++ c) with c.
    rewrite (join_step_rel a EmptyString eq_refl), (join_step_rel a c Hc).
    destruct (String.eqb a EmptyString || endswith_char "/" a)%bool eqn:Ha.
    - rewrite str_app_nil_r. rewrite (join_step_rel a c Hc), Ha. reflexivity.
    - change ("/" ++ EmptyString) with "/".
      rewrite (join_step_rel (a ++ "/") c Hc).
      rewrite (eqb_app_nonempty_r a "/") by discriminate.
      rewrite endswith_sep_snoc. cbn [orb]. apply str_app_assoc. }
  assert (b <> EmptyString) as Hne.
  { intros ->. discriminate. }
  rewrite (join_step_rel b c Hc), Hb. cbn [orb].
  destruct (startswith_char "/" b) eqn:Hs.
  { rewrite (join_step_abs a b Hs), (join_step_rel b c Hc), Hb. cbn [orb].
    destruct (endswith_char "/" b); symmetry; apply join_step_abs;
      rewrite startswith_char_app by exact Hne; exact Hs. }
  destruct (join_step_nonempty a b Hne Hs) as (pre & Hpre & Hpre').
  rewrite Hpre, (join_step_rel (pre ++ b) c Hc).
  rewrite (eqb_app_nonempty_r pre b Hne), (endswith_char_app "/" pre b Hne). cbn [orb].
  destruct (endswith_char "/" b); rewrite Hpre'; apply str_app_assoc.
Qed.

End JoinFacts.

Lemma FileInstance_init_inv (store_obj : Store.t) (parent_dirs name : string)
    (inst : FileInstance.t) :
  FileInstance.__init__ store_obj parent_dirs name = OK inst ->
  PyStr.char_in "/" name = false
  /\ inst = {| FileInstance.store := Store.id store_obj;
               FileInstance.parent_dirs := parent_dirs;
               FileInstance.name := name |}.
Proof.
  unfold FileInstance.__init__.
  destruct (PyStr.char_in "/" name); [discriminate |].
  intros H. injection H as <-. auto.
Qed.

(** The full path of an instance on its store is the store's path prefix
    joined with the store path of the instance, for every prefix, directory
    part and name: absolute, empty or with trailing separators. *)
Theorem full_path_is_prefix_joined_with_store_path (store_object : Store.t)
    (inst : FileInstance.t) :
  FileInstance.full_path_on_store store_object inst
  = OsPath.join (Store.path_prefix store_object) [FileInstance.store_path inst].
Proof.
  unfold FileInstance.full_path_on_store, FileInstance.store_path, OsPath.join.
  cbn [fold_left]. apply join_step_assoc.
Qed.

(** The store path and the full path of an instance that the constructor
    accepted both have the name of the instance as their basename, whatever
    the directory part and the prefix of the store. *)
Theorem instance_paths_end_in_name (store_obj : Store.t) (parent_dirs name : string)
    (inst : FileInstance.t) :
  FileInstance.__init__ store_obj parent_dirs name = OK inst ->
  OsPath.basename (FileInstance.store_path inst) = name
  /\ forall store_object,
       OsPath.basename (FileInstance.full_path_on_store store_object inst) = name.
Proof.
  intros H. apply FileInstance_init_inv in H as [Hname ->].
  unfold FileInstance.full_path_on_store, FileInstance.store_path, OsPath.join.
  cbn [fold_left FileInstance.parent_dirs FileInstance.name].
  split; [| intros store_object]; apply basename_join_step, Hname.
Qed.

Lemma instance_paths_end_in_name_witness :
  OsPath.basename (FileInstance.store_path Scenario.bar_instance) = "bar.uv"
  /\ OsPath.basename (FileInstance.full_path_on_store Examples.store_down Scenario.bar_instance)
     = "bar.uv".
Proof.
  destruct (instance_paths_end_in_name Scenario.storeA "2459000" "bar.uv"
              Scenario.bar_instance eq_refl) as [Hstore Hfull].
  split; [exact Hstore | exact (Hfull Examples.store_down)].
Defined.

(** Resolving the store path of an instance finds the File of the
    instance: when the File named by an instance is cataloged,
    [get_inferring_info] on the instance's store path returns it, with no
    probe and nothing written. *)
Theorem resolve_instance_store_path (env : Env) (store store_obj : Store.t)
    (parent_dirs name source_name : string) (info : option (gmap string pyval))
    (inst : FileInstance.t) (f : File.t) (s : State) :
  FileInstance.__init__ store_obj parent_dirs name = OK inst ->
  File_query_get (db s) name = Some f ->
  run (get_inferring_info env store (FileInstance.store_path inst) source_name info) s
  = (OK f, s).
Proof.
  intros Hinst Hf.
  assert (OsPath.basename (FileInstance.store_path inst) = name) as Hbase.
  { apply FileInstance_init_inv in Hinst as [Hname ->].
    unfold FileInstance.store_path, OsPath.join.
    cbn [fold_left FileInstance.parent_dirs FileInstance.name].
    apply basename_join_step, Hname. }
  unfold get_inferring_info. cbn [run]. rewrite Hbase, Hf. reflexivity.
Qed.

Lemma resolve_instance_store_path_witness :
  run (get_inferring_info Scenario.env_utc Scenario.storeA
         (FileInstance.store_path Scenario.bar_instance) "site1" None)
      (fresh Scenario.db_bar_instance)
  = (OK Scenario.bar, fresh Scenario.db_bar_instance).
Proof.
  exact (resolve_instance_store_path Scenario.env_utc Scenario.storeA Scenario.storeA
           "2459000" "bar.uv" "site1" None Scenario.bar_instance Scenario.bar
           (fresh Scenario.db_bar_instance) eq_refl eq_refl).
Defined.

(** ** [locate_file_instance], further *)

(** [locate_file_instance] only reads: whatever its arguments and its
    outcome, the database, the session and the probe log are as before. *)
Theorem locate_file_instance_reads_only (args : gmap string pyval) (s : State) :
  snd (run (locate_file_instance args) s) = s.
Proof.
  unfold locate_file_instance.
  destruct (required_arg args Tunicode "file_name") as [file_name | e]; call_simpl;
    [| reflexivity].
  destruct (File_query_get (db s) file_name) as [file |]; call_simpl; [| reflexivity].
  destruct (File_instances (db s) file) as [| inst rest]; call_simpl; [reflexivity |].
  destruct (Store_query_get (db s) (FileInstance.store inst)); reflexivity.
Qed.

Lemma no_instance_no_key (d : DB) (f : File.t) (inst : FileInstance.t) :
  File_instances d f = [] ->
  FileInstance.name inst = File.name f ->
  existsb (same_instance_key inst) (file_instances d) = false.
Proof.
  unfold File_instances. intros Hnone Hname.
  induction (file_instances d) as [|j l IH]; [reflexivity |].
  cbn [List.filter] in Hnone. cbn [existsb].
  destruct (String.eqb (FileInstance.name j) (File.name f)) eqn:E; [discriminate |].
  rewrite (IH Hnone), orb_false_r.
  unfold same_instance_key.
  rewrite Hname, (String.eqb_sym (File.name f) (FileInstance.name j)), E.
  apply andb_false_r.
Qed.

(** Creating the first instance of a cataloged File on a known store,
    with values that fit the columns of [file_instance] (a directory part
    of at most 128 characters, a name of at most 256, a store id within 64
    signed bits), and then locating the File gives the path of that
    instance: the store's prefix joined with the directory part and the
    name, on that store. *)
Theorem locate_after_create_instance (store_obj so : Store.t) (parent_dirs name : string)
    (d : DB) (f : File.t) (args : gmap string pyval) :
  required_arg args Tunicode "file_name" = OK name ->
  PyStr.char_in "/" name = false ->
  File_query_get d name = Some f ->
  File_instances d f = [] ->
  Store_query_get d (Store.id store_obj) = Some so ->
  FileInstance_in_range store_obj parent_dirs name = true ->
  let r := run (create_instance store_obj parent_dirs name) (fresh d) in
  exists inst descr,
    fst r = OK inst
    /\ fst (run (locate_file_instance args) (fresh (db (snd r)))) = OK descr
    /\ descr !! "full_path_on_store"
       = Some (VStr (OsPath.join (Store.path_prefix so) [parent_dirs; name]))
    /\ descr !! "store_name" = Some (VStr (Store.name so))
    /\ descr !! "store_ssh_host" = Some (VStr (Store.ssh_host so)).
Proof.
  intros Hreq Hplain Hf Hnone Hso Hrange r.
  pose proof (File_query_get_name d name f Hf) as Hfname.
  set (inst := {| FileInstance.store := Store.id store_obj;
                  FileInstance.parent_dirs := parent_dirs;
                  FileInstance.name := name |}).
  assert (existsb (same_instance_key inst) (file_instances d) = false) as Hkey.
  { apply (no_instance_no_key d f inst Hnone). rewrite Hfname. reflexivity. }
  subst r. rewrite run_create_instance.
  unfold FileInstance.__init__. rewrite Hplain. fold inst.
  rewrite (insert_fits d (NewFileInstance inst) Hrange).
  cbn [insert_keys FileInstance.store FileInstance.name inst].
  rewrite Hkey, Hso, Hf. cbn [fst snd db fresh].
  exists inst. eexists. split; [reflexivity |].
  unfold locate_file_instance. rewrite Hreq. call_simpl.
  unfold File_query_get at 1. cbn [files]. fold (File_query_get d name). rewrite Hf.
  call_simpl.
  unfold File_instances at 1. cbn [file_instances].
  rewrite List.filter_app. fold (File_instances d f). rewrite Hnone.
  cbn [app List.filter FileInstance.name inst]. rewrite Hfname, String.eqb_refl.
  call_simpl.
  unfold Store_query_get at 1. cbn [stores FileInstance.store inst].
  fold (Store_query_get d (Store.id store_obj)). rewrite Hso. call_simpl.
  split; [reflexivity |].
  unfold FileInstance.full_path_on_store, FileInstance.store_path.
  cbn [FileInstance.parent_dirs FileInstance.name inst].
  repeat split; simplify_map_eq; reflexivity.
Qed.

Lemma locate_after_create_instance_witness :
  exists inst descr,
    fst (run (create_instance Scenario.storeA "2459000" "bar.uv") (fresh Scenario.db_bar))
    = OK inst
    /\ fst (run (locate_file_instance (Scenario.locate_args "bar.uv"))
              (fresh (db (snd (run (create_instance Scenario.storeA "2459000" "bar.uv")
                                 (fresh Scenario.db_bar)))))) = OK descr
    /\ descr !! "full_path_on_store" = Some (VStr "/data/2459000/bar.uv").
Proof.
  destruct (locate_after_create_instance Scenario.storeA Scenario.storeA "2459000" "bar.uv"
              Scenario.db_bar Scenario.bar (Scenario.locate_args "bar.uv")
              eq_refl eq_refl eq_refl eq_refl eq_refl eq_refl)
    as (inst & descr & Hcreate & Hlocate & Hpath & _).
  exists inst, descr. split; [exact Hcreate | split; [exact Hlocate | exact Hpath]].
Defined.

(** ** The page of one File *)

Lemma datetime_ltb_spec (a b : datetime) :
  datetime_ltb a b = true
  <-> (wall_seconds a < wall_seconds b
       \/ (wall_seconds a = wall_seconds b /\ microsecond a < microsecond b)).
Proof.
  unfold datetime_ltb.
  rewrite orb_true_iff, andb_true_iff, !Z.ltb_lt, Z.eqb_eq. reflexivity.
Qed.

Lemma datetime_ltb_false (a b : datetime) :
  datetime_ltb a b = false
  <-> (wall_seconds b < wall_seconds a
       \/ (wall_seconds a = wall_seconds b /\ microsecond b <= microsecond a)).
Proof.
  rewrite <- not_true_iff_false, datetime_ltb_spec. lia.
Qed.

Lemma not_older_trans (a b c : FileEvent.t) :
  not_older a b -> not_older b c -> not_older a c.
Proof. unfold not_older. rewrite !datetime_ltb_false. lia. Qed.

Lemma insert_by_time_perm (e : FileEvent.t) (l : list FileEvent.t) :
  Permutation (insert_by_time e l) (e :: l).
Proof.
  induction l as [|y l IH]; cbn [insert_by_time]; [apply Permutation_refl |].
  destruct (datetime_ltb (FileEvent.time e) (FileEvent.time y)).
  - eapply perm_trans; [apply perm_skip, IH | apply perm_swap].
  - apply Permutation_refl.
Qed.

Lemma insert_by_time_sorted (e : FileEvent.t) (l : list FileEvent.t) :
  Sorted not_older l -> Sorted not_older (insert_by_time e l).
Proof.
  induction l as [|y l IH]; cbn [insert_by_time]; intros Hs.
  - constructor; constructor.
  - destruct (datetime_ltb (FileEvent.time e) (FileEvent.time y)) eqn:E.
    + inversion Hs as [| ? ? Hl Hhd]; subst.
      constructor; [apply IH, Hl |].
      destruct l as [|z l]; cbn [insert_by_time].
      * constructor. unfold not_older. apply datetime_ltb_false.
        apply datetime_ltb_spec in E. lia.
      * destruct (datetime_ltb (FileEvent.time e) (FileEvent.time z)).
        -- inversion Hhd; subst. constructor. assumption.
        -- constructor. unfold not_older. apply datetime_ltb_false.
           apply datetime_ltb_spec in E. lia.
    + constructor; [exact Hs | constructor; exact E].
Qed.

Lemma sorted_by_time_reverse_spec (events : list FileEvent.t) :
  Permutation (sorted_by_time_reverse events) events
  /\ StronglySorted not_older (sorted_by_time_reverse events).
Proof.
  split.
  - induction events as [|e l IH]; cbn; [constructor |].
    eapply perm_trans; [apply insert_by_time_perm | apply perm_skip, IH].
  - apply Sorted_StronglySorted.
    + intros a b c. apply not_older_trans.
    + induction events as [|e l IH]; cbn; [constructor |].
      apply insert_by_time_sorted, IH.
Qed.

(** The page of a File: for a name that no File carries, the visitor is
    sent back to the index with a message; otherwise the template gets the
    File, the instances that carry its name, and all the events of the
    File, each once, ordered so that no event comes before a later one. *)
Theorem specific_file_page (d : DB) (name : string) :
  (File_query_get d name = None ->
   specific_file d name
   = Redirect ("No such file " ++ PyStr.quoted name ++ " known") "index")
  /\ (forall f,
         File_query_get d name = Some f ->
         exists events,
           specific_file d name
           = RenderTemplate "file-individual.html" (File.type f ++ " File " ++ name) f
               (File_instances d f) events
           /\ Permutation events (File_events d f)
           /\ StronglySorted not_older events).
Proof.
  unfold specific_file. split.
  - intros ->. reflexivity.
  - intros f Hf. rewrite Hf.
    pose proof (File_query_get_name d name f Hf) as Hname.
    exists (sorted_by_time_reverse (File_events d f)).
    split; [| apply sorted_by_time_reverse_spec].
    unfold File_instances. rewrite Hname. reflexivity.
Qed.

Lemma specific_file_page_witness :
  exists events,
    specific_file Examples.db_bar_events "bar.uv"
    = RenderTemplate "file-individual.html" "uv File bar.uv" Scenario.bar
        [Scenario.bar_instance] events
    /\ List.map FileEvent.id events = [Some 2; Some 1; Some 3].
Proof.
  destruct (specific_file_page Examples.db_bar_events "bar.uv") as [_ Hpage].
  destruct (Hpage Scenario.bar eq_refl) as (events & Hrender & _).
  exists events. split; [exact Hrender |].
  injection Hrender as <-. reflexivity.
Defined.

(** ** Schedules of two callers *)

(** Whatever two calls of [file.py] do and however their operations
    interleave, no name comes to be carried by two rows of the File table. *)
Theorem schedules_keep_names_unique {A} (p1 p2 : prog A) (d : DB) (sched : list tid)
    (name : string) :
  file_names_unique d ->
  (count_files (shared_db (run_schedule sched (start d p1 p2))) name <= 1)%nat.
Proof.
  intros Hu. apply unique_count_le_1.
  apply (run_schedule_unique sched (start d p1 p2)). exact Hu.
Qed.

Lemma schedules_keep_names_unique_witness :
  (count_files
     (shared_db (run_schedule Scenario.taking_turns
                   (start Scenario.db_bar
                      (get_inferring_info Scenario.env_utc Scenario.storeA
                         "/data/2459000/baz.uv" "site1" None)
                      (get_inferring_info Scenario.env_pacific Scenario.storeA
                         "/data/2459000/baz.uv" "site2" (Some Scenario.info_other)))))
     "baz.uv" <= 1)%nat.
Proof.
  apply schedules_keep_names_unique.
  constructor; [intros [] | constructor].
Defined.

(** ** [init_database] *)

Lemma find_app_hit {A} (p : A -> bool) (l l' : list A) (y : A) :
  List.find p l = Some y -> List.find p (l ++ l') = Some y.
Proof.
  induction l as [|a l IH]; cbn; [discriminate |].
  destruct (p a); [auto | exact IH].
Qed.

Lemma find_app_none {A} (p : A -> bool) (l l' : list A) :
  List.find p (l ++ l') = None -> List.find p l = None.
Proof.
  induction l as [|a l IH]; cbn; [reflexivity |].
  destruct (p a); [discriminate | exact IH].
Qed.

Lemma init_store_spec (t t' : StoreTable) (name : string) (cfg : pyval) :
  init_store t name cfg = inr t' ->
  (Store_first_by_name t name <> None /\ t' = t)
  \/ (Store_first_by_name t name = None
      /\ exists row, StoreRow.name row = name
                     /\ store_rows t' = (store_rows t ++ [row])%list).
Proof.
  unfold init_store.
  destruct (Store_first_by_name t name) eqn:Hprev.
  - intros H; injection H as <-. left. split; [discriminate | reflexivity].
  - destruct (cfg_getitem name cfg "path_prefix"); [discriminate |].
    destruct (cfg_getitem name cfg "ssh_host"); [discriminate |].
    intros H; injection H as <-. right. split; [reflexivity |].
    eexists. split; [| reflexivity]. reflexivity.
Qed.

Lemma init_stores_spec (items : list (string * pyval)) (t t' : StoreTable) :
  init_stores t items = inr t' ->
  exists added,
    store_rows t' = (store_rows t ++ added)%list
    /\ List.Forall (fun r => Store_first_by_name t (StoreRow.name r) = None
                             /\ List.In (StoreRow.name r) (List.map fst items)) added
    /\ forall n, List.In n (List.map fst items) -> Store_first_by_name t' n <> None.
Proof.
  revert t. induction items as [|[name cfg] rest IH]; intros t; cbn [init_stores].
  - intros H; injection H as <-. exists []. rewrite List.app_nil_r.
    split; [reflexivity | split; [constructor | intros n []]].
  - destruct (init_store t name cfg) as [e | t1] eqn:Hstep; [discriminate |].
    intros Hrest. destruct (IH t1 Hrest) as (added & Hrows & Hadded & Hcover).
    assert (forall n, Store_first_by_name t1 n <> None -> Store_first_by_name t' n <> None)
      as Hmono.
    { intros n Hn. unfold Store_first_by_name in *. rewrite Hrows.
      destruct (List.find _ (store_rows t1)) as [y |] eqn:E; [| contradiction].
      rewrite (find_app_hit _ _ added y E). discriminate. }
    apply init_store_spec in Hstep as [[Hknown ->] | (Hnew & row & Hname & Hrows1)].
    + exists added. split; [exact Hrows | split].
      * eapply List.Forall_impl; [| exact Hadded]. cbn. intros r [H1 H2]. auto.
      * cbn [List.map fst]. intros n [<- | Hn]; [apply Hmono, Hknown | apply Hcover, Hn].
    + exists (row :: added). split; [| split].
      * rewrite Hrows, Hrows1, <- List.app_assoc. reflexivity.
      * constructor.
        -- rewrite Hname. cbn. auto.
        -- eapply List.Forall_impl; [| exact Hadded]. cbn. intros r [H1 H2].
           split; [| auto]. unfold Store_first_by_name in *.
           rewrite Hrows1 in H1. apply (find_app_none _ _ _ H1).
      * cbn [List.map fst]. intros n [<- | Hn]; [| apply Hcover, Hn].
        apply Hmono. unfold Store_first_by_name in *. rewrite Hrows1.
        rewrite find_snoc_miss by exact Hnew. rewrite Hname, String.eqb_refl. discriminate.
Qed.

Lemma init_stores_known (items : list (string * pyval)) (t : StoreTable) :
  (forall n, List.In n (List.map fst items) -> Store_first_by_name t n <> None) ->
  init_stores t items = inr t.
Proof.
  induction items as [|[name cfg] rest IH]; cbn [init_stores]; [reflexivity |].
  intros Hknown. unfold init_store.
  destruct (Store_first_by_name t name) eqn:E.
  - apply IH. intros n Hn. apply Hknown. right. exact Hn.
  - exfalso. apply (Hknown name); [left; reflexivity | exact E].
Qed.

(** [init_database] can be run again on the database it has initialized:
    with the same configuration the second run succeeds and changes
    nothing. *)
Theorem init_database_idempotent (config : gmap string pyval) (t t' : StoreTable) :
  init_database config t = inr t' ->
  init_database config t' = inr t'.
Proof.
  unfold init_database.
  destruct (config !! "add-stores") as [[| | | | | | items] |]; try discriminate.
  - intros H. apply init_stores_known.
    apply init_stores_spec in H as (_ & _ & _ & Hcover). exact Hcover.
  - cbn. intros H; injection H as <-. reflexivity.
Qed.

Lemma init_database_idempotent_witness :
  exists t',
    init_database Examples.config_two_stores Examples.no_stores = inr t'
    /\ List.map StoreRow.name (store_rows t') = ["pot1"; "pot2"]
    /\ init_database Examples.config_two_stores t' = inr t'.
Proof.
  eexists. split; [reflexivity |]. split; [reflexivity |].
  apply init_database_idempotent with (t := Examples.no_stores). reflexivity.
Defined.

(** [init_database] never changes or removes a store: the table after a
    successful run is the table before followed by one new row for each
    configured name that no store had, and afterwards every configured
    name has a store. *)
Theorem init_database_adds_missing_stores (config : gmap string pyval)
    (items : list (string * pyval)) (t t' : StoreTable) :
  config !! "add-stores" = Some (VDict items) ->
  init_database config t = inr t' ->
  exists added,
    store_rows t' = (store_rows t ++ added)%list
    /\ List.Forall (fun r => Store_first_by_name t (StoreRow.name r) = None
                             /\ List.In (StoreRow.name r) (List.map fst items)) added
    /\ forall n, List.In n (List.map fst items) -> Store_first_by_name t' n <> None.
Proof.
  unfold init_database. intros ->. apply init_stores_spec.
Qed.

Lemma init_database_adds_missing_stores_witness :
  exists added,
    init_database Examples.config_two_stores Examples.table_pot2
    = inr {| store_rows := [Examples.old_pot2; Examples.new_pot1]; store_id_seq := 8 |}
    /\ [Examples.old_pot2; Examples.new_pot1] = ([Examples.old_pot2] ++ added)%list.
Proof.
  destruct (init_database_adds_missing_stores Examples.config_two_stores
              Examples.two_stores Examples.table_pot2
              {| store_rows := [Examples.old_pot2; Examples.new_pot1]; store_id_seq := 8 |}
              eq_refl eq_refl) as (added & Hrows & _ & _).
  exists added. split; [reflexivity | exact Hrows].
Defined.

(** A store of the configuration that lacks [path_prefix] or [ssh_host]
    stops [init_database] with a [KeyError] when no store has its name yet,
    and is passed over when one has. *)
Theorem init_database_incomplete_store (t : StoreTable) (name : string)
    (cfg : list (string * pyval)) (key : string) :
  (key = "path_prefix" \/ (key = "ssh_host" /\ kwargs_get "path_prefix" cfg <> None)) ->
  kwargs_get key cfg = None ->
  init_store t name (VDict cfg)
  = match Store_first_by_name t name with
    | Some _ => inr t
    | None => inl (KeyError key)
    end.
Proof.
  intros Hkey Hmiss. unfold init_store.
  destruct (Store_first_by_name t name); [reflexivity |].
  unfold cfg_getitem.
  destruct Hkey as [-> | [-> Hpp]].
  - rewrite Hmiss. reflexivity.
  - destruct (kwargs_get "path_prefix" cfg); [| contradiction].
    rewrite Hmiss. reflexivity.
Qed.

Lemma init_database_incomplete_store_witness :
  init_database Examples.config_broken_store Examples.no_stores = inl (KeyError "ssh_host").
Proof.
  unfold init_database, Examples.config_broken_store.
  rewrite lookup_insert_eq. cbn [init_stores].
  change (init_store Examples.no_stores "pot1" _)
    with (inr (A := init_exn)
              {| store_rows := [{| StoreRow.id := 1; StoreRow.name := "pot1";
                                   StoreRow.path_prefix := VStr "/data1";
                                   StoreRow.ssh_host := VStr "pot1.example";
                                   StoreRow.http_prefix := VNone;
                                   StoreRow.available := VBool true |}];
                 store_id_seq := 1 |}).
  cbv iota beta.
  rewrite (init_database_incomplete_store _ "pot3" [("path_prefix", VStr "/data3")] "ssh_host").
  - reflexivity.
  - right. split; [reflexivity | discriminate].
  - reflexivity.
Defined.
